(** * The decision and validation core of the trading swarm

    A shallow embedding of the Python sources of [ai_trading_swarm_v25]:

    - [agents/arbitration_engine.py]  (module [Arbitration])
    - [analysis/regime_engine.py]     (module [Regime])
    - [trading/kelly_sizer.py]        (module [Kelly]; [Kelly64] in binary64)
    - [strategies/portfolio.py]       (module [Portfolio])
    - [backtesting/engine.py], [backtesting/metrics.py] (module [Backtest])
    - [lab/storage.py], [lab/orchestrator.py], [lab/selection.py] (module [Lab])
    - [agents/base_agent.py], [agents/consensus_engine.py] (module [Collector])
    - [strategies/btc_breakout_v1.py], [strategies/registry.py] (module [Strategies])
    - [strategies/executor.py]        (module [Executor])
    - [backtesting/run_backtest.py]   (module [RunBacktest])
    - [main_v2_5.py], [risk/trade_validator.py], [risk/correlation_manager.py]
      (module [Cycle])
    - [state/global_state.py], [monitoring/failsafe.py] (module [State])
    - [agents/memory.py]              (module [Memory])

    Numbers.  Python floats are modelled by exact rationals [Q]: a
    statement over [Q] is about the arithmetic the code writes down, not
    about binary64 rounding, and is kept to what rounding does not change
    (comparisons, the shape of a result, a value within a tolerance).
    Equality of computed numbers is [Qeq] ([==]).  Where the last bit of a
    result matters, the code is modelled a second time in binary64
    (modules [F64], [Kelly64], [Arbitration64]).
    Where plain Python raises ([ZeroDivisionError], [KeyError],
    [IndexError]) the model returns [Raise].  A numpy or pandas division
    does not raise: where its divisor can be zero the result is an
    [npfloat], a rational, an infinity or not-a-number.

    Dictionaries.  A dict that is only read ([agent_scores], a feature
    snapshot, thresholds, backtest statistics) is a [gmap string Q].  A dict
    that is built and then iterated (the weight mappings) is an
    insertion-ordered association list, [PyDict.t], because Python iterates
    a dict in insertion order and assignment to an existing key keeps the
    key's position. *)

From Stdlib Require Import QArith Qabs Qminmax Qround Lqa ZArith Lia List.
From Stdlib Require Import Floats.SpecFloat.
From stdpp Require Import gmap strings list.

Open Scope Q_scope.

(** ** Exceptions *)

Inductive exn : Set :=
| KeyError
| IndexError
| ZeroDivisionError
| TypeError.

Inductive result (A : Type) : Type :=
| Ok (a : A)
| Raise (e : exn).

Arguments Ok {A} a.
Arguments Raise {A} e.

Definition bind {A B : Type} (m : result A) (k : A -> result B) : result B :=
  match m with
  | Ok a => k a
  | Raise e => Raise e
  end.

Notation "'do' x <- m ; k" := (bind m (fun x => k))
  (at level 10, x name, m at level 100, k at level 200).
Notation "'do' ' p <- m ; k" := (bind m (fun x => match x with p => k end))
  (at level 10, p pattern, m at level 100, k at level 200).

(** [try: body except Exception: handler] *)
Definition try_except {A : Type} (body : result A) (handler : exn -> result A)
    : result A :=
  match body with
  | Ok a => Ok a
  | Raise e => handler e
  end.

Definition raises {A : Type} (m : result A) : Prop := exists e, m = Raise e.

Definition returns {A : Type} (m : result A) : Prop := exists a, m = Ok a.

(** ** Python and numpy arithmetic on exact rationals *)

(** [x < y] on numbers, as a boolean. *)
Definition Qltb (x y : Q) : bool := negb (Qle_bool y x).

(** [x / y] on Python floats raises when [y] is zero. *)
Definition py_div (x y : Q) : result Q :=
  if Qeq_bool y 0 then Raise ZeroDivisionError else Ok (x / y).

(** [d[k]] on a read-only dict. *)
Definition py_getitem (d : gmap string Q) (k : string) : result Q :=
  match d !! k with
  | Some v => Ok v
  | None => Raise KeyError
  end.

(** [d.get(k, dflt)] *)
Definition py_get (d : gmap string Q) (k : string) (dflt : Q) : Q :=
  default dflt (d !! k).

(** [int(x)] truncates towards zero. *)
Definition py_int (x : Q) : Z := Z.quot (Qnum x) (Z.pos (Qden x)).

Definition py_len {A : Type} (l : list A) : Z := Z.of_nat (length l).

(** A stable sort by an integer key: [sorted(l, key=...)], and the order
    pandas gives a frame with pairwise distinct index labels. *)
Fixpoint insert_by {A : Type} (key : A -> Z) (x : A) (l : list A) : list A :=
  match l with
  | [] => [x]
  | y :: l' =>
      if (key x <=? key y)%Z then x :: y :: l' else y :: insert_by key x l'
  end.

Definition sorted_by {A : Type} (key : A -> Z) (l : list A) : list A :=
  fold_right (insert_by key) [] l.

(** The builtin [sum]: left to right, from 0. *)
Definition py_sum (xs : list Q) : Q := fold_left Qplus xs 0.

Definition np_sum (xs : list Q) : Q := fold_right Qplus 0 xs.

Definition np_dot (xs ys : list Q) : Q := np_sum (zip_with Qmult xs ys).

Definition np_mean (xs : list Q) : Q := np_sum xs / inject_Z (py_len xs).

(** The radicand of [np.std]: [mean(abs(x - x.mean())**2)]. *)
Definition np_var (xs : list Q) : Q :=
  let m := np_mean xs in
  np_mean (map (fun x => Qabs (x - m) * Qabs (x - m)) xs).

(** [np.std].  The square root is a parameter: any function of the value.
    A float has one representation per value, a [Q] has many, so the
    radicand is put in lowest terms before the root is taken. *)
Definition np_std (np_sqrt : Q -> Q) (xs : list Q) : Q :=
  np_sqrt (Qred (np_var xs)).

(** A numpy float that need not be finite. *)
Inductive npfloat : Type :=
| Finite (q : Q)
| PosInf
| NegInf
| NaN.

(** [x / y] on numpy floats: a zero divisor gives an infinity, or
    not-a-number for 0 / 0. *)
Definition np_div (x y : Q) : npfloat :=
  if Qeq_bool y 0 then
    if Qltb 0 x then PosInf else if Qltb x 0 then NegInf else NaN
  else Finite (x / y).

(** [x - c] for a finite [c]. *)
Definition np_sub (x : npfloat) (c : Q) : npfloat :=
  match x with
  | Finite q => Finite (q - c)
  | PosInf => PosInf
  | NegInf => NegInf
  | NaN => NaN
  end.

(** One step of [Series.min()], which skips not-a-number: the minimum of
    the values seen so far and the next value. *)
Definition nan_min (acc x : npfloat) : npfloat :=
  match acc, x with
  | NaN, _ => x
  | _, NaN => acc
  | NegInf, _ => NegInf
  | _, NegInf => NegInf
  | PosInf, _ => x
  | _, PosInf => acc
  | Finite p, Finite q => Finite (Qmin p q)
  end.

(** [x <= c] on a numpy float: false for not-a-number. *)
Definition np_le (x : npfloat) (c : Q) : Prop :=
  match x with
  | Finite q => q <= c
  | NegInf => True
  | PosInf => False
  | NaN => False
  end.

(** ** Python floats in binary64 *)

Module F64.

(** A Python [float] and a numpy [float64] are IEEE 754 binary64 numbers,
    and their operations round to the nearest, ties to even: the
    operations of [SpecFloat] at precision 53.  The sign of a
    not-a-number is not kept. *)
Definition prec : Z := 53.
Definition emax : Z := 1024.

Definition float : Type := spec_float.

Definition add : float -> float -> float := SFadd prec emax.
Definition sub : float -> float -> float := SFsub prec emax.
Definition mul : float -> float -> float := SFmul prec emax.
Definition sqrt : float -> float := SFsqrt prec emax.
Definition abs : float -> float := SFabs.
Definition succ : float -> float := SFsucc prec emax.

(** The division of numpy, which does not raise. *)
Definition div : float -> float -> float := SFdiv prec emax.

(** [x == y], [x < y] and [x <= y]: false when an operand is
    not-a-number. *)
Definition eqb : float -> float -> bool := SFeqb.
Definition ltb : float -> float -> bool := SFltb.
Definition leb : float -> float -> bool := SFleb.

Definition nan : float := S754_nan.

Definition is_nan (x : float) : bool :=
  match x with
  | S754_nan => true
  | _ => false
  end.

(** [float(n)] for an integer. *)
Definition of_Z (n : Z) : float := binary_normalize prec emax n 0 false.

Definition zero : float := of_Z 0.
Definition one : float := of_Z 1.

(** The literal that is written [n / 10^k] in decimal, as in [0.55] for
    [lit 55 2].  A literal is the float nearest to the decimal number; for
    [|n| < 2^53] and [k <= 22] both [n] and [10^k] are floats, and
    their quotient, rounded once, is that nearest float. *)
Definition lit (n : Z) (k : nat) : float :=
  div (of_Z n) (of_Z (10 ^ Z.of_nat k)).

(** [x / y] on Python floats raises when [y] is zero. *)
Definition py_div (x y : float) : result float :=
  if eqb y zero then Raise ZeroDivisionError else Ok (div x y).

(** The builtins [min(a, b)] and [max(a, b)]: the first argument, unless
    the second is smaller, or larger. *)
Definition py_min (a b : float) : float := if ltb b a then b else a.

Definition py_max (a b : float) : float := if ltb a b then b else a.

(** [lo <= x <= hi] *)
Definition between (lo hi x : float) : bool := leb lo x && leb x hi.

(** [np.sum] of fewer than eight values, for which numpy's pairwise
    summation is the plain loop from the left. *)
Definition sum (xs : list float) : float := fold_left add xs zero.

(** [np.mean] *)
Definition mean (xs : list float) : float :=
  div (sum xs) (of_Z (Z.of_nat (length xs))).

(** [np.std]: [sqrt(mean((x - x.mean())**2))] *)
Definition std (xs : list float) : float :=
  let m := mean xs in
  sqrt (mean (map (fun x => mul (sub x m) (sub x m)) xs)).

End F64.


(** ** Insertion-ordered dictionaries *)

Module PyDict.

Definition t (V : Type) : Type := list (string * V).

(** [d[k] = v]: overwrite in place, or append a new key. *)
Fixpoint set {V : Type} (k : string) (v : V) (d : t V) : t V :=
  match d with
  | [] => [(k, v)]
  | (k', v') :: d' =>
      if decide (k = k') then (k, v) :: d' else (k', v') :: set k v d'
  end.

Fixpoint get {V : Type} (k : string) (d : t V) : option V :=
  match d with
  | [] => None
  | (k', v') :: d' => if decide (k = k') then Some v' else get k d'
  end.

(** [d[k] = f(d[k])] for a key that is present ([d[k] *= c], [d[k] /= c]). *)
Fixpoint alter {V : Type} (f : V -> V) (k : string) (d : t V) : t V :=
  match d with
  | [] => []
  | (k', v') :: d' =>
      if decide (k = k') then (k', f v') :: d' else (k', v') :: alter f k d'
  end.

Definition keys {V : Type} (d : t V) : list string := map fst d.

Definition values {V : Type} (d : t V) : list V := map snd d.

(** [{k: v for k, v in items}] *)
Definition of_items {V : Type} (items : list (string * V)) : t V :=
  fold_left (fun d kv => set (fst kv) (snd kv) d) items [].

End PyDict.

(** ** agents/arbitration_engine.py *)

Module Arbitration.

(** The fields of a response that the engine reads. *)
Record Response : Type := {
  agent_id : string;
  sentiment : Q;
  confidence : Q
}.

Record Consensus : Type := {
  out_sentiment : Q;
  out_confidence : Q;
  dissent_score : Q;
  weights : PyDict.t Q;
  out_agent_scores : gmap string Q
}.

Section Engine.

Variable np_sqrt : Q -> Q.

(** [self.agent_scores] *)
Variable agent_scores : gmap string Q.

(** [w = base_score * r["confidence"]] *)
Definition weight_of (r : Response) : Q :=
  py_get agent_scores (agent_id r) 1 * confidence r.

(** [weights_arr], after the fallback to [np.ones_like]. *)
Definition weights_arr (responses : list Response) : list Q :=
  let weights := map weight_of responses in
  if Qle_bool (np_sum weights) 0 then map (fun _ => 1) weights else weights.

(** Two names for the proofs: whether the fallback is taken, and the weight
    the engine then uses for one response. *)
Definition fallback (responses : list Response) : bool :=
  Qle_bool (np_sum (map weight_of responses)) 0.

Definition pick (fb : bool) (r : Response) : Q :=
  if fb then 1 else weight_of r.

Definition weights_norm (responses : list Response) : list Q :=
  let arr := weights_arr responses in
  map (fun w => w / np_sum arr) arr.

Definition calculate_weighted_consensus (responses : list Response) : Consensus :=
  match responses with
  | [] =>
      {| out_sentiment := 0; out_confidence := 0; dissent_score := 0;
         weights := []; out_agent_scores := agent_scores |}
  | _ :: _ =>
      let sentiments := map sentiment responses in
      let confidences := map confidence responses in
      {| out_sentiment := np_dot (weights_norm responses) sentiments;
         out_confidence := np_dot (weights_norm responses) confidences;
         dissent_score := np_std np_sqrt sentiments;
         weights :=
           PyDict.of_items (zip (map agent_id responses) (weights_norm responses));
         out_agent_scores := agent_scores |}
  end.

End Engine.

(** The result for an empty list of responses. *)
Definition zero_consensus (agent_scores : gmap string Q) : Consensus :=
  {| out_sentiment := 0; out_confidence := 0; dissent_score := 0;
     weights := []; out_agent_scores := agent_scores |}.

(** The sum of the values of the weight mapping. *)
Definition weight_total (c : Consensus) : Q := py_sum (PyDict.values (weights c)).

(** Two opinions filed under one advisor id. *)
Definition twice_the_same_advisor : list Response :=
  [ {| agent_id := "one:llama"; sentiment := 0.2; confidence := 0.5 |};
    {| agent_id := "one:llama"; sentiment := 0.4; confidence := 0.5 |} ].

(** Three advisors, one without confidence. *)
Definition three_advisors : list Response :=
  [ {| agent_id := "one:llama"; sentiment := 0.2; confidence := 0.5 |};
    {| agent_id := "two:mistral"; sentiment := -0.4; confidence := 1 |};
    {| agent_id := "three:qwen"; sentiment := 1; confidence := 0 |} ].

(** Two advisors of one mind, with different confidence. *)
Definition twice_the_same_advisor_agreeing : list Response :=
  [ {| agent_id := "one:llama"; sentiment := 0.2; confidence := 0.5 |};
    {| agent_id := "two:mistral"; sentiment := 0.2; confidence := 0.9 |} ].

End Arbitration.

(** ** agents/arbitration_engine.py: the dissent score in binary64 *)

Module Arbitration64.

(** [dissent_score = float(np.std(sentiments))] on the sentiments of a
    non-empty list of fewer than eight responses.  The two [np.dot]
    products are left to the exact model: the order in which a linear
    algebra library adds the products is not fixed by the code. *)
Definition dissent_score (sentiments : list F64.float) : F64.float :=
  F64.std sentiments.

(** The sentiments -1.0, -0.9 and -0.7 of three advisors. *)
Definition three_bears : list F64.float :=
  [F64.lit (-10) 1; F64.lit (-9) 1; F64.lit (-7) 1].

End Arbitration64.


(** ** analysis/regime_engine.py *)

Module Regime.

(** [classify] returns [{"regime": regime}]; the model returns the label. *)
Definition classify (f : gmap string Q) : string :=
  let vol := py_get f "realized_vol_24h" 0.02 in
  let obi := py_get f "orderbook_imbalance" 0 in
  let social_urg := py_get f "social_urgency" 0 in
  if Qltb 0.05 vol && Qltb 0.5 social_urg then "panic"
  else if Qltb 0.15 (Qabs obi) && Qltb vol 0.04 then "trend"
  else if Qltb vol 0.015 then "quiet"
  else "chop".

Record Scaled : Type := {
  sc_sentiment : Q;
  sc_confidence : Q;
  sc_max_position_size : Q
}.

Definition scale_consensus (sentiment confidence : Q) : Scaled :=
  {| sc_sentiment := sentiment; sc_confidence := confidence;
     sc_max_position_size := 0.05 |}.

(** A quiet market: low volatility, a small imbalance, no urgency given. *)
Definition quiet_snapshot : gmap string Q :=
  <["realized_vol_24h" := 0.01]> (<["orderbook_imbalance" := 0.05]> ∅).

End Regime.

(** ** trading/kelly_sizer.py *)

Module Kelly.

(** The two attributes [__init__] reads from the configuration. *)
Record KellyPositionSizer : Type := {
  kelly_fraction : Q;
  max_position : Q
}.

Definition default_stats : gmap string Q :=
  <["win_rate" := 0.55]> (<["avg_win" := 0.03]> (<["avg_loss" := 0.02]> ∅)).

(** The body of the [try] block; an early [return] is an [Ok]. *)
Definition kelly_body (self : KellyPositionSizer)
    (consensus backtest_stats : gmap string Q) : result Q :=
  do p <- py_getitem backtest_stats "win_rate";
  do avg_win <- py_getitem backtest_stats "avg_win";
  do raw_loss <- py_getitem backtest_stats "avg_loss";
  let avg_loss := Qabs raw_loss in
  if Qeq_bool avg_loss 0 then Ok (max_position self * 0.5)
  else
    do b <- py_div avg_win avg_loss;
    let q := 1 - p in
    do kelly <- py_div (p * b - q) b;
    let position_size := kelly * kelly_fraction self in
    let confidence := py_get consensus "confidence" 0.7 in
    let position_size := position_size * confidence in
    Ok (Qmin (Qmax position_size 0) (max_position self)).

Definition calculate_position_size (self : KellyPositionSizer)
    (consensus : gmap string Q) (backtest_stats : option (gmap string Q)) : result Q :=
  let backtest_stats := default default_stats backtest_stats in
  try_except (kelly_body self consensus backtest_stats)
             (fun _ => Ok (max_position self * 0.5)).

(** The worked example of the specification. *)
Definition example_sizer : KellyPositionSizer :=
  {| kelly_fraction := 0.25; max_position := 0.05 |}.

Definition example_stats : gmap string Q :=
  <["win_rate" := 0.55]> (<["avg_win" := 0.03]> (<["avg_loss" := 0.02]> ∅)).

Definition full_confidence : gmap string Q := <["confidence" := 1]> ∅.

(** Statistics without the key [avg_win], and with a zero [avg_win]. *)
Definition stats_missing_key : gmap string Q :=
  <["win_rate" := 0.55]> (<["avg_loss" := 0.02]> ∅).

Definition stats_zero_win : gmap string Q :=
  <["win_rate" := 0.55]> (<["avg_win" := 0]> (<["avg_loss" := 0.02]> ∅)).

(** [get_backtest_stats], which ignores the strategy id it is given. *)
Definition get_backtest_stats : gmap string Q :=
  <["win_rate" := 0.58]> (<["avg_win" := 0.035]> (<["avg_loss" := 0.018]> ∅)).

End Kelly.

(** ** trading/kelly_sizer.py in binary64 *)

Module Kelly64.

Record KellyPositionSizer : Type := {
  kelly_fraction : F64.float;
  max_position : F64.float
}.

Definition default_stats : gmap string F64.float :=
  <["win_rate" := F64.lit 55 2]>
    (<["avg_win" := F64.lit 3 2]> (<["avg_loss" := F64.lit 2 2]> ∅)).

Definition getitem (d : gmap string F64.float) (k : string) : result F64.float :=
  match d !! k with
  | Some v => Ok v
  | None => Raise KeyError
  end.

(** The lines [b = avg_win / avg_loss], [q = 1 - p] and
    [kelly = (p * b - q) / b]: the values of [b] and [kelly]. *)
Definition kelly_criterion (p avg_win avg_loss : F64.float)
    : result (F64.float * F64.float) :=
  do b <- F64.py_div avg_win avg_loss;
  let q := F64.sub F64.one p in
  do kelly <- F64.py_div (F64.sub (F64.mul p b) q) b;
  Ok (b, kelly).

(** The lines from [position_size = kelly * self.kelly_fraction] to
    [position_size *= confidence]. *)
Definition scaled_size (self : KellyPositionSizer) (kelly confidence : F64.float)
    : F64.float :=
  let position_size := F64.mul kelly (kelly_fraction self) in
  F64.mul position_size confidence.

(** The body of the [try] block; an early [return] is an [Ok]. *)
Definition kelly_body (self : KellyPositionSizer)
    (consensus backtest_stats : gmap string F64.float) : result F64.float :=
  do p <- getitem backtest_stats "win_rate";
  do avg_win <- getitem backtest_stats "avg_win";
  do raw_loss <- getitem backtest_stats "avg_loss";
  let avg_loss := F64.abs raw_loss in
  if F64.eqb avg_loss F64.zero then Ok (F64.mul (max_position self) (F64.lit 5 1))
  else
    do ' (b, kelly) <- kelly_criterion p avg_win avg_loss;
    let confidence := default (F64.lit 7 1) (consensus !! "confidence"%string) in
    let position_size := scaled_size self kelly confidence in
    Ok (F64.py_min (F64.py_max position_size F64.zero) (max_position self)).

Definition calculate_position_size (self : KellyPositionSizer)
    (consensus : gmap string F64.float)
    (backtest_stats : option (gmap string F64.float)) : result F64.float :=
  let backtest_stats := default default_stats backtest_stats in
  try_except (kelly_body self consensus backtest_stats)
             (fun _ => Ok (F64.mul (max_position self) (F64.lit 5 1))).

(** The worked example of the specification, with any cap. *)
Definition example_sizer (cap : F64.float) : KellyPositionSizer :=
  {| kelly_fraction := F64.lit 25 2; max_position := cap |}.

Definition example_stats : gmap string F64.float :=
  <["win_rate" := F64.lit 55 2]>
    (<["avg_win" := F64.lit 3 2]> (<["avg_loss" := F64.lit 2 2]> ∅)).

Definition full_confidence : gmap string F64.float :=
  <["confidence" := F64.one]> ∅.

(** A consensus whose confidence is not a number. *)
Definition no_confidence : gmap string F64.float :=
  <["confidence" := F64.nan]> ∅.

End Kelly64.


(** ** strategies/portfolio.py *)

Module Portfolio.

Record StrategyAllocation : Type := {
  strategy_id : string;
  weight : Q
}.

(** One of the two [for i, sid in enumerate(approved_strategies)] loops:
    [weights[sid] *= 1.2] where [favoured i], else [weights[sid] *= 0.8]. *)
Fixpoint tilt_loop (favoured : nat -> bool) (i : nat) (sids : list string)
    (weights : PyDict.t Q) : PyDict.t Q :=
  match sids with
  | [] => weights
  | sid :: sids' =>
      let c := if favoured i then 1.2 else 0.8 in
      tilt_loop favoured (S i) sids' (PyDict.alter (fun w => w * c) sid weights)
  end.

(** [for sid in weights: weights[sid] /= total] *)
Definition normalise (total : Q) (weights : PyDict.t Q) : PyDict.t Q :=
  fold_left (fun d sid => PyDict.alter (fun w => w / total) sid d)
            (PyDict.keys weights) weights.

Definition plan_portfolio (approved_strategies : list string)
    (sentiment confidence : Q) : list StrategyAllocation :=
  match approved_strategies with
  | [] => []
  | _ :: _ =>
      let n := length approved_strategies in
      let base_weight := 1 / inject_Z (Z.max (Z.of_nat n) 1) in
      let tilt := sentiment * confidence in
      let weights :=
        PyDict.of_items (map (fun sid => (sid, base_weight)) approved_strategies) in
      let weights :=
        if (2 <=? n)%nat && Qltb 0.1 (Qabs tilt) then
          let mid := (n / 2)%nat in
          if Qltb 0 tilt
          then tilt_loop (fun i => (i <? mid)%nat) 0 approved_strategies weights
          else tilt_loop (fun i => (mid <=? i)%nat) 0 approved_strategies weights
        else weights in
      let total := py_sum (PyDict.values weights) in
      let weights := if Qltb 0 total then normalise total weights else weights in
      map (fun kv => {| strategy_id := fst kv; weight := snd kv |}) weights
  end.

(** The weight a strategy id receives in an allocation list. *)
Definition weight_in (allocs : list StrategyAllocation) (sid : string) : option Q :=
  weight <$> List.find (fun a => bool_decide (strategy_id a = sid)) allocs.

(** Example inputs: four distinct strategies, and a list that repeats ids. *)
Definition four_strategies : list string :=
  ["breakout"; "meanrev"; "momentum"; "carry"]%string.

Definition repeated_strategies : list string :=
  ["breakout"; "meanrev"; "breakout"; "meanrev"]%string.

(** The weight the [i]-th of [n] strategies holds before the weights are
    divided by their total: the base weight, times 1.2 or 0.8 when the
    tilt is applied. *)
Definition raw_weight (n : nat) (tilt : Q) (i : nat) : Q :=
  let base_weight := 1 / inject_Z (Z.max (Z.of_nat n) 1) in
  if (2 <=? n)%nat && Qltb 0.1 (Qabs tilt) then
    let mid := (n / 2)%nat in
    if Qltb 0 tilt
    then base_weight * (if (i <? mid)%nat then 1.2 else 0.8)
    else base_weight * (if (mid <=? i)%nat then 1.2 else 0.8)
  else base_weight.

Definition three_strategies : list string :=
  ["breakout"; "meanrev"; "momentum"]%string.

End Portfolio.

(** ** backtesting/metrics.py and backtesting/engine.py *)

Module Backtest.

Inductive SignalType : Set :=
| ENTRY_LONG
| EXIT_LONG
| ENTRY_SHORT
| EXIT_SHORT.

(** Timestamps are integers (any linearly ordered clock). *)
Record Signal : Type := {
  timestamp : Z;
  signal_type : SignalType;
  price : Q;
  size_fraction : Q
}.

Record TradeRecord : Type := {
  entry_time : option Z;
  entry_price : Q;
  exit_time : Z;
  exit_price : Q;
  pnl : Q;
  return_pct : Q;
  forced_exit : bool
}.

(** [sharpe] is left out of the model: it is the one metric that needs a
    square root and pandas' not-a-number for a single return. *)
Record BacktestMetrics : Type := {
  total_return : npfloat;
  max_drawdown : npfloat;
  win_rate : Q;
  profit_factor : Q;
  num_trades : Z
}.

Record BacktestResult : Type := {
  equity_curve : list (Z * Q);
  trades : list TradeRecord;
  metrics : BacktestMetrics
}.

(** [Series.cummax] *)
Fixpoint cummax_from (m : Q) (xs : list Q) : list Q :=
  match xs with
  | [] => []
  | x :: xs' => let m' := Qmax m x in m' :: cummax_from m' xs'
  end.

Definition cummax (xs : list Q) : list Q :=
  match xs with
  | [] => []
  | x :: xs' => x :: cummax_from x xs'
  end.

(** [equity_curve / equity_curve.cummax() - 1.0] *)
Definition drawdown (equity : list Q) : list npfloat :=
  zip_with (fun e m => np_sub (np_div e m) 1) equity (cummax equity).

(** [Series.min] of a non-empty series. *)
Definition series_min (x : npfloat) (xs : list npfloat) : npfloat :=
  fold_left nan_min xs x.

(** [compute_metrics]; [equity_curve.iloc[-1]] raises on an empty curve. *)
Definition compute_metrics (equity : list Q) (trade_returns : list Q)
    : result BacktestMetrics :=
  match equity with
  | [] => Raise IndexError
  | first :: _ =>
      let total_return := np_sub (np_div (List.last equity first) first) 1 in
      let max_drawdown :=
        match drawdown equity with
        | [] => Finite 0
        | d :: ds => series_min d ds
        end in
      let wins := List.filter (fun r => Qltb 0 r) trade_returns in
      let losses := List.filter (fun r => Qle_bool r 0) trade_returns in
      let num_trades := py_len trade_returns in
      let win_rate :=
        if (0 <? num_trades)%Z then inject_Z (py_len wins) / inject_Z num_trades
        else 0 in
      let gross_profit := py_sum wins in
      let gross_loss := match losses with [] => 0 | _ :: _ => - py_sum losses end in
      let profit_factor :=
        if Qltb 0 gross_loss then gross_profit / gross_loss else 0 in
      Ok {| total_return := total_return; max_drawdown := max_drawdown;
            win_rate := win_rate; profit_factor := profit_factor;
            num_trades := num_trades |}
  end.

(** The local variables of [BacktestEngine.run]. *)
Record Sim : Type := {
  in_position : bool;
  position_size : Q;
  cur_entry_price : Q;
  cur_entry_time : option Z;
  capital : Q;
  sim_trades : list TradeRecord;
  trade_returns : list Q
}.

Definition init_sim (initial_capital : Q) : Sim :=
  {| in_position := false; position_size := 0; cur_entry_price := 0;
     cur_entry_time := None; capital := initial_capital;
     sim_trades := []; trade_returns := [] |}.

(** The [ENTRY_LONG] branch, after the size has been computed. *)
Definition open_position (st : Sim) (qty price : Q) (ts : Z) : Sim :=
  {| in_position := true; position_size := qty; cur_entry_price := price;
     cur_entry_time := Some ts; capital := capital st;
     sim_trades := sim_trades st; trade_returns := trade_returns st |}.

(** Closing the open position at [price]: the [EXIT_LONG] branch, and the
    forced exit after the last bar ([forced = true]). *)
Definition close_position (initial_capital : Q) (st : Sim) (price : Q) (ts : Z)
    (forced : bool) : Sim :=
  let pnl := position_size st * (price - cur_entry_price st) in
  let ret_pct := pnl / Qmax 1e-9 initial_capital in
  let trade :=
    {| entry_time := cur_entry_time st; entry_price := cur_entry_price st;
       exit_time := ts; exit_price := price; pnl := pnl; return_pct := ret_pct;
       forced_exit := forced |} in
  {| in_position := if forced then in_position st else false;
     position_size := if forced then position_size st else 0;
     cur_entry_price := cur_entry_price st;
     cur_entry_time := cur_entry_time st;
     capital := capital st + pnl;
     sim_trades := sim_trades st ++ [trade];
     trade_returns := trade_returns st ++ [ret_pct] |}.

(** The [while] loop at one bar: the pending signals (the suffix
    [signals_sorted[sig_idx:]]) whose timestamp is at most [ts]. *)
Fixpoint consume_signals (initial_capital : Q) (ts : Z) (price : Q)
    (pending : list Signal) (st : Sim) : result (Sim * list Signal) :=
  match pending with
  | [] => Ok (st, [])
  | sig :: rest =>
      if (timestamp sig <=? ts)%Z then
        match signal_type sig, in_position st with
        | ENTRY_LONG, false =>
            let risk_frac := size_fraction sig in
            if Qle_bool risk_frac 0 then
              consume_signals initial_capital ts price rest st
            else
              do qty <- py_div (capital st * risk_frac) price;
              consume_signals initial_capital ts price rest
                (open_position st qty price (timestamp sig))
        | EXIT_LONG, true =>
            consume_signals initial_capital ts price rest
              (close_position initial_capital st price (timestamp sig) false)
        | _, _ => consume_signals initial_capital ts price rest st
        end
      else Ok (st, pending)
  end.

(** [float(df.loc[ts, "close"])]: a label that occurs once gives its close;
    a label that occurs several times gives a Series, which [float] refuses. *)
Definition loc_close (df : list (Z * Q)) (ts : Z) : result Q :=
  match List.filter (fun row => (fst row =? ts)%Z) df with
  | [] => Raise KeyError
  | [row] => Ok (snd row)
  | _ :: _ :: _ => Raise TypeError
  end.

(** The equity of the current bar. *)
Definition mark_to_market (st : Sim) (price : Q) : Q :=
  if in_position st
  then capital st + position_size st * (price - cur_entry_price st)
  else capital st.

(** [for ts in df.index].  The curve is kept as the list of the values
    written by [equity_curve.loc[ts] = ...], in index order; the seed
    [equity_curve.iloc[0] = initial_capital] is overwritten by the first
    pass of the loop. *)
Fixpoint run_bars (initial_capital : Q) (df : list (Z * Q)) (index : list Z)
    (pending : list Signal) (st : Sim) (curve : list (Z * Q))
    : result (Sim * list (Z * Q)) :=
  match index with
  | [] => Ok (st, curve)
  | ts :: index' =>
      do price <- loc_close df ts;
      do ' (st', pending') <- consume_signals initial_capital ts price pending st;
      run_bars initial_capital df index' pending' st'
        (curve ++ [(ts, mark_to_market st' price)])
  end.

(** [equity_curve.iloc[-1] = v] *)
Definition set_last (v : Q) (curve : list (Z * Q)) : list (Z * Q) :=
  match List.rev curve with
  | [] => []
  | (ts, _) :: before => List.rev before ++ [(ts, v)]
  end.

(** [BacktestEngine.run], given the signals the strategy generated. *)
Definition run (initial_capital : Q) (signals : list Signal)
    (candles : list (Z * Q)) : result BacktestResult :=
  let df := sorted_by fst candles in
  match List.rev df with
  | [] => Raise IndexError
  | (last_ts, last_price) :: _ =>
      let signals_sorted := sorted_by timestamp signals in
      do ' (st, curve) <-
        run_bars initial_capital df (map fst df) signals_sorted
                 (init_sim initial_capital) [];
      let ' (st, curve) :=
        if in_position st && Qltb 0 (position_size st) then
          let st' := close_position initial_capital st last_price last_ts true in
          (st', set_last (capital st') curve)
        else (st, curve) in
      do m <- compute_metrics (map snd curve) (trade_returns st);
      Ok {| equity_curve := curve; trades := sim_trades st; metrics := m |}
  end.

(** The bar that fills a signal: the first bar of the sorted frame at or
    after the signal's timestamp. *)
Definition fill_bar (df : list (Z * Q)) (sig : Signal) : option (Z * Q) :=
  List.find (fun bar => (timestamp sig <=? fst bar)%Z) df.

(** A bar whose close [df.loc] reads back. *)
Definition quoted (df : list (Z * Q)) (bar : Z * Q) : Prop :=
  loc_close df (fst bar) = Ok (snd bar).

(** A label of the index whose close can be read and is not zero. *)
Definition priced (df : list (Z * Q)) (ts : Z) : Prop :=
  exists c, loc_close df ts = Ok c /\ ~ c == 0.

(** The account is worth the initial capital at price [c]: nothing has been
    won or lost, and an open position was entered at [c]. *)
Definition at_par (initial_capital c : Q) (st : Sim) : Prop :=
  capital st == initial_capital
  /\ (in_position st = true -> cur_entry_price st == c).

(** The value of the last entry of an equity curve. *)
Definition final_equity (curve : list (Z * Q)) : option Q := snd <$> last curve.

(** Example data: three bars, an entry on the first and an exit on the last. *)
Definition three_bars : list (Z * Q) := [(1%Z, 100); (2%Z, 110); (3%Z, 120)].

Definition entry_signal : Signal :=
  {| timestamp := 1; signal_type := ENTRY_LONG; price := 100; size_fraction := 0.5 |}.

Definition exit_signal : Signal :=
  {| timestamp := 3; signal_type := EXIT_LONG; price := 120; size_fraction := 0 |}.

(** Ill-formed frames: a zero close on the entry bar, a repeated label. *)
Definition zero_close_bars : list (Z * Q) := [(1%Z, 0); (2%Z, 110); (3%Z, 120)].

Definition repeated_label_bars : list (Z * Q) := [(1%Z, 100); (1%Z, 110); (3%Z, 120)].

(** The signals of the two types the simulator acts on. *)
Definition is_long (sig : Signal) : bool :=
  match signal_type sig with
  | ENTRY_LONG => true
  | EXIT_LONG => true
  | ENTRY_SHORT => false
  | EXIT_SHORT => false
  end.

(** A signal that cannot open a position. *)
Definition idle (sig : Signal) : Prop :=
  signal_type sig <> ENTRY_LONG \/ size_fraction sig <= 0.



(** Example signals: a short entry, and an entry that stays open. *)
Definition short_signal : Signal :=
  {| timestamp := 2; signal_type := ENTRY_SHORT; price := 110; size_fraction := 0.5 |}.


End Backtest.

(** ** lab/storage.py, lab/orchestrator.py, lab/selection.py *)

Module Lab.

(** A row of table [strategies], without its primary key [id]: the table
    is the finite map from the key to the rest of the row. *)
Record StrategyRow : Type := {
  pair : string;
  timeframe : string;
  status : string
}.

(** A row of table [backtests]; [run_at] is the time of the insert. *)
Record BacktestRow : Type := {
  bt_strategy_id : string;
  run_at : Z;
  total_return : Q;
  max_drawdown : Q;
  sharpe : Q;
  win_rate : Q;
  profit_factor : Q;
  num_trades : Z
}.

Record DB : Type := {
  strategies : gmap string StrategyRow;
  backtests : list BacktestRow
}.

(** [SELECT * FROM backtests WHERE strategy_id = ? ORDER BY run_at DESC] *)
Definition get_backtests_for_strategy (db : DB) (sid : string) : list BacktestRow :=
  sorted_by (fun r => (- run_at r)%Z)
    (List.filter (fun r => bool_decide (bt_strategy_id r = sid)) (backtests db)).

(** [UPDATE strategies SET status = ? WHERE id = ?] *)
Definition set_strategy_status (db : DB) (sid new_status : string) : DB :=
  {| strategies :=
       alter (fun r => {| pair := pair r; timeframe := timeframe r;
                          status := new_status |}) sid (strategies db);
     backtests := backtests db |}.

Record StrategySummary : Type := {
  s_id : string;
  s_pair : string;
  s_timeframe : string;
  s_status : string;
  s_latest : option BacktestRow;
  s_num_backtests : Z
}.

(** One pass of the loop that builds the summaries: the latest backtest of
    the strategy and the number of its backtests. *)
Definition summarise (bt_rows : list BacktestRow) (sid : string)
    (srow : StrategyRow) : StrategySummary :=
  let mine := List.filter (fun r => bool_decide (bt_strategy_id r = sid)) bt_rows in
  {| s_id := sid; s_pair := pair srow; s_timeframe := timeframe srow;
     s_status := status srow; s_latest := head mine;
     s_num_backtests := py_len mine |}.

(** [SELECT * FROM strategies] gives the rows in an order SQL leaves open;
    the model takes the order of [map_to_list]. *)
Definition get_strategies_summary (db : DB) : list StrategySummary :=
  let strategies := map_to_list (strategies db) in
  let bt_rows := sorted_by (fun r => (- run_at r)%Z) (backtests db) in
  map (fun kv => summarise bt_rows (fst kv) (snd kv)) strategies.

(** [LabOrchestrator._evaluate_single], with [self.thresholds] and the
    database it queries as arguments. *)
Definition _evaluate_single (thresholds : gmap string Q) (db : DB)
    (strat : StrategySummary) : result string :=
  let sid := s_id strat in
  let bt_rows := get_backtests_for_strategy db sid in
  let min_bt := py_int (py_get thresholds "min_backtests" 1) in
  let min_trades := py_int (py_get thresholds "min_trades" 30) in
  let min_sharpe := py_get thresholds "min_sharpe" 1.0 in
  let max_dd := py_get thresholds "max_drawdown" 0.3 in
  let min_ret := py_get thresholds "min_total_return" 0.1 in
  let min_pf := py_get thresholds "min_profit_factor" 1.3 in
  if (py_len bt_rows <? min_bt)%Z then Ok "insufficient_data"
  else
    match bt_rows with
    | [] => Raise IndexError
    | latest :: _ =>
        if (num_trades latest <? min_trades)%Z then Ok "insufficient_data"
        else if Qle_bool min_ret (total_return latest)
                && Qle_bool (- max_dd) (max_drawdown latest)
                && Qle_bool min_sharpe (sharpe latest)
                && Qle_bool min_pf (profit_factor latest)
        then Ok "approved"
        else if Qltb (total_return latest) 0 || Qltb (profit_factor latest) 1.0
        then Ok "rejected"
        else Ok "experimental"
    end.

(** [evaluate_all]: the loop over the summaries read at its start. *)
Fixpoint evaluate_loop (thresholds : gmap string Q)
    (todo : list StrategySummary) (db : DB) : result DB :=
  match todo with
  | [] => Ok db
  | s :: todo' =>
      do new_status <- _evaluate_single thresholds db s;
      evaluate_loop thresholds todo' (set_strategy_status db (s_id s) new_status)
  end.

Definition evaluate_all (thresholds : gmap string Q) (db : DB) : result DB :=
  evaluate_loop thresholds (get_strategies_summary db) db.

Definition allowed_status : list string :=
  ["approved"; "experimental"; "insufficient_data"].

Definition get_approved_strategies_for_pair (db : DB) (pair timeframe : string)
    : list string :=
  let items := get_strategies_summary db in
  map s_id
    (List.filter
       (fun s => bool_decide (s_pair s = pair)
                 && bool_decide (s_timeframe s = timeframe)
                 && bool_decide (s_status s ∈ allowed_status))
       items).

(** Example data: thresholds that ask for no minimum number of backtests,
    and a database with one strategy per status and a single backtest. *)
Definition no_minimum : gmap string Q := <["min_backtests" := 0]> ∅.

Definition strategy (status : string) : StrategyRow :=
  {| pair := "BTC/USDT"; timeframe := "15m"; status := status |}.

Definition good_run : BacktestRow :=
  {| bt_strategy_id := "breakout"; run_at := 7; total_return := 0.25;
     max_drawdown := -0.1; sharpe := 1.5; win_rate := 0.6;
     profit_factor := 1.8; num_trades := 40 |}.

Definition example_db : DB :=
  {| strategies :=
       <["breakout" := strategy "approved"]>
         (<["meanrev" := strategy "rejected"]>
            (<["momentum" := strategy "experimental"]>
               (<["carry" := strategy "insufficient_data"]> ∅)));
     backtests := [good_run] |}.

(** The summary of a strategy that has never been backtested. *)
Definition never_run : StrategySummary :=
  {| s_id := "carry"; s_pair := "BTC/USDT"; s_timeframe := "15m";
     s_status := "insufficient_data"; s_latest := None; s_num_backtests := 0 |}.

(** [upsert_strategy]: a row that exists keeps its status and takes the new
    pair and timeframe; a new row is [experimental]. *)
Definition upsert_strategy (db : DB) (strategy_id new_pair new_timeframe : string)
    : DB :=
  let kept :=
    match strategies db !! strategy_id with
    | Some row => status row
    | None => "experimental"%string
    end in
  {| strategies :=
       <[strategy_id := {| pair := new_pair; timeframe := new_timeframe;
                           status := kept |}]> (strategies db);
     backtests := backtests db |}.

(** [record_backtest]: [now] is the clock at the insert, [metrics] the
    dict of metrics; a missing key raises. *)
Definition record_backtest (db : DB) (now : Z) (strategy_id : string)
    (metrics : gmap string Q) : result DB :=
  do m_total_return <- py_getitem metrics "total_return";
  do m_max_drawdown <- py_getitem metrics "max_drawdown";
  do m_sharpe <- py_getitem metrics "sharpe";
  do m_win_rate <- py_getitem metrics "win_rate";
  do m_profit_factor <- py_getitem metrics "profit_factor";
  do m_num_trades <- py_getitem metrics "num_trades";
  Ok {| strategies := strategies db;
        backtests :=
          backtests db ++
          [ {| bt_strategy_id := strategy_id; run_at := now;
               total_return := m_total_return; max_drawdown := m_max_drawdown;
               sharpe := m_sharpe; win_rate := m_win_rate;
               profit_factor := m_profit_factor;
               num_trades := py_int m_num_trades |} ] |}.

(** [get_strategy] *)
Definition get_strategy (db : DB) (strategy_id : string) : option StrategyRow :=
  strategies db !! strategy_id.

(** The four values the gate writes into column [status]. *)
Definition gate_status : list string :=
  ["approved"; "rejected"; "experimental"; "insufficient_data"].

(** The metrics of a backtest in which every trade won, as a dict. *)
Definition only_winners : gmap string Q :=
  <["total_return" := 0.5]>
    (<["max_drawdown" := 0]>
       (<["sharpe" := 3]>
          (<["win_rate" := 1]>
             (<["profit_factor" := 0]> (<["num_trades" := 40]> ∅))))).

End Lab.

(** ** Sorted lists *)

(** A list in ascending order of an integer key. *)
Fixpoint ascending {A : Type} (key : A -> Z) (l : list A) : Prop :=
  match l with
  | [] => True
  | x :: l' => Forall (fun y => (key x <= key y)%Z) l' /\ ascending key l'
  end.

(** ** agents/base_agent.py, agents/consensus_engine.py *)

(** [x < y] on floats that need not be finite: false as soon as one side is
    not-a-number. *)
Definition np_ltb (x y : npfloat) : bool :=
  match x, y with
  | NaN, _ => false
  | _, NaN => false
  | NegInf, NegInf => false
  | NegInf, _ => true
  | _, NegInf => false
  | PosInf, _ => false
  | Finite _, PosInf => true
  | Finite p, Finite q => Qltb p q
  end.

(** The builtins [min(a, b)] and [max(a, b)]: the first argument, unless the
    second is strictly smaller (larger). *)
Definition py_min (a b : npfloat) : npfloat := if np_ltb b a then b else a.

Definition py_max (a b : npfloat) : npfloat := if np_ltb a b then b else a.

Module Collector.

(** [max(min(sentiment, 1.0), -1.0)] *)
Definition clamp_sentiment (s : npfloat) : npfloat :=
  py_max (py_min s (Finite 1)) (Finite (-1)).

(** [max(min(confidence, 1.0), 0.0)] *)
Definition clamp_confidence (c : npfloat) : npfloat :=
  py_max (py_min c (Finite 1)) (Finite 0).

(** [BaseAgent._clamp_output], on two floats. *)
Definition _clamp_output (sentiment confidence : npfloat) : npfloat * npfloat :=
  (clamp_sentiment sentiment, clamp_confidence confidence).

(** What an agent answers.  A field is absent, or [float] of it raises, or
    it is a float. *)
Record Reply : Type := {
  reply_sentiment : option (result npfloat);
  reply_confidence : option (result npfloat)
}.

(** An agent as the collector sees it: its [agent_id] attribute if it has
    one, and the outcome of [analyze] on the current features, which raises,
    or is not a dict ([None] here), or is a dict. *)
Record Agent : Type := {
  agent_attr_id : option string;
  analyze : result (option Reply)
}.

Record Collected : Type := {
  c_agent_id : string;
  c_role : string;
  c_sentiment : npfloat;
  c_confidence : npfloat
}.

(** [float(resp.get(key, 0.0))] *)
Definition float_field (v : option (result npfloat)) : result npfloat :=
  default (Ok (Finite 0)) v.

Definition _call_agent (role : string) (agent : Agent) : result (option Collected) :=
  match analyze agent with
  | Raise _ => Ok None
  | Ok None => Ok None
  | Ok (Some resp) =>
      do sentiment <- float_field (reply_sentiment resp);
      do confidence <- float_field (reply_confidence resp);
      Ok (Some {| c_agent_id := default role (agent_attr_id agent);
                  c_role := role;
                  c_sentiment := clamp_sentiment sentiment;
                  c_confidence := clamp_confidence confidence |})
  end.

(** The loop over the gathered results: exceptions and [None] are dropped. *)
Fixpoint gather_loop (agents : list (string * Agent)) : list Collected :=
  match agents with
  | [] => []
  | (role, agent) :: rest =>
      match _call_agent role agent with
      | Raise _ => gather_loop rest
      | Ok None => gather_loop rest
      | Ok (Some res) => res :: gather_loop rest
      end
  end.

(** [features_available] says whether [_build_feature_snapshot] found a
    snapshot; [agents] are the items of the dict of agents, in its order. *)
Definition collect_agent_responses (features_available : bool)
    (agents : list (string * Agent)) : list Collected :=
  if features_available then gather_loop agents else [].

(** The arbitration engine reads [r["sentiment"]] and [r["confidence"]] as
    numbers; a response with finite values is one of its responses. *)
Definition to_response (c : Collected) : option Arbitration.Response :=
  match c_sentiment c, c_confidence c with
  | Finite s, Finite k =>
      Some {| Arbitration.agent_id := c_agent_id c;
              Arbitration.sentiment := s;
              Arbitration.confidence := k |}
  | _, _ => None
  end.

Definition number (x : npfloat) : Prop :=
  match x with
  | NaN => False
  | _ => True
  end.

(** A finite value between two bounds. *)
Definition within (lo hi : Q) (x : npfloat) : Prop :=
  match x with
  | Finite q => lo <= q <= hi
  | _ => False
  end.

Fixpoint to_responses (cs : list Collected) : option (list Arbitration.Response) :=
  match cs with
  | [] => Some []
  | c :: cs' =>
      match to_response c, to_responses cs' with
      | Some r, Some rs => Some (r :: rs)
      | _, _ => None
      end
  end.

(** Three agents: one answers out of range, one raises, one answers with a
    field that is not a number. *)
Definition three_agents : list (string * Agent) :=
  [ ("technical"%string,
     {| agent_attr_id := Some "technical:llama"%string;
        analyze := Ok (Some {| reply_sentiment := Some (Ok (Finite 3));
                               reply_confidence := Some (Ok PosInf) |}) |});
    ("macro"%string,
     {| agent_attr_id := None; analyze := Raise TypeError |});
    ("risk"%string,
     {| agent_attr_id := None;
        analyze := Ok (Some {| reply_sentiment := Some (Ok (Finite (-0.4)));
                               reply_confidence := None |}) |}) ].

End Collector.

(** ** strategies/base.py, strategies/btc_breakout_v1.py, strategies/registry.py *)

Module Strategies.

(** A row of the candle frame, with its index label. *)
Record Candle : Type := {
  c_time : Z;
  c_open : Q;
  c_high : Q;
  c_low : Q;
  c_close : Q;
  c_volume : Q
}.

(** [allow_short] is never read and is left out; a window length is not
    negative. *)
Record BTCBreakoutParams : Type := {
  lookback : nat;
  atr_period : nat;
  atr_mult : Q;
  risk_fraction : Q
}.

Definition default_params : BTCBreakoutParams :=
  {| lookback := 40; atr_period := 14; atr_mult := 1.5; risk_fraction := 0.02 |}.

(** [Series.rolling(n)] at one row: the last [n] values up to and including
    the row, once [n] values are there.  [seen] holds the values up to the
    row, the row's own value first.  [None] is pandas' not-a-number. *)
Definition rolling_window (n : nat) (seen : list Q) : option (list Q) :=
  if (1 <=? n)%nat && (n <=? length seen)%nat then Some (firstn n seen) else None.

Definition rolling_max (n : nat) (seen : list Q) : option Q :=
  match rolling_window n seen with
  | Some (x :: w) => Some (fold_left Qmax w x)
  | _ => None
  end.

Definition rolling_min (n : nat) (seen : list Q) : option Q :=
  match rolling_window n seen with
  | Some (x :: w) => Some (fold_left Qmin w x)
  | _ => None
  end.

Definition rolling_mean (n : nat) (seen : list Q) : option Q :=
  match rolling_window n seen with
  | Some w => Some (np_sum w / inject_Z (Z.of_nat n))
  | None => None
  end.

(** A row of the frame [prepare] returns. *)
Record Row : Type := {
  candle : Candle;
  hh : option Q;
  ll : option Q;
  mid : option Q;
  tr : Q;
  atr : option Q;
  range : option Q;
  range_atr_ratio : npfloat
}.

(** The true range: [np.nanmax] of the three candidates, two of which are
    not-a-number on the first row. *)
Definition true_range (c : Candle) (prev_close : option Q) : Q :=
  let tr1 := c_high c - c_low c in
  match prev_close with
  | None => tr1
  | Some pc => Qmax (Qmax tr1 (Qabs (c_high c - pc))) (Qabs (c_low c - pc))
  end.

(** [prepare], row by row; [highs], [lows] and [trs] are the columns up to
    the previous row, latest first, [prev_close] is [close.shift(1)]. *)
Fixpoint prepare_from (p : BTCBreakoutParams) (highs lows trs : list Q)
    (prev_close : option Q) (candles : list Candle) : list Row :=
  match candles with
  | [] => []
  | c :: rest =>
      let highs := c_high c :: highs in
      let lows := c_low c :: lows in
      let trs := true_range c prev_close :: trs in
      let hh := rolling_max (lookback p) highs in
      let ll := rolling_min (lookback p) lows in
      let mid :=
        match hh, ll with
        | Some h, Some l => Some ((h + l) / 2)
        | _, _ => None
        end in
      let atr := rolling_mean (atr_period p) trs in
      let range :=
        match hh, ll with
        | Some h, Some l => Some (h - l)
        | _, _ => None
        end in
      let ratio :=
        match range, atr with
        | Some r, Some a => np_div r (a + 1e-9)
        | _, _ => NaN
        end in
      {| candle := c; hh := hh; ll := ll; mid := mid;
         tr := true_range c prev_close; atr := atr; range := range;
         range_atr_ratio := ratio |}
      :: prepare_from p highs lows trs (Some (c_close c)) rest
  end.

Definition prepare (p : BTCBreakoutParams) (candles : list Candle) : list Row :=
  prepare_from p [] [] [] None candles.

Definition entry_at (p : BTCBreakoutParams) (c : Candle) : Backtest.Signal :=
  {| Backtest.timestamp := c_time c; Backtest.signal_type := Backtest.ENTRY_LONG;
     Backtest.price := c_close c; Backtest.size_fraction := risk_fraction p |}.

Definition exit_at (c : Candle) : Backtest.Signal :=
  {| Backtest.timestamp := c_time c; Backtest.signal_type := Backtest.EXIT_LONG;
     Backtest.price := c_close c; Backtest.size_fraction := 0 |}.

(** The loop of [generate_signals] over the prepared rows. *)
Fixpoint signal_loop (p : BTCBreakoutParams) (in_long : bool) (rows : list Row)
    : list Backtest.Signal :=
  match rows with
  | [] => []
  | row :: rest =>
      let price := c_close (candle row) in
      match hh row, ll row, range_atr_ratio row with
      | None, _, _ => signal_loop p in_long rest
      | _, None, _ => signal_loop p in_long rest
      | _, _, NaN => signal_loop p in_long rest
      | Some h, Some l, ratio =>
          if np_ltb ratio (Finite (atr_mult p)) then signal_loop p in_long rest
          else if negb in_long then
            if Qltb h price
            then entry_at p (candle row) :: signal_loop p true rest
            else signal_loop p in_long rest
          else
            if match mid row with Some m => Qltb price m | None => false end
               || Qltb price l
            then exit_at (candle row) :: signal_loop p false rest
            else signal_loop p in_long rest
      end
  end.

Definition generate_signals (p : BTCBreakoutParams) (candles : list Candle)
    : list Backtest.Signal :=
  signal_loop p false (prepare p candles).

(** A strategy object: its configuration and what [generate_signals]
    does on a frame, which may raise. *)
Record Strategy : Type := {
  strat_id : string;
  strat_pair : string;
  strat_timeframe : string;
  signals_of : list Candle -> result (list Backtest.Signal)
}.

(** A registry maps an id to the signal generator of its class, built
    with the default parameters ([params] is [{}] at every call site). *)
Definition Registry : Type := gmap string (list Candle -> result (list Backtest.Signal)).

Definition STRATEGY_REGISTRY : Registry :=
  {[ "btc_breakout_v1"%string := fun df => Ok (generate_signals default_params df) ]}.

(** [create_strategy]; [None] stands for the [ValueError] it raises on an
    unknown id. *)
Definition create_strategy (registry : Registry) (strategy_id pair timeframe : string)
    : option Strategy :=
  match registry !! strategy_id with
  | None => None
  | Some cls =>
      Some {| strat_id := strategy_id; strat_pair := pair; strat_timeframe := timeframe;
              signals_of := cls |}
  end.

(** Signals that take turns: an entry, an exit, an entry, ... *)
Fixpoint alternates (entry_next : bool) (signals : list Backtest.Signal) : Prop :=
  match signals with
  | [] => True
  | s :: rest =>
      Backtest.signal_type s
      = (if entry_next then Backtest.ENTRY_LONG else Backtest.EXIT_LONG)
      /\ alternates (negb entry_next) rest
  end.

(** A candle whose close is not above its high. *)
Definition well_formed (c : Candle) : Prop := c_close c <= c_high c.

(** Example frames: a close above the high on the third bar, then a fall. *)
Definition bar (t : Z) (h l c : Q) : Candle :=
  {| c_time := t; c_open := l; c_high := h; c_low := l; c_close := c;
     c_volume := 1 |}.

Definition short_params : BTCBreakoutParams :=
  {| lookback := 2; atr_period := 1; atr_mult := 0.5; risk_fraction := 0.02 |}.

Definition spike_frame : list Candle :=
  [ bar 1 10 8 9; bar 2 11 9 10; bar 3 12 10 13; bar 4 12 6 7 ].

Definition calm_frame : list Candle :=
  [ bar 1 10 8 9; bar 2 11 9 10; bar 3 12 10 12; bar 4 12 6 7 ].

End Strategies.

(** ** strategies/executor.py *)

Module Executor.

(** [meta] is kept as the weight it records. *)
Record ProposedTrade : Type := {
  symbol : string;
  side : string;
  position_frac : Q;
  strategy_id : string;
  meta_weight : Q
}.

(** Strategies that fail to instantiate are logged and left out. *)
Fixpoint _instantiate_strategies_for_context (registry : Strategies.Registry)
    (ctx_symbol ctx_timeframe : string) (strategy_ids : list string)
    : list Strategies.Strategy :=
  match strategy_ids with
  | [] => []
  | sid :: rest =>
      match Strategies.create_strategy registry sid ctx_symbol ctx_timeframe with
      | Some strat =>
          strat :: _instantiate_strategies_for_context registry ctx_symbol
                     ctx_timeframe rest
      | None =>
          _instantiate_strategies_for_context registry ctx_symbol ctx_timeframe rest
      end
  end.

(** One pass of [for strat in strategies]: the trade the strategy
    proposes, if any. *)
Definition propose (ctx_symbol : string) (weight_map : PyDict.t Q)
    (df : list Strategies.Candle) (strat : Strategies.Strategy)
    : option ProposedTrade :=
  let sid := Strategies.strat_id strat in
  let w := default 0 (PyDict.get sid weight_map) in
  if Qle_bool w 0 then None
  else
    match Strategies.signals_of strat df with
    | Raise _ => None
    | Ok signals =>
        match last signals with
        | None => None
        | Some last_sig =>
            match Backtest.signal_type last_sig with
            | Backtest.ENTRY_LONG =>
                Some {| symbol := ctx_symbol; side := "buy";
                        position_frac := Backtest.size_fraction last_sig * w;
                        strategy_id := sid; meta_weight := w |}
            | Backtest.EXIT_LONG =>
                Some {| symbol := ctx_symbol; side := "sell";
                        position_frac :=
                          if Qltb 0 (Backtest.size_fraction last_sig)
                          then Backtest.size_fraction last_sig * w else w;
                        strategy_id := sid; meta_weight := w |}
            | _ => None
            end
        end
    end.

Fixpoint trade_loop (ctx_symbol : string) (weight_map : PyDict.t Q)
    (df : list Strategies.Candle) (strategies : list Strategies.Strategy)
    : list ProposedTrade :=
  match strategies with
  | [] => []
  | strat :: rest =>
      match propose ctx_symbol weight_map df strat with
      | Some t => t :: trade_loop ctx_symbol weight_map df rest
      | None => trade_loop ctx_symbol weight_map df rest
      end
  end.

Definition generate_trades_for_context (registry : Strategies.Registry)
    (ctx_symbol ctx_timeframe : string) (candles : list Strategies.Candle)
    (allocations : list Portfolio.StrategyAllocation) : list ProposedTrade :=
  match allocations with
  | [] => []
  | _ :: _ =>
      let weight_map :=
        PyDict.of_items
          (map (fun a => (Portfolio.strategy_id a, Portfolio.weight a)) allocations) in
      let strategy_ids := PyDict.keys weight_map in
      let strategies :=
        _instantiate_strategies_for_context registry ctx_symbol ctx_timeframe
          strategy_ids in
      match strategies with
      | [] => []
      | _ :: _ =>
          let df := sorted_by Strategies.c_time candles in
          trade_loop ctx_symbol weight_map df strategies
      end
  end.

(** Example: a registry of two stub strategies, one of which raises. *)
Definition stub_registry : Strategies.Registry :=
  <[ "exits"%string :=
       fun _ => Ok [ {| Backtest.timestamp := 1;
                        Backtest.signal_type := Backtest.EXIT_LONG;
                        Backtest.price := 10; Backtest.size_fraction := 0 |} ] ]>
    (<[ "broken"%string := fun _ => Raise KeyError ]> ∅).

Definition stub_allocations : list Portfolio.StrategyAllocation :=
  [ {| Portfolio.strategy_id := "exits"; Portfolio.weight := 0.5 |};
    {| Portfolio.strategy_id := "broken"; Portfolio.weight := 0.3 |};
    {| Portfolio.strategy_id := "unknown"; Portfolio.weight := 0.2 |} ].

End Executor.

(** ** backtesting/run_backtest.py *)

Module RunBacktest.

(** [BacktestEngine.run] on a strategy object: the frame is sorted, the
    strategy generates its signals on it, and the simulation runs on the
    closes. *)
Definition engine_run (initial_capital : Q) (strat : Strategies.Strategy)
    (candles : list Strategies.Candle) : result Backtest.BacktestResult :=
  let df := sorted_by Strategies.c_time candles in
  do signals <- Strategies.signals_of strat df;
  Backtest.run initial_capital signals
    (map (fun c => (Strategies.c_time c, Strategies.c_close c)) candles).

(** [metrics_dict]; the Sharpe ratio, which the model of [compute_metrics]
    leaves out, is passed in.  The table of the model holds rationals, and
    sqlite refuses a not-a-number in a [NOT NULL] column, so there is no
    dict when a metric is not finite. *)
Definition metrics_dict (m : Backtest.BacktestMetrics) (sharpe : npfloat)
    : option (gmap string Q) :=
  match Backtest.total_return m, Backtest.max_drawdown m, sharpe with
  | Finite total_return, Finite max_drawdown, Finite sharpe =>
      Some (<["total_return" := total_return]>
             (<["max_drawdown" := max_drawdown]>
               (<["sharpe" := sharpe]>
                 (<["win_rate" := Backtest.win_rate m]>
                   (<["profit_factor" := Backtest.profit_factor m]>
                     (<["num_trades" := inject_Z (Backtest.num_trades m)]> ∅))))))
  | _, _, _ => None
  end.

(** How [main] ends: the backtest is recorded; or an exception leaves
    [main] after the strategy was registered; or the strategy id is
    unknown and [create_strategy] raises; or a metric is not finite. *)
Inductive Outcome : Type :=
| Recorded (db : Lab.DB)
| Raised (e : exn) (db : Lab.DB)
| UnknownStrategy
| NotFinite (db : Lab.DB).

(** [main], from [create_strategy] on.  [sharpe_of] stands for the Sharpe
    ratio of an equity curve, which is not-a-number for a curve of two
    points; [now] stands for the clock at the insert. *)
Definition main (registry : Strategies.Registry)
    (sharpe_of : list (Z * Q) -> npfloat) (db : Lab.DB) (now : Z)
    (strategy_id pair timeframe : string) (initial_capital : Q)
    (candles : list Strategies.Candle) : Outcome :=
  match Strategies.create_strategy registry strategy_id pair timeframe with
  | None => UnknownStrategy
  | Some strat =>
      let db := Lab.upsert_strategy db (Strategies.strat_id strat) pair timeframe in
      match engine_run initial_capital strat candles with
      | Raise e => Raised e db
      | Ok result =>
          let m := Backtest.metrics result in
          match metrics_dict m (sharpe_of (Backtest.equity_curve result)) with
          | None => NotFinite db
          | Some metrics =>
              match Lab.record_backtest db now (Strategies.strat_id strat) metrics with
              | Ok db' => Recorded db'
              | Raise e => Raised e db
              end
          end
      end
  end.

End RunBacktest.

(** ** risk/trade_validator.py, risk/correlation_manager.py, main_v2_5.py *)

Module Cycle.

(** [TradeValidator.validate]: the flag [valid] and the reason. *)
Definition validate (position_frac : Q) : bool * string :=
  if Qle_bool position_frac 0 then (false, "position_frac <= 0"%string)
  else if Qltb 0.2 position_frac
       then (false, "position_frac too large (>20%)"%string)
       else (true, "ok"%string).

(** [CorrelationRiskManager.check_trade_allowed] *)
Definition check_trade_allowed (proposed_asset : string) (proposed_size : Q)
    : bool := true.

(** The builtins [min(a, b)] and [max(a, b)] on finite floats. *)
Definition min_of (a b : Q) : Q := if Qltb b a then b else a.

Definition max_of (a b : Q) : Q := if Qltb a b then b else a.

(** The arguments of one call of [execute_trade]. *)
Record Order : Type := {
  o_symbol : string;
  o_side : string;
  o_position_frac : Q;
  o_strategy_id : string
}.

(** What a cycle does: the approved strategies of the context after it,
    the calls of [execute_trade] in order (each is reached if the calls
    before it return), and the increment of [trades_rejected]. *)
Record CycleOutcome : Type := {
  approved_after : list string;
  orders : list Order;
  rejected : Z
}.

(** Step 8: [for t in proposed_trades]. *)
Fixpoint order_loop (base_asset : string) (total_budget raw_sum : Q)
    (proposed : list Executor.ProposedTrade) : result (list Order * Z) :=
  match proposed with
  | [] => Ok ([], 0%Z)
  | t :: rest =>
      let base_frac := max_of (Executor.position_frac t) 0 in
      if Qle_bool base_frac 0 then order_loop base_asset total_budget raw_sum rest
      else
        do share <- py_div base_frac raw_sum;
        let effective_frac := total_budget * share in
        if Qle_bool effective_frac 0
        then order_loop base_asset total_budget raw_sum rest
        else if negb (check_trade_allowed base_asset effective_frac)
        then order_loop base_asset total_budget raw_sum rest
        else
          do ' (sent, n) <- order_loop base_asset total_budget raw_sum rest;
          if fst (validate effective_frac)
          then Ok ({| o_symbol := Executor.symbol t; o_side := Executor.side t;
                      o_position_frac := effective_frac;
                      o_strategy_id := Executor.strategy_id t |} :: sent, n)
          else Ok (sent, (n + 1)%Z)
  end.

(** [_run_cycle_for_context], from the refresh of the approved strategies
    to the calls of [execute_trade].  The agents' responses, taken to be
    finite numbers as the arbitration model has them, the live candles
    and the confidence threshold of the configuration are given.  The
    regime snapshot, the journal and the reading of the open positions,
    which [check_trade_allowed] ignores, are left out, and with them the
    exceptions these steps can raise: the result says what the cycle
    decides when they return. *)
Definition _run_cycle_for_context (np_sqrt : Q -> Q)
    (agent_scores : gmap string Q) (kelly_sizer : Kelly.KellyPositionSizer)
    (registry : Strategies.Registry) (db : Lab.DB) (confidence_threshold : Q)
    (enabled : bool) (symbol timeframe base_asset : string)
    (approved_strategies : list string) (iteration : Z)
    (agent_responses : list Arbitration.Response)
    (candles : list Strategies.Candle) : result CycleOutcome :=
  let stop approved :=
    Ok {| approved_after := approved; orders := []; rejected := 0 |} in
  if negb enabled then stop approved_strategies
  else
    let approved_strategies :=
      if (iteration mod 10 =? 1)%Z
      then Lab.get_approved_strategies_for_pair db symbol timeframe
      else approved_strategies in
    match approved_strategies, agent_responses with
    | [], _ => stop approved_strategies
    | _, [] => stop approved_strategies
    | _, _ =>
        let arb :=
          Arbitration.calculate_weighted_consensus np_sqrt agent_scores
            agent_responses in
        let scaled :=
          Regime.scale_consensus (Arbitration.out_sentiment arb)
            (Arbitration.out_confidence arb) in
        let sentiment := Regime.sc_sentiment scaled in
        let confidence := Regime.sc_confidence scaled in
        let max_position_size := Regime.sc_max_position_size scaled in
        if Qltb confidence confidence_threshold then stop approved_strategies
        else
          match Portfolio.plan_portfolio approved_strategies sentiment confidence,
                candles with
          | [], _ => stop approved_strategies
          | _, [] => stop approved_strategies
          | allocations, _ =>
              match Executor.generate_trades_for_context registry symbol
                      timeframe candles allocations with
              | [] => stop approved_strategies
              | proposed_trades =>
                  do total_budget <-
                    Kelly.calculate_position_size kelly_sizer
                      (<["confidence" := confidence]> ∅)
                      (Some Kelly.get_backtest_stats);
                  let total_budget := min_of total_budget max_position_size in
                  if Qle_bool total_budget 0 then stop approved_strategies
                  else
                    let raw_sum :=
                      py_sum (map (fun t => max_of (Executor.position_frac t) 0)
                                proposed_trades) in
                    if Qle_bool raw_sum 0 then stop approved_strategies
                    else
                      do ' (sent, n) <-
                        order_loop base_asset total_budget raw_sum proposed_trades;
                      Ok {| approved_after := approved_strategies;
                            orders := sent; rejected := n |}
              end
          end
    end.

(** Example: two advisors, and a registry with a strategy that always
    wants to buy with a tenth of its weight. *)
Definition eager_registry : Strategies.Registry :=
  {[ "eager"%string :=
       fun _ => Ok [ {| Backtest.timestamp := 1;
                        Backtest.signal_type := Backtest.ENTRY_LONG;
                        Backtest.price := 10; Backtest.size_fraction := 0.1 |} ] ]}.

End Cycle.

(** ** state/global_state.py, monitoring/failsafe.py *)

Module State.

(** A value of a trade's dict as [float] reads it: a number, or [None],
    on which [float] raises [TypeError].  Other values, such as strings,
    are not modelled. *)
Inductive value : Type :=
| Number (q : Q)
| PyNone.

(** [float(v)] *)
Definition py_float (v : value) : result Q :=
  match v with
  | Number q => Ok q
  | PyNone => Raise TypeError
  end.

(** The fields of [GlobalState] that [record_trade] and the failsafe use;
    an entry of [equity_curve] is kept as its [daily_pnl]. *)
Record GlobalState : Type := {
  is_trading_paused : bool;
  trades_executed : Z;
  daily_pnl : Q;
  equity_curve : list Q;
  trades_history : list (gmap string value)
}.

Definition fresh : GlobalState :=
  {| is_trading_paused := false; trades_executed := 0; daily_pnl := 0;
     equity_curve := []; trades_history := [] |}.

(** [record_trade]: the state it leaves, and the exception it raises, if
    any.  The trade is appended and counted before [float] reads its
    [pnl], so an exception leaves these two updates in place. *)
Definition record_trade (self : GlobalState) (trade : gmap string value)
    : GlobalState * option exn :=
  let self :=
    {| is_trading_paused := is_trading_paused self;
       trades_executed := (trades_executed self + 1)%Z;
       daily_pnl := daily_pnl self;
       equity_curve := equity_curve self;
       trades_history := trades_history self ++ [trade] |} in
  match py_float (default (Number 0) (trade !! "pnl"%string)) with
  | Raise e => (self, Some e)
  | Ok pnl =>
      let daily_pnl := daily_pnl self + pnl in
      ({| is_trading_paused := is_trading_paused self;
          trades_executed := trades_executed self;
          daily_pnl := daily_pnl;
          equity_curve := equity_curve self ++ [daily_pnl];
          trades_history := trades_history self |}, None)
  end.

Definition pause (self : GlobalState) : GlobalState :=
  {| is_trading_paused := true;
     trades_executed := trades_executed self;
     daily_pnl := daily_pnl self;
     equity_curve := equity_curve self;
     trades_history := trades_history self |}.

(** [FailsafeMonitor._check_once]: [cfg] is the [failsafe] section of the
    configuration, [initial_capital] the value in the [trading] section,
    [ram_pct] the reading of the memory in use. *)
Definition _check_once (cfg : gmap string Q) (initial_capital : Q) (ram_pct : Q)
    (state : GlobalState) : GlobalState :=
  if Qltb (py_get cfg "max_ram_usage_pct" 92) ram_pct then pause state
  else
    let max_dd := py_get cfg "max_daily_loss_pct" 0.05 in
    if Qltb (daily_pnl state) (- max_dd * initial_capital) then pause state
    else state.

(** What happens to the state, in any order: a trade is recorded, whether
    or not the call raises, or the failsafe checks with some reading of
    the memory. *)
Inductive Event : Type :=
| Trade (trade : gmap string value)
| FailsafeCheck (ram_pct : Q).

Definition step (cfg : gmap string Q) (initial_capital : Q) (state : GlobalState)
    (ev : Event) : GlobalState :=
  match ev with
  | Trade trade => fst (record_trade state trade)
  | FailsafeCheck ram_pct => _check_once cfg initial_capital ram_pct state
  end.

Definition after (cfg : gmap string Q) (initial_capital : Q)
    (events : list Event) (state : GlobalState) : GlobalState :=
  fold_left (step cfg initial_capital) events state.

(** The trades among the events, in order. *)
Definition trades_of (events : list Event) : list (gmap string value) :=
  omap (fun ev => match ev with
                  | Trade t => Some t
                  | FailsafeCheck _ => None
                  end) events.

(** Whether [float] reads the [pnl] of a trade, and the number it reads:
    that of field [pnl], or 0.0 when there is no such field. *)
Definition pnl_of (trade : gmap string value) : option Q :=
  match trade !! "pnl"%string with
  | None => Some 0
  | Some (Number q) => Some q
  | Some PyNone => None
  end.

(** Example: two losses, a trade without a result, a check, a gain and
    another check. *)
Definition losing_day : list Event :=
  [ Trade (<["pnl" := Number (-300)]> ∅); Trade (<["pnl" := Number (-250)]> ∅);
    Trade (<["pnl" := PyNone]> ∅); FailsafeCheck 40;
    Trade (<["pnl" := Number 900]> ∅); FailsafeCheck 40 ].

End State.

(** ** agents/memory.py *)

Module Memory.

(** A row of table [decisions]; the timestamp is left out. *)
Record Decision : Type := {
  dec_id : Z;
  dec_agent_id : string;
  dec_features : list Q;
  dec_sentiment : Q;
  dec_confidence : Q;
  dec_risk_level : string;
  dec_pnl : option Q
}.

Record AgentMemory : Type := {
  agent_id : string;
  decisions : list Decision
}.

Record MemoryExample : Type := {
  sentiment : Q;
  confidence : Q;
  risk_level : string;
  pnl : option Q;
  features : list Q
}.

Record MemoryStats : Type := {
  count : Z;
  with_pnl : Z;
  win_rate : option Q;
  avg_pnl : option Q
}.

(** The id an [AUTOINCREMENT] key gives the next row of a table from
    which nothing is deleted: one more than the largest id. *)
Definition next_id (rows : list Decision) : Z :=
  (1 + fold_right Z.max 0 (map dec_id rows))%Z.

(** [log_decision]: the memory after the insert, and [cur.lastrowid]. *)
Definition log_decision (self : AgentMemory) (features_vec : list Q)
    (sentiment confidence : Q) (risk_level : string) (pnl : option Q)
    : AgentMemory * Z :=
  let new_id := next_id (decisions self) in
  ({| agent_id := agent_id self;
      decisions :=
        decisions self ++
        [ {| dec_id := new_id; dec_agent_id := agent_id self;
             dec_features := features_vec; dec_sentiment := sentiment;
             dec_confidence := confidence; dec_risk_level := risk_level;
             dec_pnl := pnl |} ] |},
   new_id).

(** [LIMIT ?]: a negative limit is no limit. *)
Definition sql_limit {A : Type} (limit : Z) (rows : list A) : list A :=
  if (limit <? 0)%Z then rows else firstn (Z.to_nat limit) rows.

Definition example_of (r : Decision) : MemoryExample :=
  {| sentiment := dec_sentiment r; confidence := dec_confidence r;
     risk_level := dec_risk_level r; pnl := dec_pnl r;
     features := dec_features r |}.

(** [get_recent_examples]:
    [WHERE agent_id = ? ORDER BY id DESC LIMIT ?]. *)
Definition get_recent_examples (self : AgentMemory) (limit : Z)
    : list MemoryExample :=
  let rows :=
    sql_limit limit
      (sorted_by (fun r => (- dec_id r)%Z)
         (List.filter (fun r => bool_decide (dec_agent_id r = agent_id self))
            (decisions self))) in
  map example_of rows.

(** The values of [e.pnl] for the examples that have one. *)
Definition pnls (examples : list MemoryExample) : list Q := omap pnl examples.

Definition get_stats (self : AgentMemory) (lookback : Z) : MemoryStats :=
  let examples := get_recent_examples self lookback in
  let with_pnl := pnls examples in
  match with_pnl with
  | [] => {| count := py_len examples; with_pnl := 0; win_rate := None;
             avg_pnl := None |}
  | _ :: _ =>
      let wins := List.filter (fun x => Qltb 0 x) with_pnl in
      {| count := py_len examples;
         with_pnl := py_len with_pnl;
         win_rate := Some (inject_Z (py_len wins) / inject_Z (py_len with_pnl));
         avg_pnl := Some (py_sum with_pnl / inject_Z (py_len with_pnl)) |}
  end.

(** Example: a memory with three decisions of one agent and one of
    another. *)
Definition decision (i : Z) (who : string) (p : option Q) : Decision :=
  {| dec_id := i; dec_agent_id := who; dec_features := []; dec_sentiment := 0.1;
     dec_confidence := 0.5; dec_risk_level := "medium"; dec_pnl := p |}.

Definition small_memory : AgentMemory :=
  {| agent_id := "one:llama";
     decisions :=
       [ decision 1 "one:llama" (Some 12); decision 2 "two:qwen" (Some (-4));
         decision 3 "one:llama" None; decision 4 "one:llama" (Some (-3)) ] |}.

End Memory.

(** * Properties *)

(** ** Comparisons and sums of rationals *)

Lemma Qltb_lt (x y : Q) : Qltb x y = true <-> x < y.
Proof.
  unfold Qltb. rewrite negb_true_iff. split.
  - intros H. apply Qnot_le_lt. intros Hle.
    apply Qle_bool_iff in Hle. congruence.
  - intros H. destruct (Qle_bool y x) eqn:E; [|reflexivity].
    apply Qle_bool_iff in E. exfalso. exact (Qlt_not_le _ _ H E).
Qed.

Lemma Qltb_ge (x y : Q) : Qltb x y = false <-> y <= x.
Proof.
  unfold Qltb. rewrite negb_false_iff. apply Qle_bool_iff.
Qed.

Lemma Qle_bool_gt (x y : Q) : Qle_bool x y = false <-> y < x.
Proof.
  rewrite <- Qltb_lt. unfold Qltb. now rewrite negb_true_iff.
Qed.

Lemma Qeq_bool_ne (x y : Q) : Qeq_bool x y = false <-> ~ x == y.
Proof.
  split; [apply Qeq_bool_neq|].
  intros H. destruct (Qeq_bool x y) eqn:E; [|reflexivity].
  apply Qeq_bool_iff in E. contradiction.
Qed.

Lemma py_div_ok (x y : Q) : ~ y == 0 -> py_div x y = Ok (x / y).
Proof. intros H. unfold py_div. now rewrite (proj2 (Qeq_bool_ne y 0) H). Qed.

Lemma fold_left_Qplus (xs : list Q) (a : Q) : fold_left Qplus xs a == a + np_sum xs.
Proof.
  revert a. induction xs as [|x xs IH]; intros a; simpl.
  - ring.
  - rewrite IH. ring.
Qed.

Lemma py_sum_np_sum (xs : list Q) : py_sum xs == np_sum xs.
Proof. unfold py_sum. rewrite fold_left_Qplus. ring. Qed.

Lemma np_sum_ext {A : Type} (f g : A -> Q) (l : list A) :
  (forall x, f x == g x) -> np_sum (map f l) == np_sum (map g l).
Proof.
  intros Hfg. induction l as [|x l IH]; simpl; [reflexivity|].
  now rewrite IH, Hfg.
Qed.

Lemma np_sum_Permutation (xs ys : list Q) : xs ≡ₚ ys -> np_sum xs == np_sum ys.
Proof.
  induction 1 as [|x xs ys _ IH|x y xs|xs ys zs _ IH1 _ IH2]; simpl.
  - reflexivity.
  - now rewrite IH.
  - ring.
  - now rewrite IH1.
Qed.

Lemma np_sum_perm_ext {A : Type} (f g : A -> Q) (l l' : list A) :
  l ≡ₚ l' -> (forall x, f x == g x) -> np_sum (map f l) == np_sum (map g l').
Proof.
  intros Hp Hfg. rewrite (np_sum_ext f g l Hfg).
  apply np_sum_Permutation. now apply Permutation_map.
Qed.

Lemma np_sum_scale (c : Q) (xs : list Q) :
  np_sum (map (fun w => w / c) xs) == np_sum xs / c.
Proof.
  induction xs as [|x xs IH]; simpl.
  - unfold Qdiv. ring.
  - rewrite IH. unfold Qdiv. ring.
Qed.

Lemma np_sum_ones {A : Type} (l : list A) :
  np_sum (map (fun _ => 1) l) == inject_Z (py_len l).
Proof.
  unfold py_len. induction l as [|x l IH]; [reflexivity|].
  cbn [map np_sum fold_right length]. fold (np_sum (map (fun _ : A => 1) l)).
  rewrite IH, Nat2Z.inj_succ. unfold Z.succ. rewrite inject_Z_plus. ring.
Qed.

Lemma py_len_pos {A : Type} (l : list A) : l <> [] -> 0 < inject_Z (py_len l).
Proof.
  intros Hne. destruct l as [|x l]; [congruence|].
  unfold py_len. replace 0 with (inject_Z 0) by reflexivity.
  rewrite <- Zlt_Qlt. simpl length. lia.
Qed.

Lemma zip_with_map_same {A B C D : Type} (f : B -> C -> D) (g : A -> B)
    (h : A -> C) (l : list A) :
  zip_with f (map g l) (map h l) = map (fun x => f (g x) (h x)) l.
Proof. induction l as [|x l IH]; simpl; [reflexivity|now rewrite IH]. Qed.

(** ** Insertion-ordered dictionaries *)

Lemma PyDict_set_fresh {V : Type} (k : string) (v : V) (d : PyDict.t V) :
  k ∉ PyDict.keys d -> PyDict.set k v d = d ++ [(k, v)].
Proof.
  induction d as [|[k' v'] d IH]; simpl; intros Hk; [reflexivity|].
  apply not_elem_of_cons in Hk as [Hne Hk].
  destruct (decide (k = k')); [contradiction|].
  now rewrite IH.
Qed.

Lemma PyDict_fold_set_fresh {V : Type} (items acc : PyDict.t V) :
  NoDup (PyDict.keys (acc ++ items)) ->
  fold_left (fun d kv => PyDict.set (fst kv) (snd kv) d) items acc = acc ++ items.
Proof.
  revert acc. induction items as [|[k v] items IH]; intros acc Hnd; simpl.
  - now rewrite app_nil_r.
  - assert (Hfresh : k ∉ PyDict.keys acc).
    { unfold PyDict.keys in *. rewrite map_app in Hnd. simpl in Hnd.
      apply NoDup_app in Hnd as (_ & Hdisj & _).
      intros Hin. apply (Hdisj k Hin). left. }
    rewrite (PyDict_set_fresh k v acc Hfresh).
    rewrite IH; rewrite <- app_assoc; [reflexivity|exact Hnd].
Qed.

(** With pairwise distinct keys the comprehension keeps every item. *)
Lemma PyDict_of_items_NoDup {V : Type} (items : list (string * V)) :
  NoDup (map fst items) -> PyDict.of_items items = items.
Proof. intros Hnd. unfold PyDict.of_items. now rewrite PyDict_fold_set_fresh. Qed.

Lemma PyDict_get_In {V : Type} (k : string) (v : V) (d : PyDict.t V) :
  NoDup (PyDict.keys d) -> (k, v) ∈ d -> PyDict.get k d = Some v.
Proof.
  induction d as [|[k' v'] d IH]; simpl; intros Hnd Hin.
  - now apply elem_of_nil in Hin.
  - apply NoDup_cons in Hnd as [Hk' Hnd].
    apply elem_of_cons in Hin as [Heq|Hin].
    + inversion Heq; subst. now rewrite decide_True.
    + destruct (decide (k = k')) as [->|Hne]; [|now apply IH].
      exfalso. apply Hk'. unfold PyDict.keys.
      apply list_elem_of_fmap. now exists (k', v).
Qed.

(** ** The arbitration engine *)

Section ArbitrationFacts.

Import Arbitration.

Variable np_sqrt : Q -> Q.
Variable agent_scores : gmap string Q.

Lemma weights_arr_pick (rs : list Response) :
  weights_arr agent_scores rs
  = map (pick agent_scores (fallback agent_scores rs)) rs.
Proof.
  unfold weights_arr, fallback, pick.
  destruct (Qle_bool _ 0); [now rewrite map_map|reflexivity].
Qed.

Lemma weights_arr_sum_pos (rs : list Response) :
  rs <> [] -> 0 < np_sum (weights_arr agent_scores rs).
Proof.
  intros Hne. unfold weights_arr.
  destruct (Qle_bool _ 0) eqn:E.
  - rewrite np_sum_ones. apply py_len_pos.
    destruct rs; [congruence|discriminate].
  - now apply Qle_bool_gt.
Qed.

Lemma weights_norm_sum (rs : list Response) :
  rs <> [] -> np_sum (weights_norm agent_scores rs) == 1.
Proof.
  intros Hne. unfold weights_norm. rewrite np_sum_scale.
  pose proof (weights_arr_sum_pos rs Hne) as Hpos.
  field. intros Hz. rewrite Hz in Hpos. now apply Qlt_irrefl in Hpos.
Qed.

Lemma weights_norm_length (rs : list Response) :
  length (weights_norm agent_scores rs) = length rs.
Proof.
  unfold weights_norm. rewrite length_map, weights_arr_pick. apply length_map.
Qed.

Lemma weights_NoDup (r : Response) (rs : list Response) :
  NoDup (map agent_id (r :: rs)) ->
  weights (calculate_weighted_consensus np_sqrt agent_scores (r :: rs))
  = zip (map agent_id (r :: rs)) (weights_norm agent_scores (r :: rs)).
Proof.
  intros Hnd. cbn [calculate_weighted_consensus weights].
  apply PyDict_of_items_NoDup.
  rewrite fst_zip; [exact Hnd|].
  rewrite weights_norm_length, length_map. reflexivity.
Qed.

Lemma dot_norm (g : Response -> Q) (rs : list Response) :
  np_dot (weights_norm agent_scores rs) (map g rs)
  = let w := pick agent_scores (fallback agent_scores rs) in
    np_sum (map (fun r => w r / np_sum (map w rs) * g r) rs).
Proof.
  unfold np_dot, weights_norm. rewrite weights_arr_pick, map_map.
  now rewrite zip_with_map_same.
Qed.

Lemma fallback_Permutation (rs rs' : list Response) :
  rs ≡ₚ rs' -> fallback agent_scores rs = fallback agent_scores rs'.
Proof.
  intros Hp. unfold fallback.
  set (w := weight_of agent_scores).
  now rewrite (np_sum_perm_ext w w rs rs' Hp).
Qed.

Lemma dot_norm_Permutation (g : Response -> Q) (rs rs' : list Response) :
  rs ≡ₚ rs' ->
  np_dot (weights_norm agent_scores rs) (map g rs)
  == np_dot (weights_norm agent_scores rs') (map g rs').
Proof.
  intros Hp. rewrite !dot_norm, <- (fallback_Permutation rs rs' Hp).
  apply np_sum_perm_ext; [exact Hp|].
  intros r.
  set (w := pick agent_scores (fallback agent_scores rs)).
  now rewrite (np_sum_perm_ext w w rs rs' Hp).
Qed.

End ArbitrationFacts.

Lemma np_mean_perm_ext (f g : Q -> Q) (xs ys : list Q) :
  xs ≡ₚ ys -> (forall x, f x == g x) -> np_mean (map f xs) == np_mean (map g ys).
Proof.
  intros Hp Hfg. unfold np_mean, py_len.
  rewrite !length_map, (Permutation_length Hp).
  now rewrite (np_sum_perm_ext f g xs ys Hp Hfg).
Qed.

Lemma np_mean_Permutation (xs ys : list Q) : xs ≡ₚ ys -> np_mean xs == np_mean ys.
Proof.
  intros Hp. rewrite <- (map_id xs), <- (map_id ys).
  now apply np_mean_perm_ext.
Qed.

Lemma np_var_Permutation (xs ys : list Q) : xs ≡ₚ ys -> np_var xs == np_var ys.
Proof.
  intros Hp. unfold np_var. apply np_mean_perm_ext; [exact Hp|].
  intros x. now rewrite (np_mean_Permutation xs ys Hp).
Qed.

Lemma np_std_Permutation (np_sqrt : Q -> Q) (xs ys : list Q) :
  xs ≡ₚ ys -> np_std np_sqrt xs = np_std np_sqrt ys.
Proof.
  intros Hp. unfold np_std. f_equal. apply Qred_complete.
  now apply np_var_Permutation.
Qed.

(** [np_var] is the population variance: the mean squared deviation. *)
Lemma np_var_population (xs : list Q) :
  np_var xs
  == np_sum (map (fun x => (x - np_mean xs) * (x - np_mean xs)) xs)
     / inject_Z (py_len xs).
Proof.
  unfold np_var, np_mean at 1. unfold py_len. rewrite length_map.
  apply Qdiv_comp; [|reflexivity].
  apply np_sum_ext. intros x.
  apply Qabs_case; intros _; ring.
Qed.

Section ArbitrationClaims.

Import Arbitration.

(** C1.  For every list of advisor opinions with pairwise distinct
    advisor ids (an opinion is produced once per cycle per advisor, and
    the collector keys the agents by role):
    if the list is non-empty, the values of the output
    weight mapping sum to 1 (so also within 1e-9 of 1), whether or not any
    weight is positive; if moreover the total weight is at most 0, every
    supplied opinion's advisor is mapped to the uniform weight 1/n; and for
    the empty list the result is the zero-valued one (sentiment 0,
    confidence 0, dissent 0, empty weight mapping). *)
Theorem weight_mapping_sums_to_one (np_sqrt : Q -> Q)
    (agent_scores : gmap string Q) (rs : list Response) :
  NoDup (map agent_id rs) ->
  let c := calculate_weighted_consensus np_sqrt agent_scores rs in
  (rs <> [] -> weight_total c == 1 /\ Qabs (weight_total c - 1) <= 1e-9)
  /\ (rs <> [] -> np_sum (map (weight_of agent_scores) rs) <= 0 ->
      Forall (fun r => exists w, PyDict.get (agent_id r) (weights c) = Some w
                                 /\ w == 1 / inject_Z (py_len rs)) rs)
  /\ (rs = [] -> c = zero_consensus agent_scores).
Proof.
  intros Hnd c. split; [|split].
  - intros Hne. assert (Hsum : weight_total c == 1).
    { subst c. destruct rs as [|r rs]; [congruence|].
      unfold weight_total. rewrite (weights_NoDup np_sqrt agent_scores r rs Hnd).
      rewrite py_sum_np_sum. unfold PyDict.values.
      rewrite snd_zip by (rewrite weights_norm_length, length_map; reflexivity).
      now apply weights_norm_sum. }
    split; [exact Hsum|]. rewrite Hsum. vm_compute. discriminate.
  - intros Hne Hle. subst c. destruct rs as [|r0 rs0]; [congruence|].
    rewrite (weights_NoDup np_sqrt agent_scores r0 rs0 Hnd).
    set (rs := r0 :: rs0) in *.
    assert (Hfb : Arbitration.fallback agent_scores rs = true)
      by now apply Qle_bool_iff.
    assert (Hzip : zip (map agent_id rs) (weights_norm agent_scores rs)
                   = map (fun r => (agent_id r, 1 / np_sum (map (fun _ => 1) rs))) rs).
    { unfold weights_norm. rewrite weights_arr_pick, Hfb, map_map.
      apply (zip_with_map_same pair agent_id). }
    rewrite Hzip. apply Forall_forall. intros r Hr.
    exists (1 / np_sum (map (fun _ => 1) rs)). split.
    + apply PyDict_get_In.
      * unfold PyDict.keys. rewrite map_map. exact Hnd.
      * apply list_elem_of_fmap. exists r. split; [reflexivity|exact Hr].
    + now rewrite np_sum_ones.
  - intros ->. reflexivity.
Qed.

Lemma weight_mapping_sums_to_one_witness :
  NoDup (map agent_id three_advisors)
  /\ three_advisors <> []
  /\ weight_total (calculate_weighted_consensus (fun x => x) ∅ three_advisors) == 1.
Proof.
  assert (Hnd : NoDup (map agent_id three_advisors))
    by (apply (bool_decide_unpack _); vm_compute; exact I).
  split; [exact Hnd|]. split; [discriminate|].
  apply (weight_mapping_sums_to_one (fun x => x) ∅ three_advisors Hnd).
  discriminate.
Defined.

(** The mapping is keyed by advisor id, so the premise that the ids are
    distinct is used: were one advisor to file two opinions, the later
    entry would overwrite the earlier one, and the only value of the
    mapping would be 1/2. *)
Lemma repeated_advisor_breaks_weight_sum :
  twice_the_same_advisor <> []
  /\ Exists (fun r => 0 < weight_of ∅ r) twice_the_same_advisor
  /\ (exists w,
        weights (calculate_weighted_consensus (fun x => x) ∅ twice_the_same_advisor)
        = [("one:llama"%string, w)] /\ w == 0.5)
  /\ ~ Qabs (weight_total
               (calculate_weighted_consensus (fun x => x) ∅ twice_the_same_advisor)
             - 1) <= 1e-9.
Proof.
  split; [discriminate|]. split; [|split].
  - apply Exists_cons_hd. apply Qltb_lt. vm_compute. reflexivity.
  - eexists. split; [vm_compute; reflexivity|reflexivity].
  - intros H. apply Qle_bool_iff in H. vm_compute in H. discriminate.
Qed.

(** C8, as amended.  For every list of advisor opinions and every
    permutation of it, the output sentiment, confidence and dissent score
    are the same for both lists in exact arithmetic; the dissent score of a
    non-empty list is the square root of the population variance of the
    raw sentiments. *)
Theorem consensus_permutation_invariant (np_sqrt : Q -> Q)
    (agent_scores : gmap string Q) (rs rs' : list Response) :
  rs ≡ₚ rs' ->
  let c := calculate_weighted_consensus np_sqrt agent_scores rs in
  let c' := calculate_weighted_consensus np_sqrt agent_scores rs' in
  out_sentiment c == out_sentiment c'
  /\ out_confidence c == out_confidence c'
  /\ dissent_score c = dissent_score c'
  /\ (rs <> [] ->
      exists v, dissent_score c = np_sqrt (Qred v)
        /\ v == np_sum (map (fun r => (sentiment r - np_mean (map sentiment rs))
                                     * (sentiment r - np_mean (map sentiment rs))) rs)
                / inject_Z (py_len rs)).
Proof.
  intros Hp c c'. subst c c'.
  destruct rs as [|r rs].
  - apply Permutation_nil_l in Hp. subst rs'.
    repeat split; try reflexivity. congruence.
  - destruct rs' as [|r' rs'].
    { now apply Permutation_nil_r in Hp. }
    cbn [calculate_weighted_consensus out_sentiment out_confidence dissent_score].
    split; [now apply dot_norm_Permutation|].
    split; [now apply dot_norm_Permutation|].
    split; [apply np_std_Permutation; now apply Permutation_map|].
    intros _. eexists. split; [reflexivity|].
    rewrite np_var_population. unfold py_len. rewrite length_map, map_map.
    reflexivity.
Qed.

Lemma consensus_permutation_invariant_witness :
  three_advisors ≡ₚ rev three_advisors
  /\ out_sentiment (calculate_weighted_consensus (fun x => x) ∅ three_advisors)
     == out_sentiment (calculate_weighted_consensus (fun x => x) ∅ (rev three_advisors)).
Proof.
  split; [apply Permutation_rev|].
  apply (consensus_permutation_invariant (fun x => x) ∅ three_advisors
           (rev three_advisors) (Permutation_rev _)).
Defined.

(** C8 as stated fails in the binary64 arithmetic of the program, where a
    sum depends on the order of its terms: the dissent score of the
    sentiments -1.0, -0.9, -0.7 is 0.12472191289246473, and that of the
    same sentiments in reverse order is 0.12472191289246475. *)
Lemma dissent_depends_on_order :
  Arbitration64.three_bears ≡ₚ rev Arbitration64.three_bears
  /\ Arbitration64.dissent_score Arbitration64.three_bears
     = S754_finite false 8987160966839034 (-56)
  /\ Arbitration64.dissent_score (rev Arbitration64.three_bears)
     = S754_finite false 8987160966839035 (-56)
  /\ F64.eqb (Arbitration64.dissent_score Arbitration64.three_bears)
       (Arbitration64.dissent_score (rev Arbitration64.three_bears)) = false.
Proof.
  split; [apply Permutation_rev|].
  split; [vm_compute; reflexivity|].
  split; vm_compute; reflexivity.
Qed.

End ArbitrationClaims.

(** ** The regime classifier *)

Lemma Qltb_spec (x y : Q) : reflect (x < y) (Qltb x y).
Proof.
  destruct (Qltb x y) eqn:E; constructor.
  - now apply Qltb_lt.
  - apply Qltb_ge in E. now apply Qle_not_lt.
Qed.

Section RegimeClaims.

Import Regime.

(** C10.  For every feature snapshot the classifier returns one of the four
    labels panic, trend, quiet, chop, by the fixed priority order: panic if
    the 24h realized volatility exceeds 0.05 and the social urgency exceeds
    0.5; else trend if the absolute orderbook imbalance exceeds 0.15 and the
    volatility is below 0.04; else quiet if the volatility is below 0.015;
    else chop.  Missing features take the defaults 0.02, 0 and 0. *)
Theorem classify_priority_order (f : gmap string Q) :
  let vol := py_get f "realized_vol_24h" 0.02 in
  let obi := py_get f "orderbook_imbalance" 0 in
  let social_urg := py_get f "social_urgency" 0 in
  let panic := 0.05 < vol /\ 0.5 < social_urg in
  let trend := 0.15 < Qabs obi /\ vol < 0.04 in
  let quiet := vol < 0.015 in
  (panic -> classify f = "panic"%string)
  /\ (~ panic -> trend -> classify f = "trend"%string)
  /\ (~ panic -> ~ trend -> quiet -> classify f = "quiet"%string)
  /\ (~ panic -> ~ trend -> ~ quiet -> classify f = "chop"%string)
  /\ classify f ∈ ["panic"; "trend"; "quiet"; "chop"]%string.
Proof.
  intros vol obi social_urg panic trend quiet.
  unfold classify. fold vol obi social_urg.
  destruct (Qltb_spec 0.05 vol) as [H1|H1];
    destruct (Qltb_spec 0.5 social_urg) as [H2|H2];
    destruct (Qltb_spec 0.15 (Qabs obi)) as [H3|H3];
    destruct (Qltb_spec vol 0.04) as [H4|H4];
    destruct (Qltb_spec vol 0.015) as [H5|H5];
    cbn [andb]; unfold panic, trend, quiet;
    repeat split; try tauto; set_solver.
Qed.

Lemma classify_priority_order_witness :
  py_get quiet_snapshot "realized_vol_24h" 0.02 < 0.015
  /\ classify quiet_snapshot = "quiet"%string.
Proof.
  assert (Hq : py_get quiet_snapshot "realized_vol_24h" 0.02 < 0.015)
    by (apply Qltb_lt; vm_compute; reflexivity).
  split; [exact Hq|].
  apply (classify_priority_order quiet_snapshot); [| |exact Hq].
  - intros [H _]. apply Qltb_lt in H. vm_compute in H. discriminate.
  - intros [H _]. apply Qltb_lt in H. vm_compute in H. discriminate.
Defined.

End RegimeClaims.

(** ** The Kelly position sizer *)

Section KellyClaims.

Import Kelly.

(** C6, as amended.  With win_rate 0.55, avg_win 0.03, avg_loss 0.02,
    kelly_fraction 0.25 and confidence 1.0, in the binary64 arithmetic of
    the program: the payoff ratio is exactly 1.5; the Kelly fraction is
    the float next above 0.25, 0.25000000000000006; the scaled size is
    the float next above 0.0625; and for every cap the sizer returns
    the smaller of that size and the cap.  With max_position_size 0.05 it
    returns exactly 0.05, the cap. *)
Theorem kelly_worked_example (cap : F64.float) :
  Kelly64.kelly_criterion (F64.lit 55 2) (F64.lit 3 2) (F64.abs (F64.lit 2 2))
  = Ok (F64.lit 15 1, F64.succ (F64.lit 25 2))
  /\ Kelly64.scaled_size (Kelly64.example_sizer cap) (F64.succ (F64.lit 25 2))
       F64.one
     = F64.succ (F64.lit 625 4)
  /\ Kelly64.calculate_position_size (Kelly64.example_sizer cap)
       Kelly64.full_confidence (Some Kelly64.example_stats)
     = Ok (F64.py_min (F64.succ (F64.lit 625 4)) cap)
  /\ Kelly64.calculate_position_size (Kelly64.example_sizer (F64.lit 5 2))
       Kelly64.full_confidence (Some Kelly64.example_stats)
     = Ok (F64.lit 5 2).
Proof.
  assert (Kelly64.kelly_criterion (F64.lit 55 2) (F64.lit 3 2)
            (F64.abs (F64.lit 2 2))
          = Ok (F64.lit 15 1, F64.succ (F64.lit 25 2))) as Hcrit
    by (vm_compute; reflexivity).
  assert (Kelly64.scaled_size (Kelly64.example_sizer cap)
            (F64.succ (F64.lit 25 2)) F64.one
          = F64.succ (F64.lit 625 4)) as Hsize.
  { unfold Kelly64.scaled_size, Kelly64.example_sizer.
    cbn [Kelly64.kelly_fraction]. vm_compute. reflexivity. }
  split; [exact Hcrit|]. split; [exact Hsize|].
  split; [|vm_compute; reflexivity].
  unfold Kelly64.calculate_position_size, Kelly64.kelly_body.
  change (default Kelly64.default_stats (Some Kelly64.example_stats))
    with Kelly64.example_stats.
  assert (Kelly64.getitem Kelly64.example_stats "win_rate" = Ok (F64.lit 55 2))
    as -> by (vm_compute; reflexivity).
  assert (Kelly64.getitem Kelly64.example_stats "avg_win" = Ok (F64.lit 3 2))
    as -> by (vm_compute; reflexivity).
  assert (Kelly64.getitem Kelly64.example_stats "avg_loss" = Ok (F64.lit 2 2))
    as -> by (vm_compute; reflexivity).
  cbn [bind]. cbv zeta.
  assert (F64.eqb (F64.abs (F64.lit 2 2)) F64.zero = false) as ->
    by (vm_compute; reflexivity).
  rewrite Hcrit. cbn [bind].
  assert (Kelly64.full_confidence !! "confidence"%string = Some F64.one) as ->
    by (vm_compute; reflexivity).
  change (default (F64.lit 7 1) (Some F64.one)) with F64.one.
  rewrite Hsize.
  assert (F64.py_max (F64.succ (F64.lit 625 4)) F64.zero
          = F64.succ (F64.lit 625 4)) as -> by (vm_compute; reflexivity).
  reflexivity.
Qed.

(** C6 as stated has the Kelly fraction equal to 0.25: the program's
    value is larger. *)
Lemma kelly_fraction_is_not_a_quarter :
  exists b kelly,
    Kelly64.kelly_criterion (F64.lit 55 2) (F64.lit 3 2) (F64.abs (F64.lit 2 2))
    = Ok (b, kelly)
    /\ F64.eqb kelly (F64.lit 25 2) = false
    /\ F64.ltb (F64.lit 25 2) kelly = true.
Proof.
  do 2 eexists. split; [vm_compute; reflexivity|].
  split; vm_compute; reflexivity.
Qed.

Lemma kelly_fallback (self : KellyPositionSizer) (consensus : gmap string Q)
    (stats : option (gmap string Q)) :
  raises (kelly_body self consensus (default default_stats stats)) ->
  calculate_position_size self consensus stats = Ok (max_position self * 0.5).
Proof.
  intros [e He]. unfold calculate_position_size. now rewrite He.
Qed.

(** C9.  The sizer never propagates an exception: for every consensus
    mapping and every statistics mapping (or none) it returns a number; if
    avg_loss is zero it returns half of the configured maximum position
    size; and if the arithmetic raises (a missing key, a division by zero)
    it returns that same half-of-max fallback. *)
Theorem kelly_never_raises (self : KellyPositionSizer)
    (consensus : gmap string Q) (stats : option (gmap string Q)) :
  returns (calculate_position_size self consensus stats)
  /\ (forall l, default default_stats stats !! "avg_loss"%string = Some l ->
                l == 0 ->
      calculate_position_size self consensus stats = Ok (max_position self * 0.5))
  /\ (raises (kelly_body self consensus (default default_stats stats)) ->
      calculate_position_size self consensus stats = Ok (max_position self * 0.5)).
Proof.
  split; [|split].
  - unfold calculate_position_size, returns.
    destruct (kelly_body self consensus (default default_stats stats)); simpl; eauto.
  - intros l Hl Hz.
    destruct (kelly_body self consensus (default default_stats stats)) as [v|e] eqn:E.
    + unfold calculate_position_size. rewrite E. simpl. f_equal.
      revert E. unfold kelly_body, py_getitem. rewrite Hl.
      destruct (_ !! "win_rate"%string); simpl; [|discriminate].
      destruct (_ !! "avg_win"%string); simpl; [|discriminate].
      assert (Hb : Qeq_bool (Qabs l) 0 = true).
      { apply Qeq_bool_iff. rewrite Hz. reflexivity. }
      rewrite Hb. congruence.
    + apply kelly_fallback. now exists e.
  - apply kelly_fallback.
Qed.

Lemma kelly_never_raises_witness :
  raises (kelly_body example_sizer full_confidence
            (default default_stats (Some stats_missing_key)))
  /\ calculate_position_size example_sizer full_confidence (Some stats_missing_key)
     = Ok (max_position example_sizer * 0.5).
Proof.
  assert (Hr : raises (kelly_body example_sizer full_confidence
                         (default default_stats (Some stats_missing_key))))
    by (exists KeyError; vm_compute; reflexivity).
  split; [exact Hr|].
  apply (kelly_never_raises example_sizer full_confidence (Some stats_missing_key)).
  exact Hr.
Defined.

(** The two ways the arithmetic can raise, on concrete statistics. *)
Lemma kelly_body_exceptions :
  kelly_body example_sizer full_confidence stats_missing_key = Raise KeyError
  /\ kelly_body example_sizer full_confidence stats_zero_win = Raise ZeroDivisionError.
Proof. split; vm_compute; reflexivity. Qed.

End KellyClaims.

(** ** The portfolio planner *)

Lemma Qabs_gt_pos (t c : Q) : 0 < t -> c < Qabs t -> c < t.
Proof. intros Ht Hc. rewrite Qabs_pos in Hc by lra. exact Hc. Qed.

Lemma Qabs_gt_neg (t c : Q) : t <= 0 -> c < Qabs t -> t < - c.
Proof. intros Ht Hc. rewrite Qabs_neg in Hc by exact Ht. lra. Qed.

Lemma Qabs_le_both (t c : Q) : Qabs t <= c -> - c <= t /\ t <= c.
Proof. intros H. now apply Qabs_Qle_condition. Qed.

Lemma PyDict_alter_hd {V : Type} (f : V -> V) (k : string) (v : V) (d : PyDict.t V) :
  PyDict.alter f k ((k, v) :: d) = (k, f v) :: d.
Proof. simpl. now rewrite decide_True. Qed.

Lemma PyDict_alter_tl {V : Type} (f : V -> V) (k k' : string) (v : V) (d : PyDict.t V) :
  k <> k' -> PyDict.alter f k ((k', v) :: d) = (k', v) :: PyDict.alter f k d.
Proof. intros Hne. simpl. now rewrite decide_False. Qed.

Ltac alter_simpl :=
  repeat (rewrite PyDict_alter_hd || rewrite PyDict_alter_tl by congruence).

Section PortfolioClaims.

Import Portfolio.

(** C4, as amended.  For every list of exactly 4 pairwise distinct strategy
    ids and every (sentiment, confidence) pair, with tilt = sentiment *
    confidence: the four weights sum to 1; if tilt > 0.1 the first two
    strategies get 0.3 each and the last two 0.2 each, so each of the first
    two is strictly above each of the last two; if |tilt| <= 0.1 all four
    get 0.25; if tilt < -0.1 the last two get 0.3 each and the first two
    0.2 each. *)
Theorem four_strategy_allocation (a b c d : string) (sentiment confidence : Q) :
  NoDup [a; b; c; d] ->
  let tilt := sentiment * confidence in
  exists wa wb wc wd,
    plan_portfolio [a; b; c; d] sentiment confidence
    = [ {| strategy_id := a; weight := wa |}; {| strategy_id := b; weight := wb |};
        {| strategy_id := c; weight := wc |}; {| strategy_id := d; weight := wd |} ]
    /\ wa + wb + wc + wd == 1
    /\ Qabs (wa + wb + wc + wd - 1) <= 1e-9
    /\ (0.1 < tilt ->
        (wa == 0.3 /\ wb == 0.3 /\ wc == 0.2 /\ wd == 0.2)
        /\ wc < wa /\ wd < wa /\ wc < wb /\ wd < wb)
    /\ (Qabs tilt <= 0.1 ->
        wa == 0.25 /\ wb == 0.25 /\ wc == 0.25 /\ wd == 0.25)
    /\ (tilt < - 0.1 ->
        (wa == 0.2 /\ wb == 0.2 /\ wc == 0.3 /\ wd == 0.3)
        /\ wa < wc /\ wa < wd /\ wb < wc /\ wb < wd).
Proof.
  intros Hnd tilt.
  assert (Hne : a <> b /\ a <> c /\ a <> d /\ b <> c /\ b <> d /\ c <> d).
  { repeat (apply NoDup_cons in Hnd as [? Hnd]). set_solver. }
  destruct Hne as (Hab & Hac & Had & Hbc & Hbd & Hcd).
  unfold plan_portfolio. fold tilt.
  rewrite PyDict_of_items_NoDup by exact Hnd.
  destruct (Qltb_spec 0.1 (Qabs tilt)) as [Habs|Habs];
    [destruct (Qltb_spec 0 tilt) as [Hpos|Hpos]|];
    cbn [length Nat.leb andb Nat.div Nat.divmod fst snd map tilt_loop Nat.ltb];
    alter_simpl;
    cbn [PyDict.values map snd];
    match goal with
    | |- context [Qltb 0 ?t] =>
        replace (Qltb 0 t) with true by (vm_compute; reflexivity)
    end;
    unfold normalise;
    cbn [PyDict.keys map fst snd fold_left];
    alter_simpl;
    cbn [map fst snd];
    do 4 eexists; (split; [reflexivity|]).
  - split; [reflexivity|]. split; [vm_compute; discriminate|].
    split; [intros _|split; [intros Hle|intros Hlt]].
    + repeat split; reflexivity.
    + exfalso. apply Qabs_le_both in Hle. pose proof (Qabs_gt_pos _ _ Hpos Habs). lra.
    + exfalso. lra.
  - assert (Hneg : tilt <= 0) by (apply Qnot_lt_le; exact Hpos).
    pose proof (Qabs_gt_neg _ _ Hneg Habs) as Hlt'.
    split; [reflexivity|]. split; [vm_compute; discriminate|].
    split; [intros Hgt|split; [intros Hle|intros _]].
    + exfalso. lra.
    + exfalso. apply Qabs_le_both in Hle. lra.
    + repeat split; reflexivity.
  - assert (Hle' : Qabs tilt <= 0.1) by (apply Qnot_lt_le; exact Habs).
    apply Qabs_le_both in Hle'.
    split; [reflexivity|]. split; [vm_compute; discriminate|].
    split; [intros Hgt|split; [intros _|intros Hlt]].
    + exfalso. lra.
    + repeat split; reflexivity.
    + exfalso. lra.
Qed.

Lemma four_strategy_allocation_witness :
  NoDup four_strategies
  /\ exists wa wb wc wd,
       plan_portfolio four_strategies 1 0.5
       = [ {| strategy_id := "breakout"; weight := wa |};
           {| strategy_id := "meanrev"; weight := wb |};
           {| strategy_id := "momentum"; weight := wc |};
           {| strategy_id := "carry"; weight := wd |} ]
       /\ wa + wb + wc + wd == 1.
Proof.
  assert (Hnd : NoDup four_strategies)
    by (apply (bool_decide_unpack _); vm_compute; exact I).
  split; [exact Hnd|].
  destruct (four_strategy_allocation _ _ _ _ 1 0.5 Hnd)
    as (wa & wb & wc & wd & Heq & Hsum & _).
  exists wa, wb, wc, wd. split; [exact Heq|exact Hsum].
Defined.

(** C4 as stated fails twice.  A tilt of -1 is at most 0.1, yet the first
    strategy of four distinct ones gets 0.2, not 0.25.  And when the list of
    four ids repeats ids, a tilt of 1 gives the first and the third entry
    (the same id) the same weight, so the first is not strictly higher. *)
Lemma negative_tilt_or_repeated_ids_break_allocation :
  ((-1) * 1 <= 0.1
   /\ exists w, weight_in (plan_portfolio four_strategies (-1) 1) "breakout" = Some w
               /\ w == 0.2 /\ ~ w == 0.25)
  /\ (0.1 < 1 * 1 /\ length repeated_strategies = 4%nat
      /\ exists w1 w3,
          weight_in (plan_portfolio repeated_strategies 1 1)
                    (nth 0 repeated_strategies "") = Some w1
          /\ weight_in (plan_portfolio repeated_strategies 1 1)
                       (nth 2 repeated_strategies "") = Some w3
          /\ ~ w3 < w1).
Proof.
  split.
  - split; [apply Qle_bool_iff; vm_compute; reflexivity|].
    eexists. split; [vm_compute; reflexivity|].
    split; [reflexivity|].
    intros H. apply Qeq_bool_iff in H. vm_compute in H. discriminate.
  - split; [apply Qltb_lt; vm_compute; reflexivity|].
    split; [reflexivity|].
    do 2 eexists. split; [vm_compute; reflexivity|].
    split; [vm_compute; reflexivity|].
    intros H. apply Qltb_lt in H. vm_compute in H. discriminate.
Qed.

End PortfolioClaims.

(** ** The lab: selection and gate *)

Section LabClaims.

Import Lab.

Lemma allowed_status_iff (s : string) :
  s ∈ allowed_status
  <-> (s = "approved" \/ s = "experimental" \/ s = "insufficient_data")%string.
Proof.
  unfold allowed_status. rewrite !elem_of_cons, elem_of_nil. tauto.
Qed.

Lemma summary_ids (db : DB) (sid : string) :
  sid ∈ map s_id (get_strategies_summary db) <-> is_Some (strategies db !! sid).
Proof.
  unfold get_strategies_summary. rewrite map_map. cbn [summarise s_id].
  rewrite list_elem_of_fmap. split.
  - intros ([k row] & -> & Hin). apply elem_of_map_to_list in Hin.
    cbn [fst]. now rewrite Hin.
  - intros [row Hrow]. exists (sid, row). split; [reflexivity|].
    now apply elem_of_map_to_list.
Qed.

Lemma summary_rows (db : DB) (s : StrategySummary) :
  s ∈ get_strategies_summary db ->
  exists row, strategies db !! s_id s = Some row
              /\ s_pair s = pair row /\ s_timeframe s = timeframe row
              /\ s_status s = status row.
Proof.
  unfold get_strategies_summary. intros Hs.
  apply list_elem_of_fmap in Hs as ([sid row] & -> & Hin).
  apply elem_of_map_to_list in Hin. exists row. now repeat split.
Qed.

Lemma selected_iff (db : DB) (p tf sid : string) :
  sid ∈ get_approved_strategies_for_pair db p tf
  <-> exists row, strategies db !! sid = Some row /\ pair row = p
                  /\ timeframe row = tf /\ status row ∈ allowed_status.
Proof.
  unfold get_approved_strategies_for_pair. rewrite list_elem_of_fmap. split.
  - intros (s & -> & Hs). apply list_elem_of_In, filter_In in Hs as [Hs Hb].
    apply list_elem_of_In, summary_rows in Hs as (row & Hrow & Hp & Htf & Hst).
    apply andb_prop in Hb as [Hb Hst']. apply andb_prop in Hb as [Hp' Htf'].
    apply bool_decide_eq_true in Hp', Htf', Hst'.
    exists row. repeat split; congruence.
  - intros (row & Hrow & <- & <- & Hst).
    exists (summarise (sorted_by (fun r => (- run_at r)%Z) (backtests db)) sid row).
    split; [reflexivity|]. apply list_elem_of_In, filter_In. split.
    + apply list_elem_of_In. unfold get_strategies_summary.
      apply list_elem_of_fmap. exists (sid, row). split; [reflexivity|].
      now apply elem_of_map_to_list.
    + cbn [summarise s_pair s_timeframe s_status].
      rewrite !bool_decide_eq_true_2; [reflexivity|exact Hst|reflexivity|reflexivity].
Qed.

(** C5.  Every id returned by the selection is the key of a stored strategy
    of the requested pair and timeframe whose stored status is approved,
    experimental or insufficient_data; a strategy whose status is rejected
    is never returned; and a strategy of that pair and timeframe that is
    merely experimental or insufficient_data is returned, like an approved
    one. *)
Theorem selection_allows_unvalidated (db : DB) (p tf : string) :
  (forall sid, sid ∈ get_approved_strategies_for_pair db p tf ->
     exists row, strategies db !! sid = Some row /\ pair row = p
                 /\ timeframe row = tf
                 /\ (status row = "approved" \/ status row = "experimental"
                     \/ status row = "insufficient_data")%string)
  /\ (forall sid row, strategies db !! sid = Some row ->
        status row = "rejected"%string ->
        sid ∉ get_approved_strategies_for_pair db p tf)
  /\ (forall sid row, strategies db !! sid = Some row ->
        pair row = p -> timeframe row = tf ->
        (status row = "approved" \/ status row = "experimental"
         \/ status row = "insufficient_data")%string ->
        sid ∈ get_approved_strategies_for_pair db p tf).
Proof.
  split; [|split].
  - intros sid Hsid. apply selected_iff in Hsid as (row & Hrow & Hp & Htf & Hst).
    exists row. repeat split; try assumption.
    now apply allowed_status_iff.
  - intros sid row Hrow Hrej Hsel.
    apply selected_iff in Hsel as (row' & Hrow' & _ & _ & Hst).
    assert (row' = row) by congruence. subst row'.
    rewrite Hrej in Hst. apply allowed_status_iff in Hst.
    destruct Hst as [H|[H|H]]; discriminate.
  - intros sid row Hrow Hp Htf Hst. apply selected_iff.
    exists row. repeat split; try assumption.
    now apply allowed_status_iff.
Qed.

Lemma selection_allows_unvalidated_witness :
  strategies example_db !! "momentum"%string = Some (strategy "experimental")
  /\ strategies example_db !! "meanrev"%string = Some (strategy "rejected")
  /\ "momentum"%string ∈ get_approved_strategies_for_pair example_db "BTC/USDT" "15m"
  /\ "meanrev"%string ∉ get_approved_strategies_for_pair example_db "BTC/USDT" "15m".
Proof.
  assert (Hmom : strategies example_db !! "momentum"%string
                 = Some (strategy "experimental")) by reflexivity.
  assert (Hrev : strategies example_db !! "meanrev"%string
                 = Some (strategy "rejected")) by reflexivity.
  pose proof (selection_allows_unvalidated example_db "BTC/USDT" "15m")
    as (_ & Hrej & Hinc).
  split; [exact Hmom|]. split; [exact Hrev|]. split.
  - apply (Hinc _ _ Hmom); [reflexivity|reflexivity|right; left; reflexivity].
  - apply (Hrej _ _ Hrev). reflexivity.
Defined.

(** The gate on a strategy that has backtests: the five rules, in order. *)
Lemma lab_gate_rule_order (thresholds : gmap string Q) (db : DB)
    (strat : StrategySummary) (latest : BacktestRow) (older : list BacktestRow) :
  get_backtests_for_strategy db (s_id strat) = latest :: older ->
  let min_bt := py_int (py_get thresholds "min_backtests" 1) in
  let min_trades := py_int (py_get thresholds "min_trades" 30) in
  let enough := (min_bt <= py_len (latest :: older))%Z
                /\ (min_trades <= num_trades latest)%Z in
  let good := py_get thresholds "min_total_return" 0.1 <= total_return latest
              /\ - py_get thresholds "max_drawdown" 0.3 <= max_drawdown latest
              /\ py_get thresholds "min_sharpe" 1.0 <= sharpe latest
              /\ py_get thresholds "min_profit_factor" 1.3 <= profit_factor latest in
  let bad := total_return latest < 0 \/ profit_factor latest < 1.0 in
  ((py_len (latest :: older) < min_bt)%Z ->
     _evaluate_single thresholds db strat = Ok "insufficient_data"%string)
  /\ ((min_bt <= py_len (latest :: older))%Z -> (num_trades latest < min_trades)%Z ->
     _evaluate_single thresholds db strat = Ok "insufficient_data"%string)
  /\ (enough -> good -> _evaluate_single thresholds db strat = Ok "approved"%string)
  /\ (enough -> ~ good -> bad ->
     _evaluate_single thresholds db strat = Ok "rejected"%string)
  /\ (enough -> ~ good -> ~ bad ->
     _evaluate_single thresholds db strat = Ok "experimental"%string).
Proof.
  intros Hrows min_bt min_trades enough good bad.
  unfold _evaluate_single. rewrite Hrows. fold min_bt min_trades.
  unfold enough, good, bad.
  destruct (Z.ltb_spec (py_len (latest :: older)) min_bt) as [Hbt|Hbt];
    [repeat split; intros; try reflexivity; lia|].
  destruct (Z.ltb_spec (num_trades latest) min_trades) as [Htr|Htr];
    [repeat split; intros; try reflexivity; lia|].
  rewrite <- !Qle_bool_iff.
  destruct (Qle_bool _ (total_return latest)),
           (Qle_bool _ (max_drawdown latest)),
           (Qle_bool _ (sharpe latest)),
           (Qle_bool _ (profit_factor latest)); cbn [andb];
    destruct (Qltb_spec (total_return latest) 0),
             (Qltb_spec (profit_factor latest) 1.0); cbn [orb];
    repeat split; intros; try reflexivity; try lia;
    intuition congruence.
Qed.

(** The gate on a strategy without backtests: [insufficient_data] when the
    minimum is at least 1, and an [IndexError] from [bt_rows[0]] when the
    configured minimum is 0 or negative. *)
Lemma lab_gate_no_backtests (thresholds : gmap string Q) (db : DB)
    (strat : StrategySummary) :
  get_backtests_for_strategy db (s_id strat) = [] ->
  let min_bt := py_int (py_get thresholds "min_backtests" 1) in
  ((1 <= min_bt)%Z ->
     _evaluate_single thresholds db strat = Ok "insufficient_data"%string)
  /\ ((min_bt <= 0)%Z -> _evaluate_single thresholds db strat = Raise IndexError).
Proof.
  intros Hrows min_bt. unfold _evaluate_single. rewrite Hrows. fold min_bt.
  split; intros H; destruct (Z.ltb_spec (py_len (@nil BacktestRow)) min_bt) as [Hlt|Hge];
    try reflexivity; unfold py_len in *; simpl in *; lia.
Qed.

(** *** Re-running the gate *)

(** The verdict reads the id of the summary and table [backtests] only. *)
Lemma evaluate_single_same_id (thresholds : gmap string Q) (db db' : DB)
    (s s' : StrategySummary) :
  s_id s = s_id s' -> backtests db = backtests db' ->
  _evaluate_single thresholds db s = _evaluate_single thresholds db' s'.
Proof.
  intros Hid Hbt. unfold _evaluate_single, get_backtests_for_strategy.
  now rewrite Hid, Hbt.
Qed.

(** So writing a status and evaluating again gives the same verdict. *)
Lemma lab_gate_ignores_status (thresholds : gmap string Q) (db : DB)
    (strat : StrategySummary) (sid new_status : string) :
  _evaluate_single thresholds (set_strategy_status db sid new_status) strat
  = _evaluate_single thresholds db strat.
Proof. now apply evaluate_single_same_id. Qed.

(** Writing the status a row already has changes nothing. *)
Lemma set_strategy_status_same (db : DB) (sid v : string) :
  (forall row, strategies db !! sid = Some row -> status row = v) ->
  set_strategy_status db sid v = db.
Proof.
  intros Hsame. destruct db as [rows bts]. unfold set_strategy_status.
  cbn [strategies backtests] in *. f_equal.
  apply map_eq. intros k. rewrite lookup_alter.
  destruct (decide (sid = k)) as [->|Hne]; [|reflexivity].
  destruct (rows !! k) as [row|] eqn:Hk; [|reflexivity].
  cbn. f_equal. rewrite <- (Hsame row eq_refl). now destruct row.
Qed.

(** After the loop, every row either carries the verdict of a summary of
    its id, or its id was not in the list and the row is untouched. *)
Lemma evaluate_loop_sets (thresholds : gmap string Q)
    (todo : list StrategySummary) (db db1 : DB) :
  evaluate_loop thresholds todo db = Ok db1 ->
  backtests db1 = backtests db
  /\ (forall sid row1, strategies db1 !! sid = Some row1 ->
        (exists s, s ∈ todo /\ s_id s = sid
                   /\ _evaluate_single thresholds db s = Ok (status row1))
        \/ ((sid ∉ map s_id todo) /\ strategies db !! sid = Some row1)).
Proof.
  revert db. induction todo as [|s todo IH]; intros db Hrun.
  - cbn [evaluate_loop] in Hrun. inversion Hrun; subst db1.
    split; [reflexivity|]. intros sid row1 Hrow1. right.
    split; [apply not_elem_of_nil|exact Hrow1].
  - cbn [evaluate_loop] in Hrun.
    destruct (_evaluate_single thresholds db s) as [v|] eqn:Hv; [|discriminate].
    cbn [bind] in Hrun. apply IH in Hrun as (Hbt & Hrows).
    split; [exact Hbt|].
    intros sid row1 Hrow1.
    destruct (Hrows sid row1 Hrow1) as [(s' & Hs' & Hid & Hev)|[Hnot Hin]].
    + left. exists s'. split; [now apply list_elem_of_further|]. split; [exact Hid|].
      rewrite <- Hev. now apply evaluate_single_same_id.
    + unfold set_strategy_status in Hin. cbn [strategies] in Hin.
      rewrite lookup_alter in Hin.
      destruct (decide (s_id s = sid)) as [Heq|Hne].
      * left. exists s. split; [apply list_elem_of_here|]. split; [exact Heq|].
        destruct (strategies db !! s_id s); cbn in Hin; [|discriminate].
        inversion Hin; subst row1. exact Hv.
      * right. split; [|exact Hin]. cbn [map].
        apply not_elem_of_cons. split; [congruence|exact Hnot].
Qed.

(** A database in which every row carries its verdict is a fixed point. *)
Lemma evaluate_loop_fixed (thresholds : gmap string Q)
    (todo : list StrategySummary) (db : DB) :
  (forall s, s ∈ todo ->
     exists v, _evaluate_single thresholds db s = Ok v
               /\ forall row, strategies db !! s_id s = Some row -> status row = v) ->
  evaluate_loop thresholds todo db = Ok db.
Proof.
  induction todo as [|s todo IH]; intros Hall; [reflexivity|].
  cbn [evaluate_loop].
  destruct (Hall s (list_elem_of_here s todo)) as (v & -> & Hsame).
  cbn [bind]. rewrite (set_strategy_status_same db (s_id s) v Hsame).
  apply IH. intros s' Hs'. apply Hall. now apply list_elem_of_further.
Qed.

(** Idempotence of the gate as a whole: a pass of [evaluate_all] that
    returns leaves a database on which a second pass changes nothing. *)
Lemma evaluate_all_idempotent (thresholds : gmap string Q) (db db1 : DB) :
  evaluate_all thresholds db = Ok db1 ->
  evaluate_all thresholds db1 = Ok db1.
Proof.
  intros Hrun. unfold evaluate_all in *.
  apply evaluate_loop_sets in Hrun as (Hbt & Hrows).
  apply evaluate_loop_fixed. intros s Hs.
  apply summary_rows in Hs as (row1 & Hrow1 & _).
  exists (status row1). split; [|congruence].
  destruct (Hrows (s_id s) row1 Hrow1) as [(s0 & _ & Hid & Hev)|[Hnot Hin]].
  - rewrite <- Hev. apply evaluate_single_same_id; congruence.
  - exfalso. apply Hnot. apply summary_ids. now rewrite Hin.
Qed.

(** C2, at the input where the code departs from it.  With
    [min_backtests] configured as 0, a strategy with no recorded backtest
    is not mapped to [insufficient_data]: the length test passes and
    [bt_rows[0]] raises, which also aborts [evaluate_all].  With the default
    thresholds the same strategy is [insufficient_data]. *)
Theorem zero_backtests_without_minimum_raises :
  get_backtests_for_strategy example_db (s_id never_run) = []
  /\ py_int (py_get no_minimum "min_backtests" 1) = 0%Z
  /\ _evaluate_single no_minimum example_db never_run = Raise IndexError
  /\ _evaluate_single ∅ example_db never_run = Ok "insufficient_data"%string
  /\ evaluate_all no_minimum example_db = Raise IndexError.
Proof. repeat split; vm_compute; reflexivity. Qed.

End LabClaims.

(** ** The backtest simulator *)

Lemma insert_by_Permutation {A : Type} (key : A -> Z) (x : A) (l : list A) :
  insert_by key x l ≡ₚ x :: l.
Proof.
  induction l as [|y l IH]; simpl; [reflexivity|].
  destruct (key x <=? key y)%Z; [reflexivity|].
  rewrite IH. apply Permutation_swap.
Qed.

Lemma sorted_by_Permutation {A : Type} (key : A -> Z) (l : list A) :
  sorted_by key l ≡ₚ l.
Proof.
  induction l as [|x l IH]; simpl; [reflexivity|].
  rewrite insert_by_Permutation. now rewrite IH.
Qed.

Section BacktestFacts.

Import Backtest.

Lemma loc_close_unique (df : list (Z * Q)) (ts : Z) (c : Q) :
  NoDup (map fst df) -> (ts, c) ∈ df -> loc_close df ts = Ok c.
Proof.
  unfold loc_close. induction df as [|[t' c'] df IH]; intros Hnd Hin.
  - now apply elem_of_nil in Hin.
  - simpl in Hnd. apply NoDup_cons in Hnd as [Hfresh Hnd].
    cbn [List.filter fst].
    apply elem_of_cons in Hin as [Heq|Hin].
    + inversion Heq; subst t' c'. rewrite Z.eqb_refl.
      assert (Hnone : List.filter (fun row : Z * Q => (fst row =? ts)%Z) df = []).
      { clear IH Heq. induction df as [|[t'' c''] df IH]; [reflexivity|].
        simpl in Hfresh, Hnd. apply NoDup_cons in Hnd as [_ Hnd].
        apply not_elem_of_cons in Hfresh as [Hne Hfresh].
        cbn [List.filter fst]. destruct (Z.eqb_spec t'' ts); [congruence|].
        now apply IH. }
      now rewrite Hnone.
    + destruct (Z.eqb_spec t' ts) as [->|Hne].
      * exfalso. apply Hfresh. apply list_elem_of_fmap. now exists (ts, c).
      * now apply IH.
Qed.


(** *** One step of the signal loop *)

Lemma consume_later (ic : Q) (ts : Z) (c : Q) (sig : Signal) (rest : list Signal)
    (st : Sim) :
  (ts < timestamp sig)%Z ->
  consume_signals ic ts c (sig :: rest) st = Ok (st, sig :: rest).
Proof.
  intros Hlt. cbn [consume_signals].
  destruct (Z.leb_spec (timestamp sig) ts); [lia|reflexivity].
Qed.

Lemma consume_exit (ic : Q) (ts : Z) (c : Q) (x : Signal) (rest : list Signal)
    (st : Sim) :
  (timestamp x <= ts)%Z -> signal_type x = EXIT_LONG -> in_position st = true ->
  consume_signals ic ts c (x :: rest) st
  = consume_signals ic ts c rest (close_position ic st c (timestamp x) false).
Proof.
  intros Hle Hty Hin. cbn [consume_signals].
  destruct (Z.leb_spec (timestamp x) ts); [|lia].
  now rewrite Hty, Hin.
Qed.

Lemma consume_entry (ic : Q) (ts : Z) (c : Q) (e : Signal) (rest : list Signal)
    (st : Sim) :
  (timestamp e <= ts)%Z -> signal_type e = ENTRY_LONG -> in_position st = false ->
  0 < size_fraction e -> ~ c == 0 ->
  consume_signals ic ts c (e :: rest) st
  = consume_signals ic ts c rest
      (open_position st (capital st * size_fraction e / c) c (timestamp e)).
Proof.
  intros Hle Hty Hin Hpos Hc. cbn [consume_signals].
  destruct (Z.leb_spec (timestamp e) ts); [|lia].
  rewrite Hty, Hin.
  rewrite (proj2 (Qle_bool_gt (size_fraction e) 0) Hpos).
  now rewrite (py_div_ok _ c Hc).
Qed.

(** *** The three phases of a run with one entry and one exit *)

Section Phases.

Variable ic : Q.
Variable df : list (Z * Q).

Lemma final_equity_snoc (curve : list (Z * Q)) (ts : Z) (v : Q) :
  final_equity (curve ++ [(ts, v)]) = Some v.
Proof. unfold final_equity. now rewrite last_snoc. Qed.

Lemma final_equity_constant (curve : list (Z * Q)) (bars : list (Z * Q))
    (ts : Z) (v : Q) :
  final_equity ((curve ++ [(ts, v)]) ++ map (fun bar => (fst bar, v)) bars) = Some v.
Proof.
  induction bars as [|bar bars IH] using rev_ind.
  - simpl. rewrite app_nil_r. apply final_equity_snoc.
  - rewrite map_app. simpl. rewrite app_assoc. apply final_equity_snoc.
Qed.

(** Flat, nothing pending: the state stays and the curve stays level. *)
Lemma run_bars_flat (bars : list (Z * Q)) (st : Sim) (curve : list (Z * Q)) :
  in_position st = false -> Forall (quoted df) bars ->
  run_bars ic df (map fst bars) [] st curve
  = Ok (st, curve ++ map (fun bar => (fst bar, capital st)) bars).
Proof.
  intros Hflat Hq. revert curve.
  induction Hq as [|[ts c] bars Hc _ IH]; intros curve.
  - simpl. now rewrite app_nil_r.
  - cbn [map fst run_bars]. unfold quoted in Hc. cbn [fst snd] in Hc.
    rewrite Hc. cbn [bind consume_signals].
    unfold mark_to_market. rewrite Hflat, IH.
    now rewrite <- app_assoc.
Qed.

(** In position, the exit pending: it is taken at the bar that fills it,
    at that bar's close. *)
Lemma run_bars_exit (x : Signal) (bars : list (Z * Q)) (tx : Z) (px : Q)
    (st : Sim) (curve : list (Z * Q)) :
  in_position st = true -> signal_type x = EXIT_LONG ->
  Forall (quoted df) bars -> fill_bar bars x = Some (tx, px) ->
  exists curve',
    run_bars ic df (map fst bars) [x] st curve
    = Ok (close_position ic st px (timestamp x) false, curve')
    /\ final_equity curve'
       = Some (capital st + position_size st * (px - cur_entry_price st)).
Proof.
  intros Hin Hty Hq Hfill. revert curve.
  induction Hq as [|[ts c] bars Hc Hq IH]; intros curve; [discriminate|].
  cbn [map fst run_bars]. unfold quoted in Hc. cbn [fst snd] in Hc.
  rewrite Hc. cbn [bind]. unfold fill_bar in Hfill. cbn [List.find fst] in Hfill.
  destruct (Z.leb_spec (timestamp x) ts) as [Hle|Hgt].
  - inversion Hfill; subst tx px.
    rewrite (consume_exit ic ts c x [] st Hle Hty Hin). cbn [consume_signals bind].
    set (st' := close_position ic st c (timestamp x) false).
    rewrite (run_bars_flat bars st' _ eq_refl Hq).
    eexists. split; [reflexivity|].
    unfold mark_to_market. cbn [st' close_position in_position].
    apply final_equity_constant.
  - rewrite (consume_later ic ts c x [] st Hgt). cbn [bind].
    apply (IH Hfill).
Qed.

(** Flat with the entry and the exit pending. *)
Lemma run_bars_entry_exit (e x : Signal) (bars : list (Z * Q)) (te tx : Z)
    (pe px : Q) (st : Sim) (curve : list (Z * Q)) :
  in_position st = false ->
  signal_type e = ENTRY_LONG -> 0 < size_fraction e ->
  signal_type x = EXIT_LONG -> (timestamp e <= timestamp x)%Z ->
  Forall (quoted df) bars ->
  fill_bar bars e = Some (te, pe) -> ~ pe == 0 ->
  fill_bar bars x = Some (tx, px) ->
  exists curve',
    let qty := capital st * size_fraction e / pe in
    run_bars ic df (map fst bars) [e; x] st curve
    = Ok (close_position ic (open_position st qty pe (timestamp e)) px
            (timestamp x) false, curve')
    /\ final_equity curve' = Some (capital st + qty * (px - pe)).
Proof.
  intros Hflat Hte Hfrac Htx Hord Hq He Hnz Hx. revert curve.
  induction Hq as [|[ts c] bars Hc Hq IH]; intros curve; [discriminate|].
  cbn [map fst run_bars]. unfold quoted in Hc. cbn [fst snd] in Hc.
  rewrite Hc. cbn [bind]. unfold fill_bar in He, Hx.
  cbn [List.find fst] in He, Hx.
  destruct (Z.leb_spec (timestamp e) ts) as [Hle|Hgt].
  - inversion He; subst te pe.
    rewrite (consume_entry ic ts c e [x] st Hle Hte Hflat Hfrac Hnz).
    set (st1 := open_position st (capital st * size_fraction e / c) c (timestamp e)).
    destruct (Z.leb_spec (timestamp x) ts) as [Hxle|Hxgt].
    + inversion Hx; subst tx px.
      rewrite (consume_exit ic ts c x [] st1 Hxle Htx eq_refl).
      cbn [consume_signals bind].
      set (st2 := close_position ic st1 c (timestamp x) false).
      rewrite (run_bars_flat bars st2 _ eq_refl Hq).
      eexists. split; [reflexivity|].
      unfold mark_to_market. cbn [st2 st1 close_position open_position
        in_position capital position_size cur_entry_price].
      apply final_equity_constant.
    + rewrite (consume_later ic ts c x [] st1 Hxgt). cbn [bind].
      destruct (run_bars_exit x bars tx px st1
                  (curve ++ [(ts, mark_to_market st1 c)]) eq_refl Htx Hq Hx)
        as (curve' & Hrun & Hfin).
      exists curve'. split; [exact Hrun|exact Hfin].
  - rewrite (consume_later ic ts c e [x] st Hgt). cbn [bind].
    destruct (Z.leb_spec (timestamp x) ts) as [Hxle|Hxgt]; [lia|].
    apply (IH He Hx).
Qed.

End Phases.

Lemma compute_metrics_returns (equity : list Q) (rets : list Q) :
  equity <> [] -> returns (compute_metrics equity rets).
Proof.
  intros Hne. destruct equity as [|first rest]; [congruence|].
  unfold compute_metrics, returns. eauto.
Qed.

(** The frame after [sort_index] keeps the properties of the candles. *)
Lemma sorted_frame (candles : list (Z * Q)) :
  NoDup (map fst candles) -> Forall (fun bar => ~ snd bar == 0) candles ->
  Forall (priced (sorted_by fst candles)) (map fst (sorted_by fst candles)).
Proof.
  intros Hnd Hnz.
  pose proof (sorted_by_Permutation fst candles) as Hp.
  assert (Hnd' : NoDup (map fst (sorted_by fst candles))).
  { now rewrite (Permutation_map fst Hp). }
  assert (Hnz' : Forall (fun bar => ~ snd bar == 0) (sorted_by fst candles)).
  { now rewrite Hp. }
  apply Forall_forall. intros ts Hts.
  apply list_elem_of_fmap in Hts as ([ts' c] & -> & Hin).
  exists c. split; [now apply loc_close_unique|].
  rewrite Forall_forall in Hnz'. exact (Hnz' _ Hin).
Qed.

Lemma sorted_frame_quoted (candles : list (Z * Q)) :
  NoDup (map fst candles) ->
  Forall (quoted (sorted_by fst candles)) (sorted_by fst candles).
Proof.
  intros Hnd. pose proof (sorted_by_Permutation fst candles) as Hp.
  assert (Hnd' : NoDup (map fst (sorted_by fst candles)))
    by now rewrite (Permutation_map fst Hp).
  apply Forall_forall. intros [ts c] Hin. now apply loc_close_unique.
Qed.

Lemma rev_nonempty {A : Type} (l : list A) :
  l <> [] -> exists x before, List.rev l = x :: before.
Proof.
  intros Hne. destruct (List.rev l) as [|x before] eqn:E; [|eauto].
  exfalso. apply Hne. rewrite <- (rev_involutive l), E. reflexivity.
Qed.


(** *** The first bar of any run *)

Lemma consume_at_par (ic : Q) (ts : Z) (c : Q) (pending rest : list Signal)
    (st st' : Sim) :
  at_par ic c st -> consume_signals ic ts c pending st = Ok (st', rest) ->
  at_par ic c st'.
Proof.
  revert st. induction pending as [|sig pending IH]; intros st Hpar Hrun.
  - cbn [consume_signals] in Hrun. congruence.
  - cbn [consume_signals] in Hrun.
    destruct (timestamp sig <=? ts)%Z; [|congruence].
    destruct (signal_type sig), (in_position st) eqn:Hin;
      try (now apply (IH st)).
    + destruct (Qle_bool (size_fraction sig) 0); [now apply (IH st)|].
      destruct (py_div (capital st * size_fraction sig) c) as [qty|] eqn:Hdiv;
        [|discriminate].
      cbn [bind] in Hrun. apply (IH (open_position st qty c (timestamp sig))); [|exact Hrun].
      split; [exact (proj1 Hpar)|intros _; reflexivity].
    + apply (IH (close_position ic st c (timestamp sig) false)); [|exact Hrun].
      destruct Hpar as [Hcap Hentry]. split; [|discriminate].
      cbn [close_position capital]. rewrite Hcap, (Hentry Hin). ring.
Qed.

Lemma mark_to_market_at_par (ic c : Q) (st : Sim) :
  at_par ic c st -> mark_to_market st c == ic.
Proof.
  intros [Hcap Hentry]. unfold mark_to_market.
  destruct (in_position st) eqn:Hin; [|exact Hcap].
  rewrite Hcap, (Hentry eq_refl). ring.
Qed.

Lemma run_bars_grows (ic : Q) (df : list (Z * Q)) (index : list Z)
    (pending : list Signal) (st stf : Sim) (curve cf : list (Z * Q)) :
  run_bars ic df index pending st curve = Ok (stf, cf) ->
  exists added, cf = curve ++ added /\ length added = length index
                /\ (index = [] -> stf = st).
Proof.
  revert pending st curve. induction index as [|ts index IH]; intros pending st curve Hrun.
  - cbn [run_bars] in Hrun. inversion Hrun; subst. exists []. now rewrite app_nil_r.
  - cbn [run_bars] in Hrun.
    destruct (loc_close df ts) as [c|]; [|discriminate]. cbn [bind] in Hrun.
    destruct (consume_signals ic ts c pending st) as [[st1 p1]|]; [|discriminate].
    cbn [bind] in Hrun. apply IH in Hrun as (added & -> & Hlen & _).
    exists ((ts, mark_to_market st1 c) :: added).
    rewrite <- app_assoc. cbn [app length]. repeat split; [congruence|discriminate].
Qed.

Lemma run_bars_first (ic : Q) (df : list (Z * Q)) (ts : Z) (index : list Z)
    (pending : list Signal) (st stf : Sim) (cf : list (Z * Q)) :
  run_bars ic df (ts :: index) pending st [] = Ok (stf, cf) ->
  exists c st1 p1 rest,
    loc_close df ts = Ok c
    /\ consume_signals ic ts c pending st = Ok (st1, p1)
    /\ cf = (ts, mark_to_market st1 c) :: rest
    /\ length rest = length index
    /\ (index = [] -> stf = st1).
Proof.
  intros Hrun. cbn [run_bars] in Hrun.
  destruct (loc_close df ts) as [c|]; [|discriminate]. cbn [bind] in Hrun.
  destruct (consume_signals ic ts c pending st) as [[st1 p1]|] eqn:Hc; [|discriminate].
  cbn [bind] in Hrun. apply run_bars_grows in Hrun as (added & -> & Hlen & Hst).
  exists c, st1, p1, added. repeat split; try reflexivity; assumption.
Qed.

Lemma set_last_cons (v : Q) (a b : Z * Q) (l : list (Z * Q)) :
  exists l', set_last v (a :: b :: l) = a :: l'.
Proof.
  unfold set_last.
  destruct (rev_nonempty (b :: l) ltac:(discriminate)) as ([ts w] & before & Hrev).
  cbn [List.rev] in *. rewrite Hrev. cbn [app].
  rewrite rev_app_distr. cbn [List.rev app]. eauto.
Qed.

(** *** The metrics of a curve *)

Lemma np_div_nonzero (x y : Q) : ~ y == 0 -> np_div x y = Finite (x / y).
Proof. intros H. unfold np_div. now rewrite (proj2 (Qeq_bool_ne y 0) H). Qed.

(** Once the running minimum is at most [c], it stays so. *)
Lemma series_min_le (ds : list npfloat) (d : npfloat) (c : Q) :
  np_le d c -> np_le (series_min d ds) c.
Proof.
  unfold series_min. revert d. induction ds as [|x ds IH]; intros d Hd; [exact Hd|].
  cbn [fold_left]. apply IH.
  destruct d as [p| | |], x as [q| | |]; cbn in *;
    try exact Hd; try exact I; try contradiction.
  eapply Qle_trans; [apply Q.le_min_l|exact Hd].
Qed.

Lemma final_equity_last (curve : list (Z * Q)) (d : Q) :
  curve <> [] -> final_equity curve = Some (List.last (map snd curve) d).
Proof.
  intros Hne. destruct (rev_nonempty curve Hne) as (x & before & Hrev).
  assert (Hc : curve = List.rev before ++ [x]).
  { rewrite <- (rev_involutive curve), Hrev. reflexivity. }
  rewrite Hc, map_app. cbn [map]. rewrite List.last_last.
  unfold final_equity. now rewrite last_snoc.
Qed.

Lemma compute_metrics_curve (first : Q) (rest rets : list Q) (m : BacktestMetrics) :
  compute_metrics (first :: rest) rets = Ok m -> ~ first == 0 ->
  total_return m = Finite (List.last (first :: rest) first / first - 1)
  /\ np_le (max_drawdown m) 0.
Proof.
  intros Hm Hnz. unfold compute_metrics in Hm. inversion Hm; subst m; clear Hm.
  cbn [total_return max_drawdown]. split.
  - now rewrite (np_div_nonzero _ first Hnz).
  - cbn [drawdown cummax zip_with]. apply series_min_le.
    rewrite (np_div_nonzero _ first Hnz). cbn [np_sub np_le].
    assert (H : first / first - 1 == 0) by (field; exact Hnz).
    rewrite H. apply Qle_refl.
Qed.

Lemma set_last_nonempty (v : Q) (curve : list (Z * Q)) :
  curve <> [] -> set_last v curve <> [].
Proof.
  intros Hne. unfold set_last.
  destruct (rev_nonempty curve Hne) as ([ts w] & before & ->).
  now destruct (List.rev before).
Qed.

(** *** Every run starts at the initial capital *)

Lemma run_first_equity (ic : Q) (signals : list Signal) (candles : list (Z * Q))
    (r : BacktestResult) :
  run ic signals candles = Ok r ->
  exists ts first rest rets,
    equity_curve r = (ts, first) :: rest
    /\ first == ic
    /\ compute_metrics (map snd (equity_curve r)) rets = Ok (metrics r).
Proof.
  unfold run. remember (sorted_by fst candles) as df eqn:Hdf. clear Hdf.
  intros H.
  destruct (List.rev df) as [|[last_ts last_price] before] eqn:Hrev; [discriminate|].
  destruct (run_bars ic df (map fst df) (sorted_by timestamp signals)
              (init_sim ic) []) as [[st curve]|] eqn:Hrb; [|discriminate].
  cbn [bind] in H.
  destruct df as [|[ts0 c0] df']; [discriminate|]. cbn [map fst] in Hrb.
  apply run_bars_first in Hrb
    as (c & st1 & p1 & rest & Hloc & Hcons & -> & Hlen & Hst).
  assert (Hpar : at_par ic c st1).
  { eapply consume_at_par; [|exact Hcons].
    split; [reflexivity|discriminate]. }
  pose proof (mark_to_market_at_par ic c st1 Hpar) as Hmark.
  assert (Hfirst : exists st' first rest',
             (if in_position st && Qltb 0 (position_size st)
              then (close_position ic st last_price last_ts true,
                    set_last (capital (close_position ic st last_price last_ts true))
                             ((ts0, mark_to_market st1 c) :: rest))
              else (st, (ts0, mark_to_market st1 c) :: rest))
             = (st', (ts0, first) :: rest') /\ first == ic).
  { destruct (in_position st && Qltb 0 (position_size st)) eqn:Hforced;
      [|now eauto].
    destruct rest as [|b rest'].
    - destruct df' as [|? ?]; [|discriminate Hlen].
      specialize (Hst eq_refl). subst st1.
      cbn in Hrev. inversion Hrev; subst last_ts last_price before.
      unfold loc_close in Hloc. cbn [List.filter fst] in Hloc.
      rewrite Z.eqb_refl in Hloc. cbn [snd] in Hloc. inversion Hloc; subst c0.
      do 3 eexists. split; [reflexivity|].
      apply andb_prop in Hforced as [Hin _]. destruct Hpar as [Hcap Hentry].
      cbn [close_position capital]. rewrite Hcap, (Hentry Hin). ring.
    - destruct (set_last_cons
                  (capital (close_position ic st last_price last_ts true))
                  (ts0, mark_to_market st1 c) b rest') as (l' & ->).
      now eauto. }
  destruct Hfirst as (st' & first & rest' & Hbranch & Hic).
  rewrite Hbranch in H.
  destruct (compute_metrics (map snd ((ts0, first) :: rest')) (trade_returns st'))
    as [m|] eqn:Hm; [|discriminate].
  cbn [bind] in H. inversion H; subst r. cbn [equity_curve metrics].
  exists ts0, first, rest', (trade_returns st'). repeat split; assumption.
Qed.

(** *** A run on well-formed candles returns *)

Lemma consume_returns (ic : Q) (ts : Z) (c : Q) (pending : list Signal) (st : Sim) :
  ~ c == 0 -> returns (consume_signals ic ts c pending st).
Proof.
  intros Hc. revert st. induction pending as [|sig pending IH]; intros st.
  - cbn [consume_signals]. unfold returns. eauto.
  - cbn [consume_signals].
    destruct (timestamp sig <=? ts)%Z; [|unfold returns; eauto].
    destruct (signal_type sig), (in_position st); try apply IH.
    destruct (Qle_bool (size_fraction sig) 0); [apply IH|].
    rewrite (py_div_ok _ c Hc). cbn [bind]. apply IH.
Qed.

Lemma run_bars_returns (ic : Q) (df : list (Z * Q)) (index : list Z)
    (pending : list Signal) (st : Sim) (curve : list (Z * Q)) :
  Forall (priced df) index -> returns (run_bars ic df index pending st curve).
Proof.
  intros Hpr. revert pending st curve.
  induction Hpr as [|ts index (c & Hc & Hnz) _ IH]; intros pending st curve.
  - cbn [run_bars]. unfold returns. eauto.
  - cbn [run_bars]. rewrite Hc. cbn [bind].
    destruct (consume_returns ic ts c pending st Hnz) as ([st1 p1] & ->).
    cbn [bind]. apply IH.
Qed.

Lemma run_returns (ic : Q) (signals : list Signal) (candles : list (Z * Q)) :
  candles <> [] -> NoDup (map fst candles) ->
  Forall (fun bar => ~ snd bar == 0) candles ->
  returns (run ic signals candles).
Proof.
  intros Hne Hnd Hnz. pose proof (sorted_frame candles Hnd Hnz) as Hpr.
  pose proof (sorted_by_Permutation fst candles) as Hp.
  unfold run. set (df := sorted_by fst candles) in *.
  assert (Hdf : df <> []).
  { intros Hnil. rewrite Hnil in Hp. apply Permutation_nil_l in Hp. congruence. }
  destruct (rev_nonempty df Hdf) as ([last_ts last_price] & before & ->).
  destruct (run_bars_returns ic df (map fst df) (sorted_by timestamp signals)
              (init_sim ic) [] Hpr) as ([st curve] & Hrun).
  rewrite Hrun. cbn [bind].
  apply run_bars_grows in Hrun as (added & -> & Hlen & _). cbn [app] in *.
  assert (Hadded : added <> []).
  { intros ->. rewrite length_map in Hlen. destruct df; [congruence|discriminate]. }
  destruct (in_position st && Qltb 0 (position_size st)).
  - match goal with
    | |- context [compute_metrics ?eq ?rets] =>
        destruct (compute_metrics_returns eq rets) as (m & ->)
    end.
    + intros Hnil. apply map_eq_nil in Hnil. revert Hnil. now apply set_last_nonempty.
    + cbn [bind]. unfold returns. eauto.
  - match goal with
    | |- context [compute_metrics ?eq ?rets] =>
        destruct (compute_metrics_returns eq rets) as (m & ->)
    end.
    + intros Hnil. now apply map_eq_nil in Hnil.
    + cbn [bind]. unfold returns. eauto.
Qed.

End BacktestFacts.

Section BacktestClaims.

Import Backtest.

(** C3, as amended.  For every price-bar sequence with pairwise distinct
    timestamps, and a signal stream of exactly one ENTRY_LONG signal with
    size_fraction > 0 followed by one EXIT_LONG signal, both at or before
    some bar, where the close of the bar that fills the entry is not zero:
    the run returns exactly one TradeRecord, not a forced one, entered and
    exited at the closes of the bars that fill the two signals, whose pnl is
    the position quantity (initial_capital * size_fraction / entry_price)
    times (exit_price - entry_price); and the last value of the equity curve
    is initial_capital plus that pnl. *)
Theorem one_round_trip (ic : Q) (e x : Signal) (candles : list (Z * Q))
    (te tx : Z) (pe px : Q) :
  NoDup (map fst candles) ->
  signal_type e = ENTRY_LONG -> 0 < size_fraction e ->
  signal_type x = EXIT_LONG -> (timestamp e <= timestamp x)%Z ->
  fill_bar (sorted_by fst candles) e = Some (te, pe) -> ~ pe == 0 ->
  fill_bar (sorted_by fst candles) x = Some (tx, px) ->
  exists r t,
    run ic [e; x] candles = Ok r
    /\ trades r = [t]
    /\ forced_exit t = false
    /\ entry_price t = pe /\ exit_price t = px
    /\ pnl t = ic * size_fraction e / entry_price t * (exit_price t - entry_price t)
    /\ final_equity (equity_curve r) = Some (ic + pnl t).
Proof.
  intros Hnd Hte Hfrac Htx Hord He Hnz Hx.
  pose proof (sorted_frame_quoted candles Hnd) as Hq.
  unfold run. set (df := sorted_by fst candles) in *.
  assert (Hne : df <> []) by (intros Hnil; rewrite Hnil in Hx; discriminate).
  destruct (rev_nonempty df Hne) as ([last_ts last_price] & before & Hrev).
  rewrite Hrev.
  assert (Hsorted : sorted_by timestamp [e; x] = [e; x]).
  { cbn [sorted_by fold_right insert_by].
    destruct (Z.leb_spec (timestamp e) (timestamp x)); [reflexivity|lia]. }
  rewrite Hsorted.
  destruct (run_bars_entry_exit ic df e x df te tx pe px (init_sim ic) []
              eq_refl Hte Hfrac Htx Hord Hq He Hnz Hx)
    as (curve & Hrun & Hfin).
  cbn zeta in Hrun. rewrite Hrun. cbn [bind close_position in_position andb].
  assert (Hcurve : map snd curve <> []).
  { intros Hnil. apply map_eq_nil in Hnil. subst curve. discriminate Hfin. }
  match goal with
  | |- context [compute_metrics ?eq ?rets] =>
      destruct (compute_metrics_returns eq rets Hcurve) as (m & Hm); rewrite Hm
  end.
  cbn [bind].
  do 2 eexists. split; [reflexivity|].
  cbn [trades equity_curve sim_trades open_position init_sim app capital
       position_size cur_entry_price cur_entry_time].
  split; [reflexivity|]. cbn [forced_exit pnl entry_price exit_price].
  repeat (split; [reflexivity|]).
  exact Hfin.
Qed.

Lemma one_round_trip_witness :
  NoDup (map fst three_bars)
  /\ 0 < size_fraction entry_signal
  /\ (timestamp entry_signal <= timestamp exit_signal)%Z
  /\ fill_bar (sorted_by fst three_bars) entry_signal = Some (1%Z, 100)
  /\ fill_bar (sorted_by fst three_bars) exit_signal = Some (3%Z, 120)
  /\ exists r t,
       run 10000 [entry_signal; exit_signal] three_bars = Ok r
       /\ trades r = [t]
       /\ pnl t = 10000 * 0.5 / 100 * (120 - 100)
       /\ final_equity (equity_curve r) = Some (10000 + pnl t).
Proof.
  assert (Hnd : NoDup (map fst three_bars))
    by (apply (bool_decide_unpack _); vm_compute; exact I).
  assert (Hfrac : 0 < size_fraction entry_signal) by reflexivity.
  assert (Hord : (timestamp entry_signal <= timestamp exit_signal)%Z)
    by (simpl; lia).
  assert (He : fill_bar (sorted_by fst three_bars) entry_signal = Some (1%Z, 100))
    by reflexivity.
  assert (Hx : fill_bar (sorted_by fst three_bars) exit_signal = Some (3%Z, 120))
    by reflexivity.
  repeat (split; [assumption|]).
  destruct (one_round_trip 10000 entry_signal exit_signal three_bars
              1 3 100 120 Hnd eq_refl Hfrac eq_refl Hord He
              ltac:(intros H; discriminate H) Hx)
    as (r & t & Hrun & Htrades & _ & Hpe & Hpx & Hpnl & Hfinal).
  exists r, t. rewrite Hpe, Hpx in Hpnl. repeat split; assumption.
Defined.

(** C3 as stated fails on two frames, with the same entry and exit signals
    (size_fraction 0.5 > 0, both at or before the last bar).  When the close
    of the entry bar is zero, sizing the position divides by it; when a
    timestamp occurs twice, [float(df.loc[ts, "close"])] is handed a Series.
    Either way the run raises and yields no TradeRecord. *)
Lemma ill_formed_frames_break_round_trip :
  0 < size_fraction entry_signal
  /\ (timestamp entry_signal <= timestamp exit_signal)%Z
  /\ Exists (fun bar => (timestamp exit_signal <= fst bar)%Z) zero_close_bars
  /\ run 10000 [entry_signal; exit_signal] zero_close_bars = Raise ZeroDivisionError
  /\ Exists (fun bar => (timestamp exit_signal <= fst bar)%Z) repeated_label_bars
  /\ run 10000 [entry_signal; exit_signal] repeated_label_bars = Raise TypeError.
Proof.
  split; [reflexivity|]. split; [simpl; lia|].
  split; [do 2 apply Exists_cons_tl; apply Exists_cons_hd; simpl; lia|].
  split; [vm_compute; reflexivity|].
  split; [do 2 apply Exists_cons_tl; apply Exists_cons_hd; simpl; lia|].
  vm_compute; reflexivity.
Qed.

(** C7, as amended.  For every equity curve produced by a backtest run
    that starts from a non-zero initial capital: the first value of the
    curve is the initial capital, the computed total_return is the final
    value divided by the first value, minus 1, and the computed max_drawdown
    is at most 0. *)
Theorem run_metrics (ic : Q) (signals : list Signal) (candles : list (Z * Q))
    (r : BacktestResult) :
  ~ ic == 0 -> run ic signals candles = Ok r ->
  np_le (max_drawdown (metrics r)) 0
  /\ exists first final,
       head (map snd (equity_curve r)) = Some first
       /\ final_equity (equity_curve r) = Some final
       /\ first == ic
       /\ total_return (metrics r) = Finite (final / first - 1).
Proof.
  intros Hic Hrun.
  destruct (run_first_equity ic signals candles r Hrun)
    as (ts & first & rest & rets & Hcurve & Hfirst & Hm).
  rewrite Hcurve in *. cbn [map snd] in Hm.
  assert (Hnz : ~ first == 0) by (rewrite Hfirst; exact Hic).
  destruct (compute_metrics_curve first (map snd rest) rets (metrics r) Hm Hnz)
    as (Htr & Hdd).
  split; [exact Hdd|].
  exists first, (List.last (first :: map snd rest) first).
  split; [reflexivity|]. split.
  - now rewrite (final_equity_last ((ts, first) :: rest) first).
  - split; assumption.
Qed.

Lemma run_metrics_witness :
  ~ 10000 == 0
  /\ exists r,
       run 10000 [entry_signal; exit_signal] three_bars = Ok r
       /\ np_le (max_drawdown (metrics r)) 0.
Proof.
  assert (Hic : ~ 10000 == 0) by (intros H; discriminate H).
  split; [exact Hic|].
  eexists. split; [vm_compute; reflexivity|].
  eapply (run_metrics 10000 [entry_signal; exit_signal] three_bars);
    [exact Hic|vm_compute; reflexivity].
Defined.

(** C7 as stated fails for a run that starts from no capital: the run
    returns, every value of its curve is 0, each drawdown is 0 / 0, and both
    max_drawdown and total_return come out as not-a-number, which is not at
    most 0. *)
Lemma zero_capital_gives_nan_metrics :
  exists r,
    run 0 [entry_signal; exit_signal] three_bars = Ok r
    /\ Forall (fun v => v == 0) (map snd (equity_curve r))
    /\ max_drawdown (metrics r) = NaN
    /\ total_return (metrics r) = NaN
    /\ ~ np_le (max_drawdown (metrics r)) 0.
Proof.
  eexists. split; [vm_compute; reflexivity|].
  cbn [equity_curve metrics max_drawdown total_return np_le map snd].
  split; [repeat constructor|].
  split; [reflexivity|]. split; [reflexivity|]. intros H. exact H.
Qed.

End BacktestClaims.

(** * Further properties *)

(** ** Clamping and collecting the agents' answers *)

Section CollectorFacts.

Import Arbitration Collector.

Lemma clamp_within (lo : Q) (x : npfloat) :
  lo <= 1 -> number x ->
  within lo 1 (py_max (py_min x (Finite 1)) (Finite lo)).
Proof.
  intros Hlo Hx. unfold py_max, py_min.
  destruct x as [q| | |]; cbn [np_ltb]; try contradiction.
  - destruct (Qltb 1 q) eqn:E1; cbn [np_ltb].
    + destruct (Qltb 1 lo) eqn:E2; cbn [within].
      * apply Qltb_lt in E2. lra.
      * lra.
    + apply Qltb_ge in E1.
      destruct (Qltb q lo) eqn:E2; cbn [within].
      * lra.
      * apply Qltb_ge in E2. lra.
  - cbn. destruct (Qltb 1 lo) eqn:E2; cbn [within].
    + apply Qltb_lt in E2. lra.
    + lra.
  - cbn. lra.
Qed.

Lemma clamp_fixed (lo : Q) (x : npfloat) :
  within lo 1 x -> py_max (py_min x (Finite 1)) (Finite lo) = x.
Proof.
  destruct x as [q| | |]; cbn [within]; try contradiction.
  intros [H1 H2]. unfold py_max, py_min. cbn [np_ltb].
  rewrite (proj2 (Qltb_ge 1 q) H2). cbn [np_ltb].
  now rewrite (proj2 (Qltb_ge q lo) H1).
Qed.

(** X3.  The clamp of [_clamp_output] and [_call_agent] sends every float
    other than not-a-number, infinities included, to a finite sentiment in
    [-1, 1] and a finite confidence in [0, 1], leaves values already in
    range as they are, and lets not-a-number through. *)
Theorem clamp_output_range (s c : npfloat) :
  (number s -> within (-1) 1 (fst (_clamp_output s c))) /\
  (number c -> within 0 1 (snd (_clamp_output s c))) /\
  (within (-1) 1 s -> fst (_clamp_output s c) = s) /\
  (within 0 1 c -> snd (_clamp_output s c) = c) /\
  _clamp_output NaN NaN = (NaN, NaN).
Proof.
  cbn [_clamp_output fst snd]. unfold clamp_sentiment, clamp_confidence.
  repeat split.
  - apply clamp_within. lra.
  - apply clamp_within. lra.
  - apply clamp_fixed.
  - apply clamp_fixed.
Qed.

Lemma gather_loop_clamped (agents : list (string * Agent)) :
  Forall (fun c => exists s k, c_sentiment c = clamp_sentiment s
                               /\ c_confidence c = clamp_confidence k)
    (gather_loop agents).
Proof.
  induction agents as [|[role agent] rest IH]; cbn [gather_loop]; [constructor|].
  destruct (_call_agent role agent) as [[res|]|e] eqn:E; try exact IH.
  constructor; [|exact IH].
  unfold _call_agent in E.
  destruct (analyze agent) as [[resp|]|]; try discriminate.
  destruct (float_field (reply_sentiment resp)) as [s|]; [|discriminate].
  destruct (float_field (reply_confidence resp)) as [k|]; [|discriminate].
  cbn in E. injection E as <-. now exists s, k.
Qed.

Lemma to_responses_in_range (cs : list Collected) :
  Forall (fun c => exists s k, c_sentiment c = clamp_sentiment s
                               /\ c_confidence c = clamp_confidence k) cs ->
  Forall (fun c => number (c_sentiment c) /\ number (c_confidence c)) cs ->
  exists rs, to_responses cs = Some rs /\
    map agent_id rs = map c_agent_id cs /\
    Forall (fun r => (-1 <= sentiment r <= 1) /\ (0 <= confidence r <= 1)) rs.
Proof.
  induction cs as [|c cs IH]; intros Hcl Hnum.
  - exists []. repeat split. constructor.
  - inversion Hcl as [|? ? (s & k & Hs & Hk) Hcl']; subst.
    inversion Hnum as [|? ? [Hns Hnk] Hnum']; subst.
    destruct (IH Hcl' Hnum') as (rs & Hrs & Hids & Hall).
    assert (within (-1) 1 (c_sentiment c)) as Hws.
    { rewrite Hs. apply clamp_within; [lra|].
      destruct s; try exact I. rewrite Hs in Hns. exact Hns. }
    assert (within 0 1 (c_confidence c)) as Hwk.
    { rewrite Hk. apply clamp_within; [lra|].
      destruct k; try exact I. rewrite Hk in Hnk. exact Hnk. }
    cbn [to_responses]. unfold to_response. rewrite Hrs.
    destruct (c_sentiment c) as [qs| | |]; try contradiction.
    destruct (c_confidence c) as [qk| | |]; try contradiction.
    eexists. split; [reflexivity|]. split.
    + cbn. now rewrite Hids.
    + constructor; [|exact Hall]. cbn. split; assumption.
Qed.

Lemma gather_loop_roles (agents : list (string * Agent)) :
  sublist (map c_role (gather_loop agents)) (map fst agents)
  /\ Forall (fun c => exists agent, (c_role c, agent) ∈ agents
                      /\ c_agent_id c = default (c_role c) (agent_attr_id agent)
                      /\ exists resp, analyze agent = Ok (Some resp))
       (gather_loop agents).
Proof.
  induction agents as [|[role agent] rest [IHs IHf]]; [split; constructor|].
  assert (Forall (fun c => exists agent0, (c_role c, agent0) ∈ (role, agent) :: rest
                      /\ c_agent_id c = default (c_role c) (agent_attr_id agent0)
                      /\ exists resp, analyze agent0 = Ok (Some resp))
            (gather_loop rest)) as IHf'.
  { eapply Forall_impl; [exact IHf|]. intros c (a & Hin & Hrest).
    exists a. split; [now apply list_elem_of_further|exact Hrest]. }
  cbn [gather_loop map fst].
  destruct (_call_agent role agent) as [[res|]|e] eqn:E;
    try (split; [now apply sublist_cons|exact IHf']).
  unfold _call_agent in E.
  destruct (analyze agent) as [[resp|]|] eqn:Ea; try discriminate.
  destruct (float_field (reply_sentiment resp)) as [s|]; [|discriminate].
  destruct (float_field (reply_confidence resp)) as [k|]; [|discriminate].
  cbn in E. injection E as <-. split.
  - cbn [map c_role]. now apply sublist_skip.
  - constructor; [|exact IHf']. exists agent. cbn [c_role c_agent_id].
    split; [apply list_elem_of_here|]. split; [reflexivity|]. now exists resp.
Qed.

Lemma clamped_or_nan (lo : Q) (x : npfloat) :
  lo <= 1 ->
  let y := py_max (py_min x (Finite 1)) (Finite lo) in
  y = NaN \/ within lo 1 y.
Proof.
  intros Hlo. cbv zeta. destruct x as [q| | |] eqn:Hx.
  - right. apply clamp_within; [exact Hlo|exact I].
  - right. apply clamp_within; [exact Hlo|exact I].
  - right. apply clamp_within; [exact Hlo|exact I].
  - left. reflexivity.
Qed.

(** X4.  What the collector hands over, whatever the agents answer and
    however many of them fail: at most one response per agent, in the order
    of the agents, each from an agent whose [analyze] returned a dict and
    under that agent's [agent_id] attribute, or its role if it has none;
    every sentiment is not-a-number or lies in [-1, 1] and every
    confidence is not-a-number or lies in [0, 1]; and when no collected
    value is not-a-number, the responses are the finite numbers, within
    these ranges, that the arbitration engine reads. *)
Theorem collected_responses_in_range (features_available : bool)
    (agents : list (string * Agent)) :
  let collected := collect_agent_responses features_available agents in
  sublist (map c_role collected) (map fst agents)
  /\ Forall (fun c => exists agent, (c_role c, agent) ∈ agents
                      /\ c_agent_id c = default (c_role c) (agent_attr_id agent)
                      /\ exists resp, analyze agent = Ok (Some resp)) collected
  /\ Forall (fun c =>
       (c_sentiment c = NaN \/ within (-1) 1 (c_sentiment c))
       /\ (c_confidence c = NaN \/ within 0 1 (c_confidence c))) collected
  /\ (Forall (fun c => number (c_sentiment c) /\ number (c_confidence c))
        collected ->
      exists rs,
        to_responses collected = Some rs
        /\ map agent_id rs = map c_agent_id collected
        /\ Forall (fun r => (-1 <= sentiment r <= 1) /\ (0 <= confidence r <= 1))
             rs).
Proof.
  cbv zeta.
  assert (Forall (fun c => exists s k, c_sentiment c = clamp_sentiment s
                               /\ c_confidence c = clamp_confidence k)
            (collect_agent_responses features_available agents)) as Hcl.
  { unfold collect_agent_responses. destruct features_available.
    - apply gather_loop_clamped.
    - constructor. }
  split; [|split; [|split]].
  - unfold collect_agent_responses. destruct features_available.
    + apply gather_loop_roles.
    + apply sublist_nil_l.
  - unfold collect_agent_responses. destruct features_available.
    + apply gather_loop_roles.
    + constructor.
  - eapply Forall_impl; [exact Hcl|]. intros c (s & k & -> & ->).
    unfold clamp_sentiment, clamp_confidence.
    split; apply clamped_or_nan; lra.
  - intros Hnum. now apply to_responses_in_range.
Qed.

End CollectorFacts.

(** ** Comparisons of binary64 numbers *)

Lemma SFcompare_antisym (x y : spec_float) (c : comparison) :
  SFcompare x y = Some c -> SFcompare y x = Some (CompOpp c).
Proof.
  destruct x as [sx|sx| |sx mx ex], y as [sy|sy| |sy my ey];
    cbn [SFcompare]; try discriminate;
    try (destruct sx; intros [= <-]; reflexivity);
    try (destruct sy; intros [= <-]; reflexivity).
  - destruct sx, sy; intros [= <-]; reflexivity.
  - destruct sx, sy; intros [= <-]; try reflexivity.
    + rewrite (Z.compare_antisym ex ey).
      destruct (ex ?= ey)%Z; cbn [CompOpp]; try reflexivity.
      rewrite !Pos.compare_cont_spec, (Pos.compare_antisym mx my).
      now destruct (mx ?= my)%positive.
    + rewrite (Z.compare_antisym ex ey).
      destruct (ex ?= ey)%Z; cbn [CompOpp]; try reflexivity.
      rewrite !Pos.compare_cont_spec, (Pos.compare_antisym mx my).
      now destruct (mx ?= my)%positive.
Qed.

Lemma SFcompare_refl (x : spec_float) :
  F64.is_nan x = false -> SFcompare x x = Some Eq.
Proof.
  destruct x as [s|s| |s m e]; cbn [F64.is_nan SFcompare]; try discriminate;
    intros _; try reflexivity.
  - now destruct s.
  - rewrite Z.compare_refl, Pos.compare_cont_spec, Pos.compare_refl.
    now destruct s.
Qed.

Lemma SFcompare_number (x y : spec_float) :
  F64.is_nan x = false -> F64.is_nan y = false ->
  exists c, SFcompare x y = Some c.
Proof.
  destruct x as [sx|sx| |sx mx ex], y as [sy|sy| |sy my ey];
    cbn [F64.is_nan SFcompare]; try discriminate; eauto.
Qed.

Lemma F64_leb_number (x y : F64.float) :
  F64.leb x y = true -> F64.is_nan x = false /\ F64.is_nan y = false.
Proof.
  unfold F64.leb, SFleb.
  destruct x as [sx|sx| |sx mx ex], y as [sy|sy| |sy my ey];
    cbn [SFcompare F64.is_nan]; try discriminate; now split.
Qed.

Lemma F64_leb_refl (x : F64.float) : F64.is_nan x = false -> F64.leb x x = true.
Proof.
  intros Hx. unfold F64.leb, SFleb. now rewrite (SFcompare_refl x Hx).
Qed.

(** Two numbers are comparable: where [x < y] is false, [y <= x]. *)
Lemma F64_ltb_false_leb (x y : F64.float) :
  F64.is_nan x = false -> F64.is_nan y = false ->
  F64.ltb x y = false -> F64.leb y x = true.
Proof.
  intros Hx Hy. unfold F64.ltb, F64.leb, SFltb, SFleb.
  destruct (SFcompare_number x y Hx Hy) as [c Hc].
  rewrite Hc, (SFcompare_antisym x y c Hc).
  now destruct c.
Qed.

(** [min(max(x, 0.0), cap)] is not-a-number when [x] is, and lies between
    zero and the cap otherwise. *)
Lemma F64_clamp (x cap : F64.float) :
  F64.leb F64.zero cap = true ->
  let r := F64.py_min (F64.py_max x F64.zero) cap in
  (F64.is_nan x = true -> r = F64.nan)
  /\ (F64.is_nan x = false -> F64.between F64.zero cap r = true).
Proof.
  intros Hcap. cbv zeta.
  destruct (F64_leb_number _ _ Hcap) as [_ Hcapn].
  split.
  - destruct x; cbn [F64.is_nan]; try discriminate. intros _.
    unfold F64.py_min, F64.py_max, F64.ltb, SFltb. cbn [SFcompare].
    now destruct cap.
  - intros Hx. unfold F64.py_min, F64.between.
    assert (F64.is_nan (F64.py_max x F64.zero) = false
            /\ F64.leb F64.zero (F64.py_max x F64.zero) = true) as [Hm Hm0].
    { unfold F64.py_max. destruct (F64.ltb x F64.zero) eqn:E.
      - split; [reflexivity|]. now apply F64_leb_refl.
      - split; [exact Hx|]. now apply F64_ltb_false_leb. }
    destruct (F64.ltb cap (F64.py_max x F64.zero)) eqn:E.
    + rewrite Hcap. now apply F64_leb_refl.
    + rewrite Hm0. now apply F64_ltb_false_leb.
Qed.

(** ** The Kelly sizer in binary64: limits of the position size *)

Section KellyBounds.

Import Kelly64.

(** X5.  For a configured maximum that is at least zero and whose half,
    the fallback value, lies between zero and the maximum, the sizer
    returns, for every consensus and every statistics, the infinities and
    not-a-number included, either not-a-number or a size between zero and
    the maximum. *)
Theorem kelly_size_within_limits (self : KellyPositionSizer)
    (consensus : gmap string F64.float)
    (stats : option (gmap string F64.float)) :
  F64.leb F64.zero (max_position self) = true ->
  F64.between F64.zero (max_position self)
    (F64.mul (max_position self) (F64.lit 5 1)) = true ->
  exists size,
    calculate_position_size self consensus stats = Ok size
    /\ (F64.is_nan size = true
        \/ F64.between F64.zero (max_position self) size = true).
Proof.
  intros Hcap Hhalf. unfold calculate_position_size.
  set (s := default default_stats stats).
  destruct (kelly_body self consensus s) as [v|e] eqn:Hbody; cbn [try_except].
  2:{ eexists. split; [reflexivity|]. now right. }
  exists v. split; [reflexivity|].
  revert Hbody. unfold kelly_body.
  destruct (getitem s "win_rate") as [p|]; cbn [bind]; [|discriminate].
  destruct (getitem s "avg_win") as [w|]; cbn [bind]; [|discriminate].
  destruct (getitem s "avg_loss") as [l|]; cbn [bind]; [|discriminate].
  destruct (F64.eqb (F64.abs l) F64.zero).
  { intros [= <-]. now right. }
  destruct (kelly_criterion p w (F64.abs l)) as [[b kelly]|]; cbn [bind];
    [|discriminate].
  intros [= <-].
  set (x := scaled_size self kelly _).
  destruct (F64_clamp x (max_position self) Hcap) as [Hnan Hnum].
  destruct (F64.is_nan x) eqn:Hx.
  - left. now rewrite Hnan.
  - right. now apply Hnum.
Qed.

(** Not-a-number does come out: a consensus whose confidence is
    not-a-number gets it as its position size, past the cap. *)
Example kelly_nan_confidence :
  calculate_position_size (example_sizer (F64.lit 5 2)) no_confidence
    (Some example_stats) = Ok F64.nan.
Proof. vm_compute. reflexivity. Qed.

End KellyBounds.

Lemma kelly_size_within_limits_witness :
  exists size,
    Kelly64.calculate_position_size (Kelly64.example_sizer (F64.lit 5 2))
      Kelly64.full_confidence None = Ok size
    /\ (F64.is_nan size = true
        \/ F64.between F64.zero (F64.lit 5 2) size = true).
Proof.
  apply (kelly_size_within_limits (Kelly64.example_sizer (F64.lit 5 2))
           Kelly64.full_confidence None).
  - vm_compute. reflexivity.
  - vm_compute. reflexivity.
Defined.

(** ** The portfolio planner on any list of distinct strategies *)

Lemma PyDict_alter_app_fresh {V : Type} (f : V -> V) (k : string) (v : V)
    (pre rest : PyDict.t V) :
  k ∉ PyDict.keys pre ->
  PyDict.alter f k (pre ++ (k, v) :: rest) = pre ++ (k, f v) :: rest.
Proof.
  induction pre as [|[k' v'] pre IH]; intros Hk.
  - apply PyDict_alter_hd.
  - cbn [PyDict.keys map fst] in Hk. apply not_elem_of_cons in Hk as [Hne Hk].
    rewrite <- !app_comm_cons, PyDict_alter_tl by exact Hne.
    now rewrite (IH Hk).
Qed.

Lemma NoDup_keys_middle {V : Type} (k : string) (v : V) (pre rest : PyDict.t V) :
  NoDup (PyDict.keys (pre ++ (k, v) :: rest)) -> k ∉ PyDict.keys pre.
Proof.
  unfold PyDict.keys. rewrite map_app. cbn [map fst].
  intros Hnd Hin. apply NoDup_app in Hnd as (_ & Hdisj & _).
  apply (Hdisj k Hin). left.
Qed.

Lemma positive_sum (xs : list Q) :
  xs <> [] -> Forall (fun x => 0 < x) xs -> 0 < np_sum xs.
Proof.
  intros Hne Hall. induction Hall as [|x xs Hx Hall IH]; [congruence|].
  cbn [np_sum fold_right]. fold (np_sum xs).
  destruct xs as [|y xs'].
  - cbn. lra.
  - assert (0 < np_sum (y :: xs')) by (apply IH; discriminate). lra.
Qed.

Section PortfolioFacts.

Import Portfolio.

Lemma tilt_loop_spec (favoured : nat -> bool) (rest : PyDict.t Q) :
  forall (i : nat) (pre : PyDict.t Q),
  NoDup (PyDict.keys (pre ++ rest)) ->
  tilt_loop favoured i (PyDict.keys rest) (pre ++ rest)
  = pre ++ imap (fun j kv =>
                   (fst kv, snd kv * (if favoured (i + j)%nat then 1.2 else 0.8)))
             rest.
Proof.
  induction rest as [|[k v] rest IH]; intros i pre Hnd.
  - reflexivity.
  - cbn [PyDict.keys map fst tilt_loop]. fold (PyDict.keys rest).
    rewrite PyDict_alter_app_fresh by (eapply NoDup_keys_middle; exact Hnd).
    rewrite imap_cons. cbn [fst snd]. rewrite Nat.add_0_r.
    change (pre ++ (k, v * (if favoured i then 1.2 else 0.8)) :: rest)
      with (pre ++ [(k, v * (if favoured i then 1.2 else 0.8))] ++ rest).
    rewrite app_assoc, IH.
    + rewrite <- app_assoc. cbn [app]. do 2 f_equal.
      apply imap_ext. intros j kv _. cbn. now rewrite Nat.add_succ_r.
    + rewrite <- app_assoc. cbn [app].
      unfold PyDict.keys in *. rewrite map_app in *. exact Hnd.
Qed.

Lemma normalise_spec (total : Q) (rest : PyDict.t Q) :
  forall pre : PyDict.t Q,
  NoDup (PyDict.keys (pre ++ rest)) ->
  fold_left (fun d sid => PyDict.alter (fun w => w / total) sid d)
    (PyDict.keys rest) (pre ++ rest)
  = pre ++ map (fun kv => (fst kv, snd kv / total)) rest.
Proof.
  induction rest as [|[k v] rest IH]; intros pre Hnd.
  - reflexivity.
  - cbn [PyDict.keys map fst snd fold_left]. fold (PyDict.keys rest).
    rewrite PyDict_alter_app_fresh by (eapply NoDup_keys_middle; exact Hnd).
    change (pre ++ (k, v / total) :: rest)
      with (pre ++ [(k, v / total)] ++ rest).
    rewrite app_assoc, IH.
    + now rewrite <- app_assoc.
    + rewrite <- app_assoc. cbn [app].
      unfold PyDict.keys in *. rewrite map_app in *. exact Hnd.
Qed.

Lemma raw_weight_pos (n : nat) (tilt : Q) (i : nat) : 0 < raw_weight n tilt i.
Proof.
  assert (0 < 1 / inject_Z (Z.max (Z.of_nat n) 1)) as Hbase.
  { apply Qlt_shift_div_l; [|lra].
    replace 0 with (inject_Z 0) by reflexivity. rewrite <- Zlt_Qlt. lia. }
  unfold raw_weight. cbv zeta.
  destruct (_ && _); [|exact Hbase].
  destruct (Qltb 0 tilt).
  - destruct (i <? n / 2)%nat; apply Qmult_lt_0_compat; lra.
  - destruct (n / 2 <=? i)%nat; apply Qmult_lt_0_compat; lra.
Qed.

(** The tilted (or untouched) dictionary of weights. *)
Lemma tilted_weights (sids : list string) (tilt : Q) :
  NoDup sids ->
  let n := length sids in
  let base_weight := 1 / inject_Z (Z.max (Z.of_nat n) 1) in
  let weights := map (fun sid => (sid, base_weight)) sids in
  (if (2 <=? n)%nat && Qltb 0.1 (Qabs tilt) then
     let mid := (n / 2)%nat in
     if Qltb 0 tilt
     then tilt_loop (fun i => (i <? mid)%nat) 0 sids weights
     else tilt_loop (fun i => (mid <=? i)%nat) 0 sids weights
   else weights)
  = imap (fun i sid => (sid, raw_weight n tilt i)) sids.
Proof.
  intros Hnd n base_weight weights.
  assert (PyDict.keys weights = sids) as Hkeys.
  { unfold PyDict.keys, weights. rewrite map_map. cbn [fst]. apply map_id. }
  assert (forall fav,
    tilt_loop fav 0 sids weights
    = imap (fun i sid => (sid, base_weight * (if fav i then 1.2 else 0.8))) sids)
    as Hloop.
  { intros fav.
    pose proof (tilt_loop_spec fav weights 0 []) as Hspec.
    cbn [app] in Hspec. rewrite Hkeys in Hspec. rewrite (Hspec Hnd).
    unfold weights.
    change (map (fun sid => (sid, base_weight)) sids)
      with ((fun sid => (sid, base_weight)) <$> sids).
    rewrite imap_fmap. apply imap_ext. intros i sid _. reflexivity. }
  unfold raw_weight. fold n. cbv zeta. fold base_weight.
  destruct (_ && _).
  - destruct (Qltb 0 tilt); rewrite Hloop; apply imap_ext; reflexivity.
  - unfold weights. symmetry. apply (imap_const (fun sid => (sid, base_weight))).
Qed.

Lemma plan_portfolio_closed (sids : list string) (sentiment confidence : Q) :
  NoDup sids -> sids <> [] ->
  let n := length sids in
  let raw := map (raw_weight n (sentiment * confidence)) (seq 0 n) in
  0 < np_sum raw
  /\ map strategy_id (plan_portfolio sids sentiment confidence) = sids
  /\ map weight (plan_portfolio sids sentiment confidence)
     = map (fun w => w / py_sum raw) raw.
Proof.
  intros Hnd Hne. cbv zeta.
  destruct sids as [|sid0 sids0]; [congruence|].
  unfold plan_portfolio.
  set (sids := sid0 :: sids0) in *. set (n := length sids).
  set (raw := map (raw_weight n (sentiment * confidence)) (seq 0 n)).
  assert (0 < np_sum raw) as Hpos.
  { apply positive_sum.
    - unfold raw, n, sids. discriminate.
    - unfold raw. apply Forall_map, Forall_forall. intros i _.
      apply raw_weight_pos. }
  split; [exact Hpos|].
  rewrite PyDict_of_items_NoDup
    by (rewrite map_map; cbn [fst]; now rewrite map_id).
  pose proof (tilted_weights sids (sentiment * confidence) Hnd) as Htilt.
  cbv zeta in Htilt. fold n in Htilt. rewrite Htilt. clear Htilt.
  set (d := imap (fun i sid => (sid, raw_weight n (sentiment * confidence) i)) sids).
  assert (PyDict.values d = raw) as Hvals.
  { unfold PyDict.values, d.
    change (map snd ?l) with (snd <$> l). rewrite fmap_imap.
    unfold raw, n. rewrite <- imap_seq_0. apply imap_ext. reflexivity. }
  assert (PyDict.keys d = sids) as Hkeys.
  { unfold PyDict.keys, d.
    change (map fst ?l) with (fst <$> l). rewrite fmap_imap.
    rewrite (imap_ext _ (const id)) by reflexivity.
    rewrite imap_const. apply map_id. }
  rewrite Hvals.
  assert (Qltb 0 (py_sum raw) = true) as ->
    by (apply Qltb_lt; now rewrite py_sum_np_sum).
  unfold normalise.
  pose proof (normalise_spec (py_sum raw) d []) as Hspec.
  cbn [app] in Hspec. rewrite Hspec by now rewrite Hkeys.
  rewrite !map_map. cbn [strategy_id weight fst snd]. split.
  - exact Hkeys.
  - rewrite <- Hvals. unfold PyDict.values. now rewrite map_map.
Qed.

(** The allocation over distinct strategies: one positive weight each. *)
Lemma plan_portfolio_positive (sids : list string)
    (sentiment confidence : Q) :
  NoDup sids -> sids <> [] ->
  let allocs := plan_portfolio sids sentiment confidence in
  map strategy_id allocs = sids
  /\ Forall (fun a => 0 < weight a) allocs.
Proof.
  intros Hnd Hne allocs.
  destruct (plan_portfolio_closed sids sentiment confidence Hnd Hne)
    as (Hpos & Hids & Hw).
  cbv zeta in Hpos, Hw.
  set (raw := map (raw_weight (length sids) (sentiment * confidence))
                (seq 0 (length sids))) in *.
  assert (0 < py_sum raw) as Hpy by now rewrite py_sum_np_sum.
  split; [exact Hids|].
  apply (Forall_map weight (fun w => 0 < w)). fold allocs in Hw. rewrite Hw.
  apply Forall_map, Forall_forall. intros w Hin. cbn.
  apply Qlt_shift_div_l; [exact Hpy|].
  unfold raw in Hin. apply list_elem_of_fmap in Hin as (i & -> & _).
  pose proof (raw_weight_pos (length sids) (sentiment * confidence) i). lra.
Qed.

(** The weight at a place of the allocation list. *)
Lemma plan_portfolio_lookup (sids : list string) (sentiment confidence : Q)
    (k : nat) (c : StrategyAllocation) :
  NoDup sids -> sids <> [] ->
  plan_portfolio sids sentiment confidence !! k = Some c ->
  let n := length sids in
  let raw := map (raw_weight n (sentiment * confidence)) (seq 0 n) in
  0 < py_sum raw
  /\ weight c = raw_weight n (sentiment * confidence) k / py_sum raw.
Proof.
  intros Hnd Hne Hk. cbv zeta.
  destruct (plan_portfolio_closed sids sentiment confidence Hnd Hne)
    as (Hpos & Hids & Hw).
  cbv zeta in Hpos, Hw.
  set (n := length sids) in *. set (tilt := sentiment * confidence) in *.
  set (raw := map (raw_weight n tilt) (seq 0 n)) in *.
  split; [now rewrite py_sum_np_sum|].
  assert (map weight (plan_portfolio sids sentiment confidence) !! k
          = Some (weight c)) as Hk'
    by (change (map weight ?l) with (weight <$> l);
        now rewrite list_lookup_fmap, Hk).
  rewrite Hw in Hk'. unfold raw in Hk'. rewrite map_map in Hk'.
  change (map ?f ?l) with (f <$> l) in Hk'.
  rewrite list_lookup_fmap in Hk'.
  destruct (seq 0 n !! k) as [k'|] eqn:Ek; [|discriminate].
  apply lookup_seq in Ek as [-> _].
  cbn [fmap option_fmap option_map Nat.add] in Hk'.
  injection Hk' as Hk'. symmetry. exact Hk'.
Qed.

(** X7.  For every non-empty list of pairwise distinct strategy ids and
    every sentiment and confidence, the planner returns exactly one
    allocation per strategy, in the order given, and every weight is
    positive: the weight at place [i] is the raw weight of that place (the
    base weight 1/n, times 1.2 or 0.8 under a tilt) divided by the sum of
    the raw weights. *)
Theorem portfolio_one_weight_per_strategy (sids : list string)
    (sentiment confidence : Q) :
  NoDup sids -> sids <> [] ->
  let n := length sids in
  let raw := map (raw_weight n (sentiment * confidence)) (seq 0 n) in
  let allocs := plan_portfolio sids sentiment confidence in
  map strategy_id allocs = sids
  /\ map weight allocs = map (fun w => w / py_sum raw) raw
  /\ Forall (fun a => 0 < weight a) allocs.
Proof.
  intros Hnd Hne. cbv zeta.
  destruct (plan_portfolio_closed sids sentiment confidence Hnd Hne)
    as (_ & Hids & Hw).
  destruct (plan_portfolio_positive sids sentiment confidence Hnd Hne)
    as (_ & Hpos).
  split; [exact Hids|]. split; [exact Hw|exact Hpos].
Qed.

(** X8.  Without a tilt, that is when |sentiment * confidence| is at most
    0.1 or only one strategy is given, all of the pairwise distinct
    strategies receive the same weight. *)
Theorem portfolio_neutral_equal_weights (sids : list string)
    (sentiment confidence : Q) (i j : nat) (a b : StrategyAllocation) :
  NoDup sids -> sids <> [] ->
  Qabs (sentiment * confidence) <= 0.1 \/ length sids = 1%nat ->
  plan_portfolio sids sentiment confidence !! i = Some a ->
  plan_portfolio sids sentiment confidence !! j = Some b ->
  weight a = weight b.
Proof.
  intros Hnd Hne Hneutral Ha Hb.
  destruct (plan_portfolio_lookup sids sentiment confidence i a Hnd Hne Ha)
    as (_ & ->).
  destruct (plan_portfolio_lookup sids sentiment confidence j b Hnd Hne Hb)
    as (_ & ->).
  set (n := length sids) in *.
  assert (forall k, raw_weight n (sentiment * confidence) k
                    = 1 / inject_Z (Z.max (Z.of_nat n) 1)) as Hraw.
  { intros k. unfold raw_weight. cbv zeta.
    assert ((2 <=? n)%nat && Qltb 0.1 (Qabs (sentiment * confidence)) = false)
      as ->; [|reflexivity].
    destruct Hneutral as [Hle|H1].
    - rewrite (proj2 (Qltb_ge _ _) Hle). apply andb_false_r.
    - rewrite H1. reflexivity. }
  now rewrite (Hraw i), (Hraw j).
Qed.

(** X9.  With at least two pairwise distinct strategies and a tilt
    sentiment * confidence above 0.1 in absolute value, the favoured half
    weighs strictly more than the other half: for a positive tilt every
    strategy in the first [n // 2] places gets a larger weight than every
    later one, for a negative tilt every strategy from place [n // 2] on
    gets a larger weight than every earlier one. *)
Theorem portfolio_tilt_order (sids : list string) (sentiment confidence : Q)
    (i j : nat) (a b : StrategyAllocation) :
  NoDup sids -> (2 <= length sids)%nat ->
  0.1 < Qabs (sentiment * confidence) ->
  (i < length sids / 2)%nat -> (length sids / 2 <= j)%nat ->
  plan_portfolio sids sentiment confidence !! i = Some a ->
  plan_portfolio sids sentiment confidence !! j = Some b ->
  (0 < sentiment * confidence -> weight b < weight a)
  /\ (sentiment * confidence <= 0 -> weight a < weight b).
Proof.
  intros Hnd Hlen Htilt Hi Hj Ha Hb.
  assert (sids <> []) as Hne by (destruct sids; [cbn in Hlen; lia|discriminate]).
  destruct (plan_portfolio_lookup sids sentiment confidence i a Hnd Hne Ha)
    as (Hpy & ->).
  destruct (plan_portfolio_lookup sids sentiment confidence j b Hnd Hne Hb)
    as (_ & ->).
  set (n := length sids) in *. set (tilt := sentiment * confidence) in *.
  set (total := py_sum (map (raw_weight n tilt) (seq 0 n))) in *.
  assert ((2 <=? n)%nat && Qltb 0.1 (Qabs tilt) = true) as Hcond.
  { apply andb_true_intro. split; [now apply Nat.leb_le|now apply Qltb_lt]. }
  unfold raw_weight. cbv zeta. rewrite Hcond.
  assert (0 < inject_Z (Z.max (Z.of_nat n) 1)) as Hden.
  { replace 0 with (inject_Z 0) by reflexivity. rewrite <- Zlt_Qlt. lia. }
  set (base := 1 / inject_Z (Z.max (Z.of_nat n) 1)).
  assert (0 < base) as Hbase by (apply Qlt_shift_div_l; [exact Hden|lra]).
  assert (base * 0.8 / total < base * 1.2 / total) as Hlt.
  { apply Qlt_shift_div_l; [exact Hpy|].
    assert (base * 0.8 / total * total == base * 0.8) as -> by (field; lra).
    lra. }
  split; intros Hsign.
  - rewrite (proj2 (Qltb_lt 0 tilt) Hsign).
    rewrite (proj2 (Nat.ltb_lt i (n / 2)) Hi).
    rewrite (proj2 (Nat.ltb_ge j (n / 2)) Hj).
    exact Hlt.
  - rewrite (proj2 (Qltb_ge 0 tilt) Hsign).
    rewrite (proj2 (Nat.leb_le (n / 2) j) Hj).
    rewrite (proj2 (Nat.leb_gt (n / 2) i) Hi).
    exact Hlt.
Qed.

End PortfolioFacts.

Lemma portfolio_one_weight_per_strategy_witness :
  let allocs := Portfolio.plan_portfolio Portfolio.three_strategies (-1) 0.5 in
  map Portfolio.strategy_id allocs = Portfolio.three_strategies
  /\ Forall (fun a => 0 < Portfolio.weight a) allocs.
Proof.
  pose proof (portfolio_one_weight_per_strategy Portfolio.three_strategies
                (-1) 0.5) as H.
  cbv zeta in H. cbv zeta.
  destruct H as (Hids & _ & Hpos).
  - apply (bool_decide_unpack _). vm_compute. exact I.
  - discriminate.
  - split; [exact Hids|exact Hpos].
Defined.

Lemma portfolio_neutral_equal_weights_witness :
  exists a b,
    Portfolio.plan_portfolio Portfolio.three_strategies 0.2 0.5 !! 0%nat = Some a
    /\ Portfolio.plan_portfolio Portfolio.three_strategies 0.2 0.5 !! 2%nat = Some b
    /\ Portfolio.weight a = Portfolio.weight b.
Proof.
  eexists. eexists. split; [vm_compute; reflexivity|].
  split; [vm_compute; reflexivity|].
  refine (portfolio_neutral_equal_weights Portfolio.three_strategies 0.2 0.5 0 2
            _ _ _ _ _ _ _).
  - apply (bool_decide_unpack _). vm_compute. exact I.
  - discriminate.
  - left. vm_compute. discriminate.
  - vm_compute. reflexivity.
  - vm_compute. reflexivity.
Defined.

Lemma portfolio_tilt_order_witness :
  exists a b,
    Portfolio.plan_portfolio Portfolio.three_strategies 1 0.5 !! 0%nat = Some a
    /\ Portfolio.plan_portfolio Portfolio.three_strategies 1 0.5 !! 2%nat = Some b
    /\ Portfolio.weight b < Portfolio.weight a.
Proof.
  eexists. eexists. split; [vm_compute; reflexivity|].
  split; [vm_compute; reflexivity|].
  refine (proj1 (portfolio_tilt_order Portfolio.three_strategies 1 0.5 0 2
                   _ _ _ _ _ _ _ _ _) _).
  - apply (bool_decide_unpack _). vm_compute. exact I.
  - cbn. lia.
  - vm_compute. reflexivity.
  - cbn. lia.
  - cbn. lia.
  - vm_compute. reflexivity.
  - vm_compute. reflexivity.
  - vm_compute. reflexivity.
Defined.

(** ** Sorting *)

Lemma insert_by_ascending {A : Type} (key : A -> Z) (x : A) (l : list A) :
  ascending key l -> ascending key (insert_by key x l).
Proof.
  induction l as [|y l IH]; intros Hasc.
  - cbn. split; [constructor|exact I].
  - destruct Hasc as [Hy Hl]. cbn [insert_by].
    destruct (Z.leb_spec (key x) (key y)) as [Hle|Hgt].
    + cbn [ascending]. split; [|split; assumption].
      constructor; [exact Hle|].
      eapply Forall_impl; [exact Hy|]. intros z Hz. cbn beta in *. lia.
    + cbn [ascending]. split; [|now apply IH].
      rewrite insert_by_Permutation. constructor; [lia|exact Hy].
Qed.

Lemma sorted_by_ascending {A : Type} (key : A -> Z) (l : list A) :
  ascending key (sorted_by key l).
Proof.
  induction l as [|x l IH]; [exact I|].
  cbn [sorted_by fold_right]. now apply insert_by_ascending.
Qed.

Lemma insert_by_head {A : Type} (key : A -> Z) (x : A) (l : list A) :
  Forall (fun y => (key x <= key y)%Z) l -> insert_by key x l = x :: l.
Proof.
  destruct l as [|y l]; [reflexivity|].
  intros H. inversion H as [|? ? Hy _]; subst. cbn [insert_by].
  destruct (Z.leb_spec (key x) (key y)); [reflexivity|lia].
Qed.

Lemma Forall_filter_stdlib {A : Type} (P : A -> Prop) (p : A -> bool) (l : list A) :
  Forall P l -> Forall P (List.filter p l).
Proof.
  induction 1 as [|x l Hx _ IH]; cbn [List.filter]; [constructor|].
  destruct (p x); [now constructor|exact IH].
Qed.

Lemma ascending_filter {A : Type} (key : A -> Z) (p : A -> bool) (l : list A) :
  ascending key l -> ascending key (List.filter p l).
Proof.
  induction l as [|x l IH]; [trivial|].
  intros [Hx Hl]. cbn [List.filter].
  destruct (p x); [|now apply IH].
  split; [now apply Forall_filter_stdlib|now apply IH].
Qed.

Lemma filter_insert_by {A : Type} (p : A -> bool) (key : A -> Z) (x : A)
    (l : list A) :
  ascending key l ->
  List.filter p (insert_by key x l)
  = if p x then insert_by key x (List.filter p l) else List.filter p l.
Proof.
  induction l as [|y l IH]; intros Hasc.
  - cbn. now destruct (p x).
  - destruct Hasc as [Hy Hl]. cbn [insert_by].
    destruct (Z.leb_spec (key x) (key y)) as [Hle|Hgt].
    + cbn [List.filter]. destruct (p x) eqn:Hpx; [|reflexivity].
      symmetry. apply insert_by_head.
      apply (Forall_filter_stdlib _ p (y :: l)).
      constructor; [exact Hle|].
      eapply Forall_impl; [exact Hy|]. intros z Hz. cbn beta in *. lia.
    + cbn [List.filter]. rewrite (IH Hl).
      destruct (p y) eqn:Hpy, (p x) eqn:Hpx; try reflexivity.
      cbn [insert_by]. destruct (Z.leb_spec (key x) (key y)); [lia|reflexivity].
Qed.

(** Filtering commutes with the stable sort. *)
Lemma filter_sorted_by {A : Type} (p : A -> bool) (key : A -> Z) (l : list A) :
  List.filter p (sorted_by key l) = sorted_by key (List.filter p l).
Proof.
  induction l as [|x l IH]; [reflexivity|].
  cbn [sorted_by fold_right List.filter].
  fold (sorted_by key l).
  rewrite filter_insert_by by apply sorted_by_ascending.
  rewrite IH. now destruct (p x).
Qed.

Lemma ascending_keys {A : Type} (key : A -> Z) (l : list A) :
  ascending key l -> ascending id (map key l).
Proof.
  induction l as [|x l IH]; [trivial|].
  intros [Hx Hl]. cbn [map ascending]. split; [|now apply IH].
  apply Forall_map. eapply Forall_impl; [exact Hx|]. intros y Hy. exact Hy.
Qed.

Lemma insert_by_map {A B : Type} (f : A -> B) (key : B -> Z) (x : A) (l : list A) :
  insert_by key (f x) (map f l) = map f (insert_by (fun a => key (f a)) x l).
Proof.
  induction l as [|y l IH]; [reflexivity|].
  cbn [map insert_by]. destruct (key (f x) <=? key (f y))%Z; [reflexivity|].
  cbn [map]. now rewrite IH.
Qed.

Lemma sorted_by_map {A B : Type} (f : A -> B) (key : B -> Z) (l : list A) :
  sorted_by key (map f l) = map f (sorted_by (fun a => key (f a)) l).
Proof.
  induction l as [|x l IH]; [reflexivity|].
  cbn [map sorted_by fold_right].
  fold (sorted_by key (map f l)). fold (sorted_by (fun a => key (f a)) l).
  now rewrite IH, insert_by_map.
Qed.


(** ** The simulator: signals that do nothing *)

Section BacktestIdle.

Import Backtest.

Lemma consume_all_later (ic : Q) (ts : Z) (c : Q) (pending : list Signal)
    (st : Sim) :
  Forall (fun s => (ts < timestamp s)%Z) pending ->
  consume_signals ic ts c pending st = Ok (st, pending).
Proof.
  destruct pending as [|sig rest]; [reflexivity|].
  intros H. inversion H; subst. now apply consume_later.
Qed.

Lemma consume_idle (ic : Q) (ts : Z) (c : Q) (pending : list Signal) (st : Sim) :
  in_position st = false -> Forall idle pending ->
  exists rest, consume_signals ic ts c pending st = Ok (st, rest)
               /\ Forall idle rest.
Proof.
  intros Hflat Hidle. induction Hidle as [|sig pending Hsig Hidle IH].
  - exists []. split; [reflexivity|constructor].
  - cbn [consume_signals]. destruct (timestamp sig <=? ts)%Z.
    + rewrite Hflat. destruct (signal_type sig) eqn:Hty; try exact IH.
      destruct Hsig as [Hne|Hle]; [congruence|].
      apply Qle_bool_iff in Hle. now rewrite Hle.
    + eexists. split; [reflexivity|]. now constructor.
Qed.

Lemma run_bars_idle (ic : Q) (df : list (Z * Q)) (bars : list (Z * Q))
    (pending : list Signal) (st : Sim) (curve : list (Z * Q)) :
  in_position st = false -> Forall idle pending -> Forall (quoted df) bars ->
  run_bars ic df (map fst bars) pending st curve
  = Ok (st, curve ++ map (fun bar => (fst bar, capital st)) bars).
Proof.
  intros Hflat Hidle Hq. revert pending Hidle curve.
  induction Hq as [|[ts c] bars Hc _ IH]; intros pending Hidle curve.
  - cbn. now rewrite app_nil_r.
  - cbn [map fst run_bars]. unfold quoted in Hc. cbn [fst snd] in Hc.
    rewrite Hc. cbn [bind].
    destruct (consume_idle ic ts c pending st Hflat Hidle) as (rest & -> & Hrest).
    cbn [bind]. unfold mark_to_market. rewrite Hflat, (IH rest Hrest).
    now rewrite <- app_assoc.
Qed.

Lemma Qmax_same (x : Q) : Qmax x x = x.
Proof. unfold Qmax, GenericMinMax.gmax. now destruct (x ?= x). Qed.

Lemma Qmin_same (x : Q) : Qmin x x = x.
Proof. unfold Qmin, GenericMinMax.gmin. now destruct (x ?= x). Qed.

Lemma cummax_from_level {A : Type} (v : Q) (l : list A) :
  cummax_from v (map (fun _ => v) l) = map (fun _ => v) l.
Proof.
  induction l as [|x l IH]; [reflexivity|].
  cbn [map cummax_from]. rewrite Qmax_same. cbv zeta. now rewrite IH.
Qed.

Lemma series_min_level {A : Type} (q : Q) (l : list A) :
  series_min (Finite q) (map (fun _ => Finite q) l) = Finite q.
Proof.
  unfold series_min. induction l as [|x l IH]; [reflexivity|].
  cbn [map fold_left nan_min]. rewrite Qmin_same. exact IH.
Qed.

(** The metrics of a level curve without trades. *)
Lemma compute_metrics_level {A : Type} (v : Q) (x : A) (l : list A) :
  exists m,
    compute_metrics (map (fun _ => v) (x :: l)) [] = Ok m
    /\ Backtest.num_trades m = 0%Z
    /\ Backtest.win_rate m = 0
    /\ Backtest.profit_factor m = 0
    /\ (~ v == 0 ->
        Backtest.total_return m = Finite (v / v - 1)
        /\ Backtest.max_drawdown m = Finite (v / v - 1)).
Proof.
  eexists. split; [reflexivity|].
  cbn [Backtest.num_trades Backtest.win_rate Backtest.profit_factor
       Backtest.total_return Backtest.max_drawdown].
  repeat split.
  - assert (List.last (map (fun _ : A => v) (x :: l)) v = v) as ->.
    { generalize (x :: l). intros l'. induction l' as [|y l' IH]; [reflexivity|].
      cbn [map]. destruct l' as [|z l'']; [reflexivity|]. exact IH. }
    now rewrite np_div_nonzero.
  - cbn [map drawdown cummax zip_with]. rewrite cummax_from_level.
    rewrite zip_with_map_same.
    rewrite (np_div_nonzero v v) by assumption. cbn [np_sub].
    apply series_min_level.
Qed.

(** A run that never opens a position. *)
Lemma run_idle (ic : Q) (signals : list Signal)
    (candles : list (Z * Q)) :
  candles <> [] -> NoDup (map fst candles) -> Forall idle signals ->
  exists r,
    run ic signals candles = Ok r
    /\ trades r = []
    /\ equity_curve r = map (fun bar => (fst bar, ic)) (sorted_by fst candles)
    /\ Backtest.num_trades (metrics r) = 0%Z
    /\ Backtest.win_rate (metrics r) = 0
    /\ Backtest.profit_factor (metrics r) = 0
    /\ (~ ic == 0 ->
        exists q, Backtest.total_return (metrics r) = Finite q
                  /\ Backtest.max_drawdown (metrics r) = Finite q
                  /\ q == 0).
Proof.
  intros Hne Hnd Hidle.
  pose proof (sorted_frame_quoted candles Hnd) as Hq.
  pose proof (sorted_by_Permutation fst candles) as Hp.
  assert (Forall idle (sorted_by timestamp signals)) as Hidle'
    by now rewrite sorted_by_Permutation.
  unfold run. set (df := sorted_by fst candles) in *.
  assert (df <> []) as Hdf.
  { intros Hnil. rewrite Hnil in Hp. apply Permutation_nil_l in Hp. congruence. }
  destruct (rev_nonempty df Hdf) as ([last_ts last_price] & before & ->).
  rewrite (run_bars_idle ic df df _ (init_sim ic) [] eq_refl Hidle' Hq).
  cbn [bind in_position init_sim andb app capital trade_returns sim_trades].
  rewrite map_map. cbn [snd].
  destruct df as [|bar df']; [congruence|].
  destruct (compute_metrics_level ic bar df')
    as (m & -> & Hn & Hw & Hpf & Hrest).
  cbn [bind]. eexists. split; [reflexivity|].
  cbn [trades equity_curve metrics]. repeat split; try assumption.
  intros Hic. destruct (Hrest Hic) as [Htr Hdd].
  exists (ic / ic - 1). repeat split; try assumption. field. exact Hic.
Qed.

(** X10.  A run whose signals cannot open a position (no ENTRY_LONG with a
    positive size: only exits, short signals, entries of size zero or less,
    or no signal at all) returns on every non-empty frame of distinct
    timestamps, whatever the closes are: no trade, an equity curve level at
    the initial capital with one point per bar in time order, zero trades,
    win rate and profit factor, and for a non-zero initial capital a total
    return and a maximum drawdown of zero. *)
Theorem run_without_entries (ic : Q) (signals : list Signal)
    (candles : list (Z * Q)) :
  candles <> [] -> NoDup (map fst candles) -> Forall idle signals ->
  exists r,
    run ic signals candles = Ok r
    /\ trades r = []
    /\ equity_curve r = map (fun bar => (fst bar, ic)) (sorted_by fst candles)
    /\ Backtest.num_trades (metrics r) = 0%Z
    /\ Backtest.win_rate (metrics r) = 0
    /\ Backtest.profit_factor (metrics r) = 0
    /\ (~ ic == 0 ->
        exists q, Backtest.total_return (metrics r) = Finite q
                  /\ Backtest.max_drawdown (metrics r) = Finite q
                  /\ q == 0).
Proof. apply run_idle. Qed.

(** *** Short signals *)

Lemma consume_filter (ic : Q) (ts : Z) (c : Q) (pending : list Signal) :
  forall st : Sim,
  ascending timestamp pending ->
  consume_signals ic ts c (List.filter is_long pending) st
  = match consume_signals ic ts c pending st with
    | Ok (st', rest) => Ok (st', List.filter is_long rest)
    | Raise e => Raise e
    end.
Proof.
  induction pending as [|sig pending IH]; intros st Hasc; [reflexivity|].
  destruct Hasc as [Hsig Hasc].
  destruct (Z.leb_spec (timestamp sig) ts) as [Hle|Hgt].
  - cbn [List.filter consume_signals]. unfold is_long.
    destruct (signal_type sig) eqn:Hty; cbn [consume_signals];
      try (destruct (Z.leb_spec (timestamp sig) ts); [|lia]);
      try rewrite Hty.
    + destruct (in_position st); [now apply IH|].
      destruct (Qle_bool (size_fraction sig) 0); [now apply IH|].
      destruct (py_div (capital st * size_fraction sig) c) as [qty|];
        cbn [bind]; [now apply IH|reflexivity].
    + destruct (in_position st); now apply IH.
    + now apply IH.
    + now apply IH.
  - rewrite (consume_later ic ts c sig pending st Hgt).
    apply consume_all_later. apply Forall_filter_stdlib.
    constructor; [exact Hgt|].
    eapply Forall_impl; [exact Hsig|]. intros s Hs. cbn beta in *. lia.
Qed.

Lemma consume_rest_ascending (ic : Q) (ts : Z) (c : Q) (pending : list Signal) :
  forall (st st' : Sim) (rest : list Signal),
  ascending timestamp pending ->
  consume_signals ic ts c pending st = Ok (st', rest) ->
  ascending timestamp rest.
Proof.
  induction pending as [|sig pending IH]; intros st st' rest Hasc Hrun.
  - cbn in Hrun. inversion Hrun; subst. exact I.
  - cbn [consume_signals] in Hrun. pose proof Hasc as [_ Hasc'].
    destruct (timestamp sig <=? ts)%Z; [|inversion Hrun; subst; exact Hasc].
    destruct (signal_type sig), (in_position st);
      try (now apply (IH _ _ _ Hasc' Hrun)).
    destruct (Qle_bool (size_fraction sig) 0); [now apply (IH _ _ _ Hasc' Hrun)|].
    destruct (py_div (capital st * size_fraction sig) c); [|discriminate].
    cbn [bind] in Hrun. now apply (IH _ _ _ Hasc' Hrun).
Qed.

Lemma run_bars_filter (ic : Q) (df : list (Z * Q)) (index : list Z) :
  forall (pending : list Signal) (st : Sim) (curve : list (Z * Q)),
  ascending timestamp pending ->
  run_bars ic df index (List.filter is_long pending) st curve
  = run_bars ic df index pending st curve.
Proof.
  induction index as [|ts index IH]; intros pending st curve Hasc; [reflexivity|].
  cbn [run_bars]. destruct (loc_close df ts) as [c|]; [|reflexivity].
  cbn [bind]. rewrite (consume_filter ic ts c pending st Hasc).
  destruct (consume_signals ic ts c pending st) as [[st' rest]|] eqn:Hc;
    [|reflexivity].
  cbn [bind]. apply IH. eapply consume_rest_ascending; eassumption.
Qed.

(** X11.  Short signals have no effect: a run gives the same result, or
    raises the same exception, as the run on the ENTRY_LONG and EXIT_LONG
    signals alone. *)
Theorem short_signals_ignored (ic : Q) (signals : list Signal)
    (candles : list (Z * Q)) :
  run ic signals candles = run ic (List.filter is_long signals) candles.
Proof.
  unfold run. rewrite <- filter_sorted_by.
  now rewrite run_bars_filter by apply sorted_by_ascending.
Qed.

End BacktestIdle.

Lemma run_without_entries_witness :
  exists r,
    Backtest.run 1000 [Backtest.short_signal; Backtest.exit_signal]
      Backtest.zero_close_bars = Ok r
    /\ Backtest.trades r = []
    /\ Backtest.equity_curve r = [(1%Z, 1000); (2%Z, 1000); (3%Z, 1000)].
Proof.
  destruct (run_without_entries 1000 [Backtest.short_signal; Backtest.exit_signal]
              Backtest.zero_close_bars) as (r & Hr & Ht & Hc & _).
  - discriminate.
  - apply (bool_decide_unpack _). vm_compute. exact I.
  - constructor; [left; discriminate|].
    constructor; [left; discriminate|]. constructor.
  - exists r. repeat split; assumption.
Defined.

(** ** The simulator: the books balance *)

Section BacktestAccounting.

Import Backtest.





(** The loop over the bars writes one point per bar, under its timestamp. *)
Lemma run_bars_index (ic : Q) (df : list (Z * Q)) (index : list Z) :
  forall (pending : list Signal) (st stf : Sim) (curve cf : list (Z * Q)),
  run_bars ic df index pending st curve = Ok (stf, cf) ->
  exists added, cf = curve ++ added /\ map fst added = index.
Proof.
  induction index as [|ts index IH]; intros pending st stf curve cf Hrun.
  - cbn in Hrun. inversion Hrun; subst. exists []. now rewrite app_nil_r.
  - cbn [run_bars] in Hrun.
    destruct (loc_close df ts) as [c|]; [|discriminate]. cbn [bind] in Hrun.
    destruct (consume_signals ic ts c pending st) as [[st1 p1]|]; [|discriminate].
    cbn [bind] in Hrun. apply IH in Hrun as (added & -> & Hidx).
    exists ((ts, mark_to_market st1 c) :: added).
    rewrite <- app_assoc. cbn [app map fst]. now rewrite Hidx.
Qed.


Lemma set_last_snoc (v w : Q) (ts : Z) (l : list (Z * Q)) :
  set_last v (l ++ [(ts, w)]) = l ++ [(ts, v)].
Proof.
  unfold set_last. rewrite rev_app_distr. cbn [List.rev app].
  now rewrite rev_involutive.
Qed.

Lemma set_last_index (v : Q) (curve : list (Z * Q)) :
  map fst (set_last v curve) = map fst curve.
Proof.
  destruct curve as [|p curve]; [reflexivity|].
  destruct (rev_nonempty (p :: curve) ltac:(discriminate))
    as ([ts w] & before & Hrev).
  assert (p :: curve = List.rev before ++ [(ts, w)]) as ->.
  { rewrite <- (rev_involutive (p :: curve)), Hrev. reflexivity. }
  rewrite set_last_snoc, !map_app. reflexivity.
Qed.



(** X13.  On a non-empty frame of distinct timestamps and non-zero closes
    a run returns an equity curve with exactly one point per candle, under
    the candles' timestamps in ascending order, whatever order the candles
    were given in. *)
Theorem equity_curve_follows_the_bars (ic : Q) (signals : list Signal)
    (candles : list (Z * Q)) :
  candles <> [] -> NoDup (map fst candles) ->
  Forall (fun bar => ~ snd bar == 0) candles ->
  exists r,
    run ic signals candles = Ok r
    /\ map fst (equity_curve r) = map fst (sorted_by fst candles)
    /\ map fst (equity_curve r) ≡ₚ map fst candles
    /\ ascending id (map fst (equity_curve r)).
Proof.
  intros Hne Hnd Hnz.
  destruct (run_returns ic signals candles Hne Hnd Hnz) as (r & Hr).
  exists r. split; [exact Hr|].
  assert (map fst (equity_curve r) = map fst (sorted_by fst candles)) as Hidx.
  { revert Hr. unfold run. set (df := sorted_by fst candles).
    destruct (List.rev df) as [|[last_ts last_price] before]; [discriminate|].
    destruct (run_bars ic df (map fst df) (sorted_by timestamp signals)
                (init_sim ic) []) as [[st curve]|] eqn:Hrun; [|discriminate].
    cbn [bind]. apply run_bars_index in Hrun as (added & -> & Hidx).
    cbn [app].
    destruct (in_position st && Qltb 0 (position_size st));
      match goal with
      | |- context [compute_metrics ?eq ?rets] =>
          destruct (compute_metrics eq rets) as [m|]; [|discriminate]
      end; cbn [bind]; intros [= <-]; cbn [equity_curve];
      [now rewrite set_last_index|exact Hidx]. }
  split; [exact Hidx|]. rewrite Hidx. split.
  - apply Permutation_map, sorted_by_Permutation.
  - apply ascending_keys, sorted_by_ascending.
Qed.

End BacktestAccounting.


Lemma equity_curve_follows_the_bars_witness :
  exists r,
    Backtest.run 1000 [Backtest.entry_signal]
      [(3%Z, 50); (1%Z, 100); (2%Z, 80)] = Ok r
    /\ map fst (Backtest.equity_curve r) = [1%Z; 2%Z; 3%Z].
Proof.
  destruct (equity_curve_follows_the_bars 1000 [Backtest.entry_signal]
              [(3%Z, 50); (1%Z, 100); (2%Z, 80)]) as (r & Hr & Hidx & _).
  - discriminate.
  - apply (bool_decide_unpack _). vm_compute. exact I.
  - repeat constructor; vm_compute; discriminate.
  - exists r. split; [exact Hr|exact Hidx].
Defined.

(** ** The lab: registering strategies and recording backtests *)

Lemma sorted_by_snoc_first {A : Type} (key : A -> Z) (x : A) (l : list A) :
  Forall (fun y => (key x < key y)%Z) l ->
  sorted_by key (l ++ [x]) = x :: sorted_by key l.
Proof.
  induction 1 as [|y l Hy _ IH]; [reflexivity|].
  cbn [app sorted_by fold_right].
  fold (sorted_by key (l ++ [x])). fold (sorted_by key l).
  rewrite IH. cbn [insert_by].
  destruct (Z.leb_spec (key y) (key x)); [lia|reflexivity].
Qed.

Section LabStore.

Import Lab.

(** X14.  Registering a strategy makes it selectable for its pair and
    timeframe at once, before any backtest, unless a row of that id already
    carries a status outside the three the selection accepts (a rejected
    strategy stays rejected when it is registered again); the selection of
    every other strategy is unchanged. *)
Theorem upsert_then_selection (db : DB) (sid p tf : string) :
  (sid ∈ get_approved_strategies_for_pair (upsert_strategy db sid p tf) p tf
   <-> forall row, strategies db !! sid = Some row -> status row ∈ allowed_status)
  /\ (forall sid' p' tf', sid' <> sid ->
        sid' ∈ get_approved_strategies_for_pair (upsert_strategy db sid p tf) p' tf'
        <-> sid' ∈ get_approved_strategies_for_pair db p' tf').
Proof.
  split.
  - rewrite selected_iff. unfold upsert_strategy. cbn [strategies].
    rewrite lookup_insert_eq. split.
    + intros (row' & [= <-] & _ & _ & Hst) row Hrow.
      cbn [status] in Hst. now rewrite Hrow in Hst.
    + intros Hall. eexists. split; [reflexivity|]. cbn [pair timeframe status].
      repeat split.
      destruct (strategies db !! sid) as [row|] eqn:Hrow; [now apply Hall|].
      apply allowed_status_iff. now right; left.
  - intros sid' p' tf' Hne. rewrite !selected_iff.
    unfold upsert_strategy. cbn [strategies].
    now rewrite lookup_insert_ne by congruence.
Qed.

Lemma record_backtest_inv (db db' : DB) (now : Z) (sid : string)
    (metrics : gmap string Q) :
  record_backtest db now sid metrics = Ok db' ->
  exists row,
    db' = {| strategies := strategies db; backtests := backtests db ++ [row] |}
    /\ bt_strategy_id row = sid /\ run_at row = now
    /\ metrics !! "total_return"%string = Some (total_return row)
    /\ metrics !! "max_drawdown"%string = Some (max_drawdown row)
    /\ metrics !! "sharpe"%string = Some (sharpe row)
    /\ metrics !! "win_rate"%string = Some (win_rate row)
    /\ metrics !! "profit_factor"%string = Some (profit_factor row)
    /\ (py_int <$> metrics !! "num_trades"%string) = Some (num_trades row).
Proof.
  unfold record_backtest, py_getitem.
  destruct (metrics !! "total_return"%string); cbn [bind]; [|discriminate].
  destruct (metrics !! "max_drawdown"%string); cbn [bind]; [|discriminate].
  destruct (metrics !! "sharpe"%string); cbn [bind]; [|discriminate].
  destruct (metrics !! "win_rate"%string); cbn [bind]; [|discriminate].
  destruct (metrics !! "profit_factor"%string); cbn [bind]; [|discriminate].
  destruct (metrics !! "num_trades"%string); cbn [bind]; [|discriminate].
  intros [= <-]. eexists. split; [reflexivity|]. now repeat split.
Qed.

Lemma backtests_after_insert (db : DB) (row : BacktestRow) (sid : string) :
  Forall (fun r => bt_strategy_id r = bt_strategy_id row
                   -> (run_at r < run_at row)%Z) (backtests db) ->
  let db' := {| strategies := strategies db; backtests := backtests db ++ [row] |} in
  get_backtests_for_strategy db' sid
  = if decide (bt_strategy_id row = sid)
    then row :: get_backtests_for_strategy db sid
    else get_backtests_for_strategy db sid.
Proof.
  intros Hold db'. unfold get_backtests_for_strategy, db'. cbn [backtests].
  rewrite List.filter_app. cbn [List.filter].
  destruct (decide (bt_strategy_id row = sid)) as [Heq|Hne].
  - rewrite bool_decide_eq_true_2 by exact Heq.
    apply sorted_by_snoc_first.
    apply Forall_forall. intros r Hr.
    apply list_elem_of_In, filter_In in Hr as [Hr Hb].
    apply bool_decide_eq_true in Hb.
    rewrite Forall_forall in Hold.
    specialize (Hold r (proj2 (list_elem_of_In _ _) Hr)).
    assert (run_at r < run_at row)%Z by (apply Hold; congruence). lia.
  - rewrite bool_decide_eq_false_2 by exact Hne. now rewrite app_nil_r.
Qed.

(** X15.  Recording a backtest at a time later than every stored backtest
    of the same strategy puts it in front of what the query for that
    strategy returned before, with the metrics that were passed in; the
    query for every other strategy and the table of strategies are
    unchanged. *)
Theorem record_backtest_is_latest (db db' : DB) (now : Z) (sid : string)
    (metrics : gmap string Q) :
  record_backtest db now sid metrics = Ok db' ->
  Forall (fun r => bt_strategy_id r = sid -> (run_at r < now)%Z) (backtests db) ->
  (exists row,
      get_backtests_for_strategy db' sid = row :: get_backtests_for_strategy db sid
      /\ run_at row = now
      /\ metrics !! "total_return"%string = Some (total_return row)
      /\ metrics !! "max_drawdown"%string = Some (max_drawdown row)
      /\ metrics !! "sharpe"%string = Some (sharpe row)
      /\ metrics !! "win_rate"%string = Some (win_rate row)
      /\ metrics !! "profit_factor"%string = Some (profit_factor row)
      /\ (py_int <$> metrics !! "num_trades"%string) = Some (num_trades row))
  /\ (forall sid', sid' <> sid ->
        get_backtests_for_strategy db' sid' = get_backtests_for_strategy db sid')
  /\ strategies db' = strategies db.
Proof.
  intros Hrec Hold.
  apply record_backtest_inv in Hrec
    as (row & -> & Hsid & Hnow & Htr & Hdd & Hsh & Hwr & Hpf & Hnt).
  assert (Forall (fun r => bt_strategy_id r = bt_strategy_id row
                           -> (run_at r < run_at row)%Z) (backtests db)) as Hold'
    by (rewrite Hsid, Hnow; exact Hold).
  split; [|split; [|reflexivity]].
  - exists row. rewrite (backtests_after_insert db row sid Hold').
    rewrite decide_True by exact Hsid. now repeat split.
  - intros sid' Hne. rewrite (backtests_after_insert db row sid' Hold').
    now rewrite decide_False by congruence.
Qed.

(** *** The gate as a whole *)

Lemma evaluate_single_total (thresholds : gmap string Q) (db : DB)
    (strat : StrategySummary) :
  (1 <= py_int (py_get thresholds "min_backtests" 1))%Z ->
  exists v, _evaluate_single thresholds db strat = Ok v /\ v ∈ gate_status.
Proof.
  intros Hmin. unfold _evaluate_single, gate_status.
  destruct (get_backtests_for_strategy db (s_id strat)) as [|latest older].
  - destruct (Z.ltb_spec (py_len (@nil BacktestRow))
                (py_int (py_get thresholds "min_backtests" 1))) as [_|Hge].
    + eexists. split; [reflexivity|]. set_solver.
    + unfold py_len in Hge. cbn in Hge. lia.
  - destruct (_ <? _)%Z; [eexists; split; [reflexivity|set_solver]|].
    destruct (_ <? _)%Z; [eexists; split; [reflexivity|set_solver]|].
    destruct (_ && _); [eexists; split; [reflexivity|set_solver]|].
    destruct (_ || _); eexists; (split; [reflexivity|set_solver]).
Qed.

Lemma evaluate_loop_total (thresholds : gmap string Q)
    (todo : list StrategySummary) :
  (1 <= py_int (py_get thresholds "min_backtests" 1))%Z ->
  forall db, returns (evaluate_loop thresholds todo db).
Proof.
  intros Hmin. induction todo as [|s todo IH]; intros db.
  - cbn. unfold returns. eauto.
  - cbn [evaluate_loop].
    destruct (evaluate_single_total thresholds db s Hmin) as (v & -> & _).
    cbn [bind]. apply IH.
Qed.

(** The loop writes statuses only: ids, pairs and timeframes stay. *)
Lemma evaluate_loop_rows (thresholds : gmap string Q)
    (todo : list StrategySummary) :
  forall db db1, evaluate_loop thresholds todo db = Ok db1 ->
  forall sid,
    match strategies db !! sid, strategies db1 !! sid with
    | Some row, Some row1 => pair row1 = pair row /\ timeframe row1 = timeframe row
    | None, None => True
    | _, _ => False
    end.
Proof.
  induction todo as [|s todo IH]; intros db db1 Hrun sid.
  - cbn in Hrun. inversion Hrun; subst. now destruct (strategies db1 !! sid).
  - cbn [evaluate_loop] in Hrun.
    destruct (_evaluate_single thresholds db s) as [v|]; [|discriminate].
    cbn [bind] in Hrun. specialize (IH _ _ Hrun sid).
    unfold set_strategy_status in IH. cbn [strategies] in IH.
    rewrite lookup_alter in IH.
    destruct (decide (s_id s = sid)) as [Heq|Hne]; [|exact IH].
    subst sid. destruct (strategies db !! s_id s) as [row|]; cbn in IH; exact IH.
Qed.

(** With a minimum of at least one backtest the gate returns. *)
Lemma evaluate_all_returns (thresholds : gmap string Q) (db : DB) :
  (1 <= py_int (py_get thresholds "min_backtests" 1))%Z ->
  exists db1,
    evaluate_all thresholds db = Ok db1
    /\ backtests db1 = backtests db
    /\ (forall sid,
          match strategies db !! sid, strategies db1 !! sid with
          | Some row, Some row1 =>
              pair row1 = pair row /\ timeframe row1 = timeframe row
              /\ status row1 ∈ gate_status
          | None, None => True
          | _, _ => False
          end).
Proof.
  intros Hmin. unfold evaluate_all.
  destruct (evaluate_loop_total thresholds (get_strategies_summary db) Hmin db)
    as (db1 & Hrun).
  exists db1. split; [exact Hrun|].
  pose proof (evaluate_loop_rows _ _ _ _ Hrun) as Hrows.
  apply evaluate_loop_sets in Hrun as (Hbt & Hset).
  split; [exact Hbt|]. intros sid. specialize (Hrows sid).
  destruct (strategies db !! sid) as [row|] eqn:Hrow,
           (strategies db1 !! sid) as [row1|] eqn:Hrow1; try exact Hrows.
  destruct Hrows as [Hp Htf]. repeat split; try assumption.
  destruct (Hset sid row1 Hrow1) as [(s & _ & _ & Hev)|[Hnot _]].
  - destruct (evaluate_single_total thresholds db s Hmin) as (v & Hv & Hin).
    congruence.
  - exfalso. apply Hnot. apply summary_ids. now rewrite Hrow.
Qed.

(** X16.  With a minimum number of backtests of at least 1 (the default)
    the gate never raises: [evaluate_all] returns on every database, keeps
    the backtests, the set of strategies and their pairs and timeframes,
    and leaves every strategy with one of the four statuses approved,
    rejected, experimental, insufficient_data. *)
Theorem evaluate_all_total (thresholds : gmap string Q) (db : DB) :
  (1 <= py_int (py_get thresholds "min_backtests" 1))%Z ->
  exists db1,
    evaluate_all thresholds db = Ok db1
    /\ backtests db1 = backtests db
    /\ (forall sid,
          match strategies db !! sid, strategies db1 !! sid with
          | Some row, Some row1 =>
              pair row1 = pair row /\ timeframe row1 = timeframe row
              /\ status row1 ∈ gate_status
          | None, None => True
          | _, _ => False
          end).
Proof. apply evaluate_all_returns. Qed.

(** X18.  The summary and the gate read the same history: for every
    strategy, the latest backtest shown in its summary is the one the gate
    judges, and the number of backtests in the summary is the number of
    rows the gate's query returns. *)
Theorem summary_agrees_with_gate_query (db : DB) (s : StrategySummary) :
  s ∈ get_strategies_summary db ->
  s_latest s = head (get_backtests_for_strategy db (s_id s))
  /\ s_num_backtests s = py_len (get_backtests_for_strategy db (s_id s)).
Proof.
  unfold get_strategies_summary. intros Hs.
  apply list_elem_of_fmap in Hs as ([sid row] & -> & _).
  cbn [summarise s_id s_latest s_num_backtests fst snd].
  unfold get_backtests_for_strategy. rewrite filter_sorted_by. now split.
Qed.

End LabStore.

Lemma record_backtest_is_latest_witness :
  exists db',
    Lab.record_backtest Lab.example_db 9 "breakout" Lab.only_winners = Ok db'
    /\ exists row,
         Lab.get_backtests_for_strategy db' "breakout" = [row; Lab.good_run]
         /\ Lab.run_at row = 9%Z.
Proof.
  eexists. split; [vm_compute; reflexivity|].
  destruct (record_backtest_is_latest Lab.example_db _ 9 "breakout"
              Lab.only_winners eq_refl) as ((row & Hq & Hnow & _) & _).
  - constructor; [|constructor]. intros _. vm_compute. reflexivity.
  - exists row. split; [exact Hq|exact Hnow].
Defined.

Lemma evaluate_all_total_witness :
  exists db1,
    Lab.evaluate_all ∅ Lab.example_db = Ok db1
    /\ Lab.backtests db1 = Lab.backtests Lab.example_db.
Proof.
  destruct (evaluate_all_total ∅ Lab.example_db) as (db1 & Hrun & Hbt & _).
  - vm_compute. discriminate.
  - exists db1. split; assumption.
Defined.

Lemma summary_agrees_with_gate_query_witness :
  Lab.s_latest (Lab.summarise (Lab.backtests Lab.example_db) "breakout"
                  (Lab.strategy "approved"))
  = head (Lab.get_backtests_for_strategy Lab.example_db "breakout").
Proof.
  refine (proj1 (summary_agrees_with_gate_query Lab.example_db
                   (Lab.summarise (Lab.backtests Lab.example_db) "breakout"
                      (Lab.strategy "approved")) _)).
  unfold Lab.get_strategies_summary.
  apply list_elem_of_fmap. exists ("breakout"%string, Lab.strategy "approved").
  split; [reflexivity|]. apply elem_of_map_to_list. reflexivity.
Defined.

(** ** The breakout strategy *)

Section BreakoutFacts.

Import Strategies.

Lemma fold_left_Qmax_ge (w : list Q) (x : Q) : x <= fold_left Qmax w x.
Proof.
  revert x. induction w as [|y w IH]; intros x; cbn [fold_left].
  - apply Qle_refl.
  - eapply Qle_trans; [apply (Q.le_max_l x y)|apply IH].
Qed.

(** The rolling maximum at a row is at least the row's own value. *)
Lemma rolling_max_current (n : nat) (x h : Q) (seen : list Q) :
  rolling_max n (x :: seen) = Some h -> x <= h.
Proof.
  unfold rolling_max, rolling_window.
  destruct ((1 <=? n)%nat && (n <=? length (x :: seen))%nat); [|discriminate].
  destruct n as [|n]; [discriminate|]. cbn [firstn].
  intros [= <-]. apply fold_left_Qmax_ge.
Qed.

Lemma prepare_from_candles (p : BTCBreakoutParams) (candles : list Candle) :
  forall highs lows trs prev_close,
  map candle (prepare_from p highs lows trs prev_close candles) = candles.
Proof.
  induction candles as [|c rest IH]; intros highs lows trs prev_close;
    [reflexivity|].
  cbn [prepare_from map candle]. now rewrite IH.
Qed.

Lemma prepare_from_hh (p : BTCBreakoutParams) (candles : list Candle) :
  forall highs lows trs prev_close,
  Forall (fun row => forall h, hh row = Some h -> c_high (candle row) <= h)
    (prepare_from p highs lows trs prev_close candles).
Proof.
  induction candles as [|c rest IH]; intros highs lows trs prev_close;
    cbn [prepare_from]; constructor; [|apply IH].
  cbn [hh candle]. intros h Hh. exact (rolling_max_current _ _ _ _ Hh).
Qed.

Lemma signal_loop_no_breakout (p : BTCBreakoutParams) (rows : list Row) :
  Forall (fun row => forall h, hh row = Some h -> c_close (candle row) <= h) rows ->
  signal_loop p false rows = [].
Proof.
  induction 1 as [|row rows Hrow _ IH]; [reflexivity|].
  cbn [signal_loop].
  destruct (hh row) as [h|]; [|exact IH].
  destruct (ll row) as [l|]; [|destruct (range_atr_ratio row); exact IH].
  specialize (Hrow h eq_refl). apply Qltb_ge in Hrow.
  destruct (range_atr_ratio row) as [q| | |]; try exact IH;
    destruct (np_ltb _ _); try exact IH; cbn [negb]; rewrite Hrow; exact IH.
Qed.

Lemma signal_loop_shape (p : BTCBreakoutParams) (rows : list Row) :
  forall in_long : bool,
  alternates (negb in_long) (signal_loop p in_long rows)
  /\ sublist
       (map (fun s => (Backtest.timestamp s, Backtest.price s))
          (signal_loop p in_long rows))
       (map (fun row => (c_time (candle row), c_close (candle row))) rows)
  /\ Forall (fun s =>
       match Backtest.signal_type s with
       | Backtest.ENTRY_LONG => Backtest.size_fraction s = risk_fraction p
       | Backtest.EXIT_LONG => Backtest.size_fraction s = 0
       | _ => False
       end) (signal_loop p in_long rows).
Proof.
  induction rows as [|row rows IH]; intros in_long.
  - cbn. repeat split; constructor.
  - assert (alternates (negb in_long) (signal_loop p in_long rows)
            /\ sublist
                 (map (fun s => (Backtest.timestamp s, Backtest.price s))
                    (signal_loop p in_long rows))
                 (map (fun row => (c_time (candle row), c_close (candle row)))
                    (row :: rows))
            /\ Forall (fun s =>
                 match Backtest.signal_type s with
                 | Backtest.ENTRY_LONG => Backtest.size_fraction s = risk_fraction p
                 | Backtest.EXIT_LONG => Backtest.size_fraction s = 0
                 | _ => False
                 end) (signal_loop p in_long rows)) as Hskip.
    { destruct (IH in_long) as (Ha & Hs & Hf).
      repeat split; [exact Ha| |exact Hf]. cbn [map]. now apply sublist_cons. }
    cbn [signal_loop].
    destruct (hh row) as [h|]; [|exact Hskip].
    destruct (ll row) as [l|]; [|destruct (range_atr_ratio row); exact Hskip].
    assert (forall ratio : npfloat,
      let rest_of :=
        if np_ltb ratio (Finite (atr_mult p)) then signal_loop p in_long rows
        else if negb in_long then
          if Qltb h (c_close (candle row))
          then entry_at p (candle row) :: signal_loop p true rows
          else signal_loop p in_long rows
        else
          if match mid row with
             | Some m => Qltb (c_close (candle row)) m
             | None => false
             end || Qltb (c_close (candle row)) l
          then exit_at (candle row) :: signal_loop p false rows
          else signal_loop p in_long rows in
      alternates (negb in_long) rest_of
      /\ sublist
           (map (fun s => (Backtest.timestamp s, Backtest.price s)) rest_of)
           (map (fun row => (c_time (candle row), c_close (candle row)))
              (row :: rows))
      /\ Forall (fun s =>
           match Backtest.signal_type s with
           | Backtest.ENTRY_LONG => Backtest.size_fraction s = risk_fraction p
           | Backtest.EXIT_LONG => Backtest.size_fraction s = 0
           | _ => False
           end) rest_of) as Hact.
    { intros ratio. cbv zeta.
      destruct (np_ltb ratio (Finite (atr_mult p))); [exact Hskip|].
      destruct in_long; cbn [negb].
      - destruct (_ || _); [|exact Hskip].
        destruct (IH false) as (Ha & Hs & Hf).
        repeat split; [exact Ha| |constructor; [reflexivity|exact Hf]].
        cbn [map]. now apply sublist_skip.
      - destruct (Qltb h (c_close (candle row))); [|exact Hskip].
        destruct (IH true) as (Ha & Hs & Hf).
        repeat split; [exact Ha| |constructor; [reflexivity|exact Hf]].
        cbn [map]. now apply sublist_skip. }
    destruct (range_atr_ratio row) as [q| | |] eqn:Hr.
    + exact (Hact (Finite q)).
    + exact (Hact PosInf).
    + exact (Hact NegInf).
    + exact Hskip.
Qed.

(** X19.  Whatever the candles and the parameters, the signals of the
    breakout strategy take turns, entry first: ENTRY_LONG, EXIT_LONG,
    ENTRY_LONG, ...; every signal carries the timestamp and the close of
    one of the candles, in the order of the candles; an entry asks for
    the configured risk fraction and an exit for zero. *)
Theorem breakout_signals_alternate (p : BTCBreakoutParams)
    (candles : list Candle) :
  let signals := generate_signals p candles in
  alternates true signals
  /\ sublist
       (map (fun s => (Backtest.timestamp s, Backtest.price s)) signals)
       (map (fun c => (c_time c, c_close c)) candles)
  /\ Forall (fun s =>
       match Backtest.signal_type s with
       | Backtest.ENTRY_LONG => Backtest.size_fraction s = risk_fraction p
       | Backtest.EXIT_LONG => Backtest.size_fraction s = 0
       | _ => False
       end) signals.
Proof.
  cbv zeta. unfold generate_signals.
  destruct (signal_loop_shape p (prepare p candles) false) as (Ha & Hs & Hf).
  repeat split; [exact Ha| |exact Hf].
  unfold prepare in *.
  rewrite <- (prepare_from_candles p candles [] [] [] None) at 2.
  now rewrite map_map.
Qed.

Lemma breakout_silent (p : BTCBreakoutParams) (candles : list Candle) :
  Forall well_formed candles -> generate_signals p candles = [].
Proof.
  intros Hwf. unfold generate_signals, prepare.
  apply signal_loop_no_breakout.
  pose proof (prepare_from_hh p candles [] [] [] None) as Hhh.
  pose proof (prepare_from_candles p candles [] [] [] None) as Hc.
  rewrite <- Hc in Hwf.
  rewrite Forall_forall in Hwf. rewrite Forall_forall in Hhh.
  apply Forall_forall. intros row Hrow h Hh.
  eapply Qle_trans; [|exact (Hhh row Hrow h Hh)].
  apply (Hwf (candle row)). apply list_elem_of_fmap. now exists row.
Qed.

(** X20.  The breakout strategy cannot enter on well-formed candles: its
    entry test compares the close with the rolling maximum of the highs,
    and that window includes the current candle, so when no candle closes
    above its own high the strategy generates no signal at all, for every
    choice of parameters. *)
Theorem breakout_needs_close_above_high (p : BTCBreakoutParams)
    (candles : list Candle) :
  Forall well_formed candles -> generate_signals p candles = [].
Proof. apply breakout_silent. Qed.

End BreakoutFacts.

Lemma breakout_needs_close_above_high_witness :
  Strategies.generate_signals Strategies.short_params Strategies.calm_frame = [].
Proof.
  apply (breakout_needs_close_above_high Strategies.short_params
           Strategies.calm_frame).
  repeat constructor; vm_compute; discriminate.
Defined.

(** ** The strategy executor *)

Lemma PyDict_set_keys {V : Type} (k : string) (v : V) (d : PyDict.t V) :
  PyDict.keys (PyDict.set k v d)
  = if decide (k ∈ PyDict.keys d) then PyDict.keys d else PyDict.keys d ++ [k].
Proof.
  unfold PyDict.keys. induction d as [|[k' v'] d IH]; [reflexivity|].
  cbn [PyDict.set map fst].
  destruct (decide (k = k')) as [->|Hne].
  - cbn [map fst]. rewrite decide_True by apply list_elem_of_here. reflexivity.
  - cbn [map fst]. rewrite IH.
    destruct (decide (k ∈ map fst d)) as [Hin|Hnin].
    + rewrite decide_True by now apply list_elem_of_further. reflexivity.
    + rewrite decide_False; [reflexivity|].
      intros Hin. apply elem_of_cons in Hin as [?|?]; contradiction.
Qed.

Lemma PyDict_set_NoDup {V : Type} (k : string) (v : V) (d : PyDict.t V) :
  NoDup (PyDict.keys d) -> NoDup (PyDict.keys (PyDict.set k v d)).
Proof.
  intros Hnd. rewrite PyDict_set_keys.
  destruct (decide (k ∈ PyDict.keys d)) as [Hin|Hnin]; [exact Hnd|].
  apply NoDup_app. split; [exact Hnd|]. split.
  - intros x Hx Hx'. apply list_elem_of_singleton in Hx'. now subst x.
  - apply NoDup_singleton.
Qed.

Lemma PyDict_get_set {V : Type} (k k' : string) (v : V) (d : PyDict.t V) :
  PyDict.get k' (PyDict.set k v d)
  = if decide (k' = k) then Some v else PyDict.get k' d.
Proof.
  induction d as [|[k0 v0] d IH].
  - cbn. now destruct (decide (k' = k)).
  - cbn [PyDict.set PyDict.get].
    destruct (decide (k = k0)) as [->|Hne]; cbn [PyDict.get].
    + now destruct (decide (k' = k0)).
    + rewrite IH. destruct (decide (k' = k0)) as [->|Hne'];
        [now rewrite decide_False by congruence|reflexivity].
Qed.

Lemma PyDict_of_items_spec {V : Type} (items : list (string * V)) :
  forall acc : PyDict.t V,
  NoDup (PyDict.keys acc) ->
  let d := fold_left (fun d kv => PyDict.set (fst kv) (snd kv) d) items acc in
  NoDup (PyDict.keys d)
  /\ forall k v, PyDict.get k d = Some v ->
       (k, v) ∈ items \/ PyDict.get k acc = Some v.
Proof.
  induction items as [|[k0 v0] items IH]; intros acc Hnd; cbn [fold_left].
  - split; [exact Hnd|]. intros k v Hk. now right.
  - destruct (IH (PyDict.set k0 v0 acc) (PyDict_set_NoDup k0 v0 acc Hnd))
      as [Hnd' Hget].
    split; [exact Hnd'|]. intros k v Hk.
    destruct (Hget k v Hk) as [Hin|Hacc].
    + left. now apply list_elem_of_further.
    + cbn [fst snd] in Hacc. rewrite PyDict_get_set in Hacc.
      destruct (decide (k = k0)) as [->|Hne]; [|now right].
      inversion Hacc; subst. left. apply list_elem_of_here.
Qed.

Section ExecutorFacts.

Import Strategies Executor.

Lemma instantiate_sublist (registry : Registry) (sym tf : string)
    (ids : list string) :
  sublist (map strat_id (_instantiate_strategies_for_context registry sym tf ids))
    ids
  /\ Forall (fun s => registry !! strat_id s = Some (signals_of s))
       (_instantiate_strategies_for_context registry sym tf ids).
Proof.
  induction ids as [|sid ids [IHs IHf]]; [split; constructor|].
  cbn [_instantiate_strategies_for_context]. unfold create_strategy.
  destruct (registry !! sid) as [cls|] eqn:Hreg.
  - split.
    + cbn [map strat_id]. now apply sublist_skip.
    + constructor; [|exact IHf]. cbn [strat_id signals_of]. exact Hreg.
  - split; [now apply sublist_cons|exact IHf].
Qed.

Lemma propose_sound (sym : string) (weight_map : PyDict.t Q)
    (df : list Candle) (strat : Strategy) (t : ProposedTrade) :
  propose sym weight_map df strat = Some t ->
  symbol t = sym /\ strategy_id t = strat_id strat
  /\ (side t = "buy" \/ side t = "sell")%string
  /\ PyDict.get (strat_id strat) weight_map = Some (meta_weight t)
  /\ 0 < meta_weight t
  /\ (side t = "sell"%string -> 0 < position_frac t)
  /\ exists signals last_sig,
       signals_of strat df = Ok signals /\ last signals = Some last_sig
       /\ (side t = "buy"%string ->
           Backtest.signal_type last_sig = Backtest.ENTRY_LONG
           /\ position_frac t = Backtest.size_fraction last_sig * meta_weight t)
       /\ (side t = "sell"%string ->
           Backtest.signal_type last_sig = Backtest.EXIT_LONG).
Proof.
  unfold propose.
  destruct (PyDict.get (strat_id strat) weight_map) as [w|] eqn:Hw;
    cbn [from_option id].
  2:{ replace (Qle_bool 0 0) with true by reflexivity. discriminate. }
  destruct (Qle_bool w 0) eqn:Hpos; [discriminate|].
  apply Qle_bool_gt in Hpos.
  destruct (signals_of strat df) as [signals|] eqn:Hsig; [|discriminate].
  destruct (last signals) as [last_sig|] eqn:Hlast; [|discriminate].
  destruct (Backtest.signal_type last_sig) eqn:Hty; try discriminate;
    intros [= <-]; cbn [symbol strategy_id side meta_weight position_frac].
  - repeat split; try reflexivity; try assumption.
    + now left.
    + discriminate.
    + exists signals, last_sig. split; [reflexivity|]. split; [exact Hlast|].
      split; [intros _; split; [exact Hty|reflexivity]|discriminate].
  - repeat split; try reflexivity; try assumption.
    + now right.
    + intros _. destruct (Qltb 0 (Backtest.size_fraction last_sig)) eqn:Hs;
        [|exact Hpos].
      apply Qltb_lt in Hs. apply Qmult_lt_0_compat; assumption.
    + exists signals, last_sig. split; [reflexivity|]. split; [exact Hlast|].
      split; [discriminate|intros _; exact Hty].
Qed.

Lemma trade_loop_sound (sym : string) (weight_map : PyDict.t Q)
    (df : list Candle) (strategies : list Strategy) :
  sublist (map strategy_id (trade_loop sym weight_map df strategies))
    (map strat_id strategies)
  /\ Forall (fun t => exists strat, strat ∈ strategies
                        /\ propose sym weight_map df strat = Some t)
       (trade_loop sym weight_map df strategies).
Proof.
  induction strategies as [|strat rest [IHs IHf]]; [split; constructor|].
  assert (Forall (fun t => exists strat0, strat0 ∈ strat :: rest
                      /\ propose sym weight_map df strat0 = Some t)
            (trade_loop sym weight_map df rest)) as IHf'.
  { eapply Forall_impl; [exact IHf|]. intros t (s & Hs & Hp).
    exists s. split; [now apply list_elem_of_further|exact Hp]. }
  cbn [trade_loop].
  destruct (propose sym weight_map df strat) as [t|] eqn:Hp.
  - split.
    + cbn [map]. destruct (propose_sound _ _ _ _ _ Hp) as (_ & -> & _).
      now apply sublist_skip.
    + constructor; [|exact IHf'].
      exists strat. split; [apply list_elem_of_here|exact Hp].
  - split; [cbn [map]; now apply sublist_cons|exact IHf'].
Qed.

Lemma generate_trades_sound (registry : Registry) (sym tf : string)
    (candles : list Candle) (allocations : list Portfolio.StrategyAllocation) :
  let trades := generate_trades_for_context registry sym tf candles allocations in
  NoDup (map strategy_id trades)
  /\ Forall (fun t =>
       symbol t = sym
       /\ (side t = "buy" \/ side t = "sell")%string
       /\ 0 < meta_weight t
       /\ (exists a, a ∈ allocations
                     /\ Portfolio.strategy_id a = strategy_id t
                     /\ Portfolio.weight a = meta_weight t)
       /\ (side t = "sell"%string -> 0 < position_frac t)
       /\ exists generate_signals signals last_sig,
            registry !! strategy_id t = Some generate_signals
            /\ generate_signals (sorted_by c_time candles) = Ok signals
            /\ last signals = Some last_sig
            /\ (side t = "buy"%string ->
                Backtest.signal_type last_sig = Backtest.ENTRY_LONG
                /\ position_frac t
                   = Backtest.size_fraction last_sig * meta_weight t)
            /\ (side t = "sell"%string ->
                Backtest.signal_type last_sig = Backtest.EXIT_LONG)) trades.
Proof.
  cbv zeta. unfold generate_trades_for_context.
  destruct allocations as [|a0 allocations0] eqn:Hallocs;
    [split; constructor|].
  rewrite <- Hallocs. clear Hallocs a0 allocations0.
  set (items := map (fun a => (Portfolio.strategy_id a, Portfolio.weight a))
                  allocations).
  destruct (PyDict_of_items_spec items [] (NoDup_nil_2)) as [Hnd Hget].
  cbv zeta in Hnd, Hget. fold (PyDict.of_items items) in Hnd, Hget.
  set (weight_map := PyDict.of_items items) in *.
  destruct (instantiate_sublist registry sym tf (PyDict.keys weight_map))
    as [Hsub Hreg].
  set (strategies := _instantiate_strategies_for_context registry sym tf
                       (PyDict.keys weight_map)) in *.
  destruct strategies as [|s0 strategies0] eqn:Hstr; [split; constructor|].
  rewrite <- Hstr in *. clear Hstr s0 strategies0.
  destruct (trade_loop_sound sym weight_map
              (sorted_by c_time candles) strategies) as [Hsub' Hall].
  split.
  - apply (sublist_NoDup _ (PyDict.keys weight_map)); [exact Hnd|].
    transitivity (map strat_id strategies); [exact Hsub'|exact Hsub].
  - eapply Forall_impl; [exact Hall|].
    intros t (strat & Hin & Hp).
    destruct (propose_sound _ _ _ _ _ Hp)
      as (Hsym & Hid & Hside & Hw & Hpos & Hsell & Hsig).
    rewrite Forall_forall in Hreg.
    split; [exact Hsym|]. split; [exact Hside|]. split; [exact Hpos|].
    split; [|split; [exact Hsell|]].
    + destruct (Hget _ _ Hw) as [Hitem|Hnil]; [|discriminate].
      unfold items in Hitem. apply list_elem_of_fmap in Hitem as (a & Heq & Ha).
      inversion Heq. exists a. split; [exact Ha|]. split; congruence.
    + destruct Hsig as (signals & last_sig & Hs & Hl & Hbuy & Hsl).
      exists (signals_of strat), signals, last_sig.
      split; [rewrite Hid; now apply Hreg|].
      split; [exact Hs|]. split; [exact Hl|]. split; assumption.
Qed.

(** X21.  For every registry, frame and list of allocations, the executor
    proposes at most one trade per strategy id; every proposed trade is for
    the context's symbol, is a buy or a sell, and comes from a strategy
    that holds a positive weight in one of the allocations, is registered,
    and returned a non-empty list of signals on the sorted frame: a buy
    when the last signal is ENTRY_LONG, of that signal's fraction times the
    weight, a sell when it is EXIT_LONG, and a sell always has a positive
    fraction.  So strategies that are unknown, that raise, or that give no
    signal propose nothing. *)
Theorem proposed_trades_are_sound (registry : Registry) (sym tf : string)
    (candles : list Candle) (allocations : list Portfolio.StrategyAllocation) :
  let trades := generate_trades_for_context registry sym tf candles allocations in
  NoDup (map strategy_id trades)
  /\ Forall (fun t =>
       symbol t = sym
       /\ (side t = "buy" \/ side t = "sell")%string
       /\ 0 < meta_weight t
       /\ (exists a, a ∈ allocations
                     /\ Portfolio.strategy_id a = strategy_id t
                     /\ Portfolio.weight a = meta_weight t)
       /\ (side t = "sell"%string -> 0 < position_frac t)
       /\ exists generate_signals signals last_sig,
            registry !! strategy_id t = Some generate_signals
            /\ generate_signals (sorted_by c_time candles) = Ok signals
            /\ last signals = Some last_sig
            /\ (side t = "buy"%string ->
                Backtest.signal_type last_sig = Backtest.ENTRY_LONG
                /\ position_frac t
                   = Backtest.size_fraction last_sig * meta_weight t)
            /\ (side t = "sell"%string ->
                Backtest.signal_type last_sig = Backtest.EXIT_LONG)) trades.
Proof. apply generate_trades_sound. Qed.

(** The stub registry: the strategy that raises and the unknown one
    propose nothing, the third proposes a sell. *)
Example stub_strategies_propose :
  map (fun t => (strategy_id t, side t))
    (generate_trades_for_context stub_registry "BTC/USDT" "15m" calm_frame
       stub_allocations)
  = [("exits", "sell")]%string.
Proof. vm_compute. reflexivity. Qed.

(** No signals, no trades. *)
Lemma trade_loop_silent (sym : string) (weight_map : PyDict.t Q)
    (df : list Candle) (strategies : list Strategy) :
  Forall (fun s => signals_of s df = Ok []) strategies ->
  trade_loop sym weight_map df strategies = [].
Proof.
  induction 1 as [|s rest Hs _ IH]; [reflexivity|].
  cbn [trade_loop]. unfold propose. rewrite Hs. cbn [last].
  now destruct (Qle_bool _ 0).
Qed.

Lemma sorted_by_Forall {A : Type} (P : A -> Prop) (key : A -> Z) (l : list A) :
  Forall P l -> Forall P (sorted_by key l).
Proof. intros H. now rewrite sorted_by_Permutation. Qed.

Lemma breakout_executor_silent (sym tf : string) (candles : list Candle)
    (allocations : list Portfolio.StrategyAllocation) :
  Forall well_formed candles ->
  generate_trades_for_context STRATEGY_REGISTRY sym tf candles allocations = [].
Proof.
  intros Hwf. unfold generate_trades_for_context.
  destruct allocations as [|a allocations]; [reflexivity|].
  match goal with
  | |- context [_instantiate_strategies_for_context ?r ?s ?t ?ids] =>
      pose proof (instantiate_sublist r s t ids) as [_ Hreg];
      destruct (_instantiate_strategies_for_context r s t ids)
        as [|s0 rest] eqn:Hinst; [reflexivity|]
  end.
  assert (forall ids,
    Forall (fun s => signals_of s (sorted_by c_time candles) = Ok [])
      (_instantiate_strategies_for_context STRATEGY_REGISTRY sym tf ids)) as Hall.
  { induction ids as [|sid ids IH]; [constructor|].
    cbn [_instantiate_strategies_for_context]. unfold create_strategy.
    destruct (STRATEGY_REGISTRY !! sid) as [cls|] eqn:Hcls; [|exact IH].
    constructor; [|exact IH]. cbn [signals_of].
    unfold STRATEGY_REGISTRY in Hcls.
    apply lookup_singleton_Some in Hcls as [_ <-].
    f_equal. apply breakout_silent. now apply sorted_by_Forall. }
  rewrite <- Hinst. apply trade_loop_silent. apply Hall.
Qed.

End ExecutorFacts.

(** ** From a backtest to the gate *)

Lemma py_int_inject_Z (n : Z) : py_int (inject_Z n) = n.
Proof. unfold py_int, inject_Z. cbn [Qnum Qden]. apply Z.quot_1_r. Qed.

Section BacktestToGate.

Import Strategies RunBacktest Lab.

Lemma compute_metrics_winners (equity rets : list Q) (m : Backtest.BacktestMetrics) :
  Backtest.compute_metrics equity rets = Ok m ->
  Forall (fun r => 0 < r) rets ->
  Backtest.profit_factor m = 0 /\ Backtest.num_trades m = py_len rets.
Proof.
  intros Hm Hwin. unfold Backtest.compute_metrics in Hm.
  destruct equity as [|first rest]; [discriminate|].
  inversion Hm; subst m; clear Hm.
  cbn [Backtest.profit_factor Backtest.num_trades]. split; [|reflexivity].
  assert (List.filter (fun r => Qle_bool r 0) rets = []) as ->; [|reflexivity].
  induction Hwin as [|r rets Hr _ IH]; [reflexivity|].
  cbn [List.filter]. now rewrite (proj2 (Qle_bool_gt r 0) Hr).
Qed.

Lemma record_backtest_returns (db : DB) (now : Z) (sid : string)
    (m : Backtest.BacktestMetrics) (sharpe : npfloat) (metrics : gmap string Q) :
  metrics_dict m sharpe = Some metrics ->
  exists row,
    record_backtest db now sid metrics
    = Ok {| strategies := strategies db; backtests := backtests db ++ [row] |}
    /\ bt_strategy_id row = sid /\ run_at row = now
    /\ profit_factor row = Backtest.profit_factor m
    /\ num_trades row = Backtest.num_trades m.
Proof.
  unfold metrics_dict.
  destruct (Backtest.total_return m) as [tr| | |]; try discriminate.
  destruct (Backtest.max_drawdown m) as [dd| | |]; try discriminate.
  destruct sharpe as [sh| | |]; try discriminate.
  intros [= <-]. eexists. split; [reflexivity|].
  cbn [bt_strategy_id run_at profit_factor num_trades].
  repeat split. apply py_int_inject_Z.
Qed.

(** The verdict on a strategy whose latest backtest is [row]. *)
Lemma gate_on_latest (thresholds : gmap string Q) (db : DB) (row : BacktestRow)
    (strat : StrategySummary) :
  Forall (fun r => bt_strategy_id r = bt_strategy_id row
                   -> (run_at r < run_at row)%Z) (backtests db) ->
  s_id strat = bt_strategy_id row ->
  let db' := {| strategies := strategies db; backtests := backtests db ++ [row] |} in
  get_backtests_for_strategy db' (s_id strat)
  = row :: get_backtests_for_strategy db (s_id strat).
Proof.
  intros Hold Hid db'. unfold db'.
  rewrite (backtests_after_insert db row (s_id strat) Hold).
  now rewrite decide_True by congruence.
Qed.

(** X17.  A backtest in which every trade won is rejected: its profit
    factor is computed as zero, because there is no loss to divide by, so
    once it is recorded as the latest backtest of its strategy, with at
    least the required number of backtests and of trades, the gate with any
    positive minimum profit factor returns [rejected], whatever the return,
    the drawdown and the Sharpe ratio are. *)
Theorem winners_only_rejected (thresholds : gmap string Q) (db db' : DB)
    (now : Z) (sid : string) (equity rets : list Q)
    (m : Backtest.BacktestMetrics) (sharpe : npfloat) (metrics : gmap string Q)
    (strat : StrategySummary) :
  Backtest.compute_metrics equity rets = Ok m ->
  Forall (fun r => 0 < r) rets ->
  metrics_dict m sharpe = Some metrics ->
  record_backtest db now sid metrics = Ok db' ->
  Forall (fun r => bt_strategy_id r = sid -> (run_at r < now)%Z) (backtests db) ->
  s_id strat = sid ->
  (py_int (py_get thresholds "min_backtests" 1)
   <= 1 + py_len (get_backtests_for_strategy db sid))%Z ->
  (py_int (py_get thresholds "min_trades" 30) <= py_len rets)%Z ->
  0 < py_get thresholds "min_profit_factor" 1.3 ->
  _evaluate_single thresholds db' strat = Ok "rejected"%string.
Proof.
  intros Hm Hwin Hdict Hrec Hold Hid Hbt Htrades Hpf.
  destruct (compute_metrics_winners equity rets m Hm Hwin) as [Hpf0 Hnum].
  destruct (record_backtest_returns db now sid m sharpe metrics Hdict)
    as (row & Hrec' & Hsid & Hnow & Hrow_pf & Hrow_n).
  rewrite Hrec' in Hrec. inversion Hrec; subst db'; clear Hrec.
  assert (Forall (fun r => bt_strategy_id r = bt_strategy_id row
                           -> (run_at r < run_at row)%Z) (backtests db)) as Hold'
    by (rewrite Hsid, Hnow; exact Hold).
  pose proof (gate_on_latest thresholds db row strat Hold' ltac:(congruence))
    as Hrows. cbv zeta in Hrows.
  destruct (lab_gate_rule_order thresholds _ strat row _ Hrows)
    as (_ & _ & _ & Hrej & _).
  apply Hrej.
  - split.
    + unfold py_len in *. cbn [length]. rewrite Hid. lia.
    + rewrite Hrow_n, Hnum. exact Htrades.
  - intros (_ & _ & _ & Hgood). rewrite Hrow_pf, Hpf0 in Hgood. lra.
  - right. rewrite Hrow_pf, Hpf0. reflexivity.
Qed.

(** *** The registered strategy, from its backtest to the selection *)

Lemma sorted_candles_well_formed (candles : list Candle) :
  Forall well_formed candles -> Forall well_formed (sorted_by c_time candles).
Proof. intros H. now rewrite sorted_by_Permutation. Qed.

Lemma breakout_run (ic : Q) (pair tf : string) (candles : list Candle) :
  candles <> [] -> NoDup (map c_time candles) -> Forall well_formed candles ->
  ~ ic == 0 ->
  exists strat r q,
    create_strategy STRATEGY_REGISTRY "btc_breakout_v1" pair tf = Some strat
    /\ strat_id strat = "btc_breakout_v1"%string
    /\ engine_run ic strat candles = Ok r
    /\ Backtest.equity_curve r
       = map (fun c => (c_time c, ic)) (sorted_by c_time candles)
    /\ Backtest.num_trades (Backtest.metrics r) = 0%Z
    /\ Backtest.win_rate (Backtest.metrics r) = 0
    /\ Backtest.profit_factor (Backtest.metrics r) = 0
    /\ Backtest.total_return (Backtest.metrics r) = Finite q
    /\ Backtest.max_drawdown (Backtest.metrics r) = Finite q
    /\ q == 0.
Proof.
  intros Hne Hnd Hwf Hic.
  assert (create_strategy STRATEGY_REGISTRY "btc_breakout_v1" pair tf
          = Some {| strat_id := "btc_breakout_v1"; strat_pair := pair;
                    strat_timeframe := tf;
                    signals_of := fun df => Ok (generate_signals default_params df) |})
    as Hcreate.
  { unfold create_strategy.
    assert (STRATEGY_REGISTRY !! "btc_breakout_v1"%string
            = Some (fun df => Ok (generate_signals default_params df))) as ->
      by apply lookup_singleton_eq.
    reflexivity. }
  destruct (run_idle ic []
              (map (fun c => (c_time c, c_close c)) candles))
    as (r & Hr & _ & Hcurve & Hn & Hw & Hpf & Hfin).
  { destruct candles; [congruence|discriminate]. }
  { now rewrite map_map. }
  { constructor. }
  destruct (Hfin Hic) as (q & Htot & Hdd & Hq).
  eexists. exists r, q. split; [exact Hcreate|]. split; [reflexivity|].
  split; [|split; [|now repeat split]].
  2:{ rewrite Hcurve, (sorted_by_map (fun c => (c_time c, c_close c)) fst).
      now rewrite map_map. }
  unfold engine_run. cbn [signals_of].
  rewrite (breakout_silent default_params (sorted_by c_time candles))
    by now apply sorted_candles_well_formed.
  cbn [bind]. exact Hr.
Qed.

(** X22.  The one registered strategy, end to end on well-formed candles
    (non-empty, distinct timestamps, no close above its high), with a
    non-zero capital and a finite Sharpe ratio of the level equity curve:
    [main] records a backtest without a single trade;
    the gate, with minimums of at least one backtest and one trade, then
    returns on the whole database and writes [insufficient_data] for the
    strategy; and the selection therefore still offers the strategy for
    its pair and timeframe. *)
Theorem breakout_backtest_never_validates (sharpe_of : list (Z * Q) -> npfloat)
    (db : DB) (now : Z) (pair tf : string) (ic : Q) (candles : list Candle)
    (thresholds : gmap string Q) (sharpe : Q) :
  candles <> [] -> NoDup (map c_time candles) -> Forall well_formed candles ->
  ~ ic == 0 ->
  sharpe_of (map (fun c => (c_time c, ic)) (sorted_by c_time candles))
  = Finite sharpe ->
  Forall (fun r => bt_strategy_id r = "btc_breakout_v1"%string
                   -> (run_at r < now)%Z) (backtests db) ->
  (1 <= py_int (py_get thresholds "min_backtests" 1))%Z ->
  (1 <= py_int (py_get thresholds "min_trades" 30))%Z ->
  exists db1 db2 latest,
    main STRATEGY_REGISTRY sharpe_of db now "btc_breakout_v1" pair tf ic candles
    = Recorded db1
    /\ head (get_backtests_for_strategy db1 "btc_breakout_v1") = Some latest
    /\ num_trades latest = 0%Z
    /\ evaluate_all thresholds db1 = Ok db2
    /\ (status <$> strategies db2 !! "btc_breakout_v1"%string)
       = Some "insufficient_data"%string
    /\ "btc_breakout_v1"%string ∈ get_approved_strategies_for_pair db2 pair tf.
Proof.
  intros Hne Hnd Hwf Hic Hsharpe Hold Hmin_bt Hmin_tr.
  destruct (breakout_run ic pair tf candles Hne Hnd Hwf Hic)
    as (strat & r & q & Hcreate & Hsid & Hrun & Hcurve & Hn & _ & _ & Htot
        & Hdd & _).
  set (sid := "btc_breakout_v1"%string) in *.
  set (db0 := upsert_strategy db sid pair tf).
  assert (exists metrics,
             metrics_dict (Backtest.metrics r)
               (sharpe_of (Backtest.equity_curve r)) = Some metrics)
    as (metrics & Hdict).
  { unfold metrics_dict. rewrite Htot, Hdd, Hcurve, Hsharpe. eauto. }
  destruct (record_backtest_returns db0 now sid _ _ _ Hdict)
    as (row & Hrec & Hrow_sid & Hrow_now & _ & Hrow_n).
  set (db1 := {| strategies := strategies db0; backtests := backtests db0 ++ [row] |})
    in *.
  assert (main STRATEGY_REGISTRY sharpe_of db now sid pair tf ic candles
          = Recorded db1) as Hmain.
  { unfold main. rewrite Hcreate, Hsid. fold db0. rewrite Hrun, Hdict, Hrec.
    reflexivity. }
  assert (Forall (fun r0 => bt_strategy_id r0 = bt_strategy_id row
                            -> (run_at r0 < run_at row)%Z) (backtests db0))
    as Hold' by (rewrite Hrow_sid, Hrow_now; exact Hold).
  assert (forall s, s_id s = sid ->
            _evaluate_single thresholds db1 s = Ok "insufficient_data"%string)
    as Hverdict.
  { intros s Hs.
    pose proof (gate_on_latest thresholds db0 row s Hold' ltac:(congruence))
      as Hrows. cbv zeta in Hrows. fold db1 in Hrows.
    destruct (lab_gate_rule_order thresholds db1 s row _ Hrows)
      as (Hfew & Hthin & _).
    destruct (Z_lt_le_dec
                (py_len (row :: get_backtests_for_strategy db0 (s_id s)))
                (py_int (py_get thresholds "min_backtests" 1))) as [Hlt|Hge].
    - now apply Hfew.
    - apply Hthin; [exact Hge|]. rewrite Hrow_n, Hn. lia. }
  destruct (evaluate_all_returns thresholds db1 Hmin_bt) as (db2 & Heval & _ & Hrows2).
  assert (strategies db1 !! sid
          = Some {| pair := pair; timeframe := tf;
                    status := match strategies db !! sid with
                              | Some row0 => status row0
                              | None => "experimental"%string
                              end |}) as Hrow1
    by (unfold db1, db0, upsert_strategy; cbn [strategies];
        apply lookup_insert_eq).
  specialize (Hrows2 sid). rewrite Hrow1 in Hrows2.
  destruct (strategies db2 !! sid) as [row2|] eqn:Hrow2; [|contradiction].
  destruct Hrows2 as (Hp & Htf & _). cbn [Lab.pair timeframe] in Hp, Htf.
  assert (status row2 = "insufficient_data"%string) as Hstatus.
  { pose proof Heval as Hsets. unfold evaluate_all in Hsets.
    apply evaluate_loop_sets in Hsets as (_ & Hsets).
    destruct (Hsets sid row2 Hrow2) as [(s & _ & Hs & Hev)|[Hnot _]].
    - rewrite (Hverdict s Hs) in Hev. congruence.
    - exfalso. apply Hnot. apply summary_ids. rewrite Hrow1. eauto. }
  exists db1, db2, row. split; [exact Hmain|].
  split.
  { pose proof (gate_on_latest thresholds db0 row
                  {| s_id := sid; s_pair := pair; s_timeframe := tf;
                     s_status := ""; s_latest := None; s_num_backtests := 0 |}
                  Hold' ltac:(cbn; congruence)) as Hrows.
    cbv zeta in Hrows. cbn [s_id] in Hrows. fold db1 in Hrows.
    now rewrite Hrows. }
  split; [now rewrite Hrow_n|]. split; [exact Heval|].
  split; [rewrite Hrow2; cbn; now rewrite Hstatus|].
  apply selected_iff. exists row2. repeat split; try assumption.
  rewrite Hstatus. apply allowed_status_iff. now right; right.
Qed.

End BacktestToGate.

Lemma winners_only_rejected_witness :
  exists m metrics db',
    Backtest.compute_metrics [100; 150] (repeat 0.01 40) = Ok m
    /\ RunBacktest.metrics_dict m (Finite 3) = Some metrics
    /\ Lab.record_backtest Lab.example_db 9 "carry" metrics = Ok db'
    /\ Lab._evaluate_single ∅ db' Lab.never_run = Ok "rejected"%string.
Proof.
  do 3 eexists.
  split; [vm_compute; reflexivity|].
  split; [vm_compute; reflexivity|].
  split; [vm_compute; reflexivity|].
  eapply (winners_only_rejected ∅ Lab.example_db _ 9 "carry"
            [100; 150] (repeat 0.01 40) _ (Finite 3) _ Lab.never_run).
  - vm_compute. reflexivity.
  - repeat constructor.
  - vm_compute. reflexivity.
  - vm_compute. reflexivity.
  - repeat constructor; intros H; vm_compute in H; discriminate.
  - reflexivity.
  - vm_compute. discriminate.
  - vm_compute. discriminate.
  - vm_compute. reflexivity.
Defined.

Lemma breakout_backtest_never_validates_witness :
  exists db1 db2 latest,
    RunBacktest.main Strategies.STRATEGY_REGISTRY (fun _ => Finite 0)
      Lab.example_db 9
      "btc_breakout_v1" "BTC/USDT" "15m" 1000 Strategies.calm_frame
    = RunBacktest.Recorded db1
    /\ head (Lab.get_backtests_for_strategy db1 "btc_breakout_v1") = Some latest
    /\ Lab.num_trades latest = 0%Z
    /\ Lab.evaluate_all ∅ db1 = Ok db2
    /\ (Lab.status <$> Lab.strategies db2 !! "btc_breakout_v1"%string)
       = Some "insufficient_data"%string
    /\ "btc_breakout_v1"%string
       ∈ Lab.get_approved_strategies_for_pair db2 "BTC/USDT" "15m".
Proof.
  apply (breakout_backtest_never_validates (fun _ => Finite 0) Lab.example_db 9
           "BTC/USDT" "15m" 1000 Strategies.calm_frame ∅ 0).
  - discriminate.
  - apply (bool_decide_unpack _). vm_compute. exact I.
  - repeat constructor; vm_compute; discriminate.
  - vm_compute. discriminate.
  - reflexivity.
  - repeat constructor.
  - vm_compute. discriminate.
  - vm_compute. discriminate.
Defined.

(** ** One trading cycle *)

Lemma np_sum_nonneg (xs : list Q) : Forall (fun x => 0 <= x) xs -> 0 <= np_sum xs.
Proof.
  induction 1 as [|x xs Hx _ IH]; [apply Qle_refl|].
  change (0 <= x + np_sum xs). lra.
Qed.

Section CycleFacts.

Import Cycle.

Lemma kelly_returns (self : Kelly.KellyPositionSizer) (consensus : gmap string Q)
    (stats : option (gmap string Q)) :
  returns (Kelly.calculate_position_size self consensus stats).
Proof.
  unfold Kelly.calculate_position_size, returns.
  destruct (Kelly.kelly_body self consensus (default Kelly.default_stats stats));
    cbn [try_except]; eauto.
Qed.

Lemma max_of_zero (a : Q) : 0 <= max_of a 0.
Proof.
  unfold max_of. destruct (Qltb a 0) eqn:E; [apply Qle_refl|].
  now apply Qltb_ge in E.
Qed.

Lemma min_of_le (a b : Q) : min_of a b <= b.
Proof.
  unfold min_of. destruct (Qltb b a) eqn:E; [apply Qle_refl|].
  now apply Qltb_ge in E.
Qed.

Lemma base_fracs_nonneg (proposed : list Executor.ProposedTrade) :
  Forall (fun x => 0 <= x)
    (map (fun t => max_of (Executor.position_frac t) 0) proposed).
Proof. apply Forall_map, Forall_forall. intros t _. apply max_of_zero. Qed.

Lemma validate_small (frac : Q) :
  0 < frac -> frac <= 0.2 -> validate frac = (true, "ok"%string).
Proof.
  intros Hpos Hcap. unfold validate.
  rewrite (proj2 (Qle_bool_gt frac 0) Hpos).
  now rewrite (proj2 (Qltb_ge 0.2 frac) Hcap).
Qed.

(** The loop of step 8 when the budget is positive and at most the cap of
    the validator: nothing is rejected, and the shares of the budget that
    are sent add up to the part of [raw_sum] the trades stand for. *)
Lemma order_loop_spec (base_asset : string) (budget raw_sum : Q)
    (proposed : list Executor.ProposedTrade) :
  0 < budget -> budget <= 0.2 -> 0 < raw_sum ->
  np_sum (map (fun t => max_of (Executor.position_frac t) 0) proposed) <= raw_sum ->
  exists sent,
    order_loop base_asset budget raw_sum proposed = Ok (sent, 0%Z)
    /\ Forall (fun o => 0 < o_position_frac o /\ o_position_frac o <= budget) sent
    /\ np_sum (map o_position_frac sent)
       == budget
          * (np_sum (map (fun t => max_of (Executor.position_frac t) 0) proposed)
             / raw_sum)
    /\ sublist (map o_strategy_id sent) (map Executor.strategy_id proposed).
Proof.
  intros Hbudget Hcap Hraw.
  induction proposed as [|t rest IH]; intros Hsum.
  - exists []. repeat split; [constructor| |constructor].
    cbn. field. lra.
  - cbn [map] in Hsum.
    change (max_of (Executor.position_frac t) 0
            + np_sum (map (fun t => max_of (Executor.position_frac t) 0) rest)
            <= raw_sum) in Hsum.
    pose proof (max_of_zero (Executor.position_frac t)) as Hb.
    pose proof (np_sum_nonneg _ (base_fracs_nonneg rest)) as Hrest.
    set (b := max_of (Executor.position_frac t) 0) in *.
    set (others := np_sum (map (fun t => max_of (Executor.position_frac t) 0) rest))
      in *.
    destruct IH as (sent & Hloop & Hall & Htotal & Hsub); [lra|].
    cbn [order_loop map]. fold b.
    change (np_sum (b :: map (fun t => max_of (Executor.position_frac t) 0) rest))
      with (b + others).
    destruct (Qle_bool b 0) eqn:Hzero.
    + apply Qle_bool_iff in Hzero.
      exists sent. split; [exact Hloop|]. split; [exact Hall|]. split.
      * rewrite Htotal. assert (b == 0) as -> by lra. field. lra.
      * now apply sublist_cons.
    + apply Qle_bool_gt in Hzero.
      rewrite py_div_ok by lra. cbn [bind].
      assert (0 < b / raw_sum) as Hshare by (apply Qlt_shift_div_l; lra).
      assert (b / raw_sum <= 1) as Hshare1 by (apply Qle_shift_div_r; lra).
      assert (0 < budget * (b / raw_sum)) as Heff
        by (apply Qmult_lt_0_compat; assumption).
      assert (budget * (b / raw_sum) <= budget) as Heff1.
      { assert (0 <= budget * (1 - b / raw_sum))
          by (apply Qmult_le_0_compat; lra). lra. }
      rewrite (proj2 (Qle_bool_gt _ 0) Heff). cbn [check_trade_allowed negb].
      rewrite Hloop. cbn [bind].
      rewrite validate_small by lra. cbn [fst].
      eexists. split; [reflexivity|]. split; [|split].
      * constructor; [|exact Hall]. cbn [o_position_frac]. split; assumption.
      * cbn [map o_position_frac].
        change (budget * (b / raw_sum) + np_sum (map o_position_frac sent)
                == budget * ((b + others) / raw_sum)).
        rewrite Htotal. field. lra.
      * cbn [map o_strategy_id]. now apply sublist_skip.
Qed.

(** How a cycle ends: early, with no order; or in the loop of step 8, with
    a positive budget of at most 0.05 and a positive [raw_sum]. *)
Lemma cycle_cases (np_sqrt : Q -> Q) (agent_scores : gmap string Q)
    (kelly_sizer : Kelly.KellyPositionSizer) (registry : Strategies.Registry)
    (db : Lab.DB) (confidence_threshold : Q) (enabled : bool)
    (symbol timeframe base_asset : string) (approved_strategies : list string)
    (iteration : Z) (agent_responses : list Arbitration.Response)
    (candles : list Strategies.Candle) :
  exists approved,
    _run_cycle_for_context np_sqrt agent_scores kelly_sizer registry db
      confidence_threshold enabled symbol timeframe base_asset
      approved_strategies iteration agent_responses candles
    = Ok {| approved_after := approved; orders := []; rejected := 0 |}
    \/ exists allocations budget,
         let proposed :=
           Executor.generate_trades_for_context registry symbol timeframe
             candles allocations in
         let raw_sum :=
           py_sum (map (fun t => max_of (Executor.position_frac t) 0) proposed) in
         proposed <> [] /\ 0 < budget /\ budget <= 0.05 /\ 0 < raw_sum
         /\ _run_cycle_for_context np_sqrt agent_scores kelly_sizer registry db
              confidence_threshold enabled symbol timeframe base_asset
              approved_strategies iteration agent_responses candles
            = (do ' (sent, n) <- order_loop base_asset budget raw_sum proposed;
               Ok {| approved_after := approved; orders := sent; rejected := n |}).
Proof.
  unfold _run_cycle_for_context.
  destruct enabled; cbn [negb]; [|eexists; left; reflexivity].
  set (approved := if (iteration mod 10 =? 1)%Z
                   then Lab.get_approved_strategies_for_pair db symbol timeframe
                   else approved_strategies).
  exists approved.
  destruct approved as [|sid0 approved0] eqn:Happ; [left; reflexivity|].
  rewrite <- Happ. clear Happ.
  destruct agent_responses as [|r0 responses0] eqn:Hresp; [left; reflexivity|].
  rewrite <- Hresp. clear Hresp. cbv zeta.
  cbn [Regime.scale_consensus Regime.sc_sentiment Regime.sc_confidence
       Regime.sc_max_position_size].
  destruct (Qltb _ confidence_threshold); [left; reflexivity|].
  match goal with
  | |- context [Portfolio.plan_portfolio ?a ?s ?c] =>
      destruct (Portfolio.plan_portfolio a s c) as [|a0 allocs0] eqn:Hplan
  end; [left; reflexivity|].
  destruct candles as [|c0 candles0] eqn:Hcandles; [left; reflexivity|].
  rewrite <- Hcandles. clear Hcandles.
  destruct (Executor.generate_trades_for_context registry symbol timeframe
              candles (a0 :: allocs0)) as [|t0 proposed0] eqn:Hprop;
    [left; reflexivity|].
  match goal with
  | |- context [Kelly.calculate_position_size ?k ?c ?s] =>
      destruct (kelly_returns k c s) as (v & ->)
  end.
  cbn [bind].
  destruct (Qle_bool (min_of v 0.05) 0) eqn:Hbudget; [left; reflexivity|].
  destruct (Qle_bool (py_sum (map (fun t => max_of (Executor.position_frac t) 0)
                                (t0 :: proposed0))) 0) eqn:Hraw;
    [left; reflexivity|].
  right. exists (a0 :: allocs0), (min_of v 0.05). cbv zeta. rewrite Hprop.
  split; [discriminate|]. split; [now apply Qle_bool_gt|].
  split; [apply min_of_le|]. split; [now apply Qle_bool_gt|]. reflexivity.
Qed.

(** X23.  For finite answers of the agents: whenever the cycle gets as
    far as its order loop, the calls of [execute_trade] it reaches stay
    within the budget.  Every fraction is positive and at most 0.05, the
    maximum position size the regime engine returns; there is at most one
    call per strategy; and the validator, whose cap of 20% is above that
    budget, rejects none of them. *)
Theorem cycle_orders_within_budget (np_sqrt : Q -> Q)
    (agent_scores : gmap string Q)
    (kelly_sizer : Kelly.KellyPositionSizer) (registry : Strategies.Registry)
    (db : Lab.DB) (confidence_threshold : Q) (enabled : bool)
    (symbol timeframe base_asset : string) (approved_strategies : list string)
    (iteration : Z) (agent_responses : list Arbitration.Response)
    (candles : list Strategies.Candle) (out : CycleOutcome) :
  _run_cycle_for_context np_sqrt agent_scores kelly_sizer registry db
    confidence_threshold enabled symbol timeframe base_asset
    approved_strategies iteration agent_responses candles = Ok out ->
  rejected out = 0%Z
  /\ Forall (fun o => 0 < o_position_frac o /\ o_position_frac o <= 0.05)
       (orders out)
  /\ NoDup (map o_strategy_id (orders out)).
Proof.
  intros Hout.
  destruct (cycle_cases np_sqrt agent_scores kelly_sizer registry db
              confidence_threshold enabled symbol timeframe base_asset
              approved_strategies iteration agent_responses candles)
    as (approved & [Hstop|(allocations & budget & Hcase)]).
  - rewrite Hstop in Hout. injection Hout as <-. cbn [rejected orders map].
    repeat split; constructor.
  - cbv zeta in Hcase. destruct Hcase as (_ & Hpos & Hcap & Hraw & Hrun).
    set (proposed := Executor.generate_trades_for_context registry symbol
                       timeframe candles allocations) in *.
    set (base := fun t => max_of (Executor.position_frac t) 0) in *.
    assert (np_sum (map base proposed) == py_sum (map base proposed)) as Hsum
      by (symmetry; apply py_sum_np_sum).
    destruct (order_loop_spec base_asset budget (py_sum (map base proposed))
                proposed Hpos ltac:(lra) Hraw ltac:(fold base; lra))
      as (sent & Hloop & Hall & _ & Hsub).
    rewrite Hloop in Hrun. cbn [bind] in Hrun.
    rewrite Hrun in Hout. injection Hout as <-. cbn [rejected orders].
    split; [reflexivity|]. split.
    + eapply Forall_impl; [exact Hall|]. intros o [Ho1 Ho2].
      split; [exact Ho1|lra].
    + apply (sublist_NoDup _ (map Executor.strategy_id proposed)); [|exact Hsub].
      apply generate_trades_sound.
Qed.

(** X24.  With the registry as it is, holding the breakout strategy
    alone, a cycle on candles none of which closes above its high makes no
    call of [execute_trade] and rejects nothing, whatever the agents, the
    database and the configuration are. *)
Theorem breakout_cycle_places_no_order (np_sqrt : Q -> Q)
    (agent_scores : gmap string Q)
    (kelly_sizer : Kelly.KellyPositionSizer)
    (db : Lab.DB) (confidence_threshold : Q) (enabled : bool)
    (symbol timeframe base_asset : string) (approved_strategies : list string)
    (iteration : Z) (agent_responses : list Arbitration.Response)
    (candles : list Strategies.Candle) :
  Forall Strategies.well_formed candles ->
  exists approved,
    _run_cycle_for_context np_sqrt agent_scores kelly_sizer
      Strategies.STRATEGY_REGISTRY db confidence_threshold enabled symbol
      timeframe base_asset approved_strategies iteration agent_responses candles
    = Ok {| approved_after := approved; orders := []; rejected := 0 |}.
Proof.
  intros Hwf.
  destruct (cycle_cases np_sqrt agent_scores kelly_sizer
              Strategies.STRATEGY_REGISTRY db
              confidence_threshold enabled symbol timeframe base_asset
              approved_strategies iteration agent_responses candles)
    as (approved & [Hstop|(allocations & budget & Hcase)]).
  - now exists approved.
  - cbv zeta in Hcase. destruct Hcase as (Hne & _).
    exfalso. apply Hne. now apply breakout_executor_silent.
Qed.

End CycleFacts.

Lemma breakout_cycle_places_no_order_witness :
  exists approved,
    Cycle._run_cycle_for_context (fun x => x) ∅ Kelly.example_sizer
      Strategies.STRATEGY_REGISTRY Lab.example_db 0.5 true "BTC/USDT" "15m" "BTC"
      ["btc_breakout_v1"%string] 2 Arbitration.twice_the_same_advisor_agreeing
      Strategies.calm_frame
    = Ok {| Cycle.approved_after := approved; Cycle.orders := [];
            Cycle.rejected := 0 |}.
Proof.
  apply (breakout_cycle_places_no_order (fun x => x) ∅ Kelly.example_sizer
           Lab.example_db 0.5 true "BTC/USDT" "15m" "BTC"
           ["btc_breakout_v1"%string] 2
           Arbitration.twice_the_same_advisor_agreeing Strategies.calm_frame).
  repeat constructor; vm_compute; discriminate.
Defined.

(** A cycle that does place an order: an eager strategy with the whole
    weight gets the whole budget, the 0.05 cap. *)
Example eager_cycle_places_an_order :
  exists out,
    Cycle._run_cycle_for_context (fun x => x) ∅ Kelly.example_sizer
      Cycle.eager_registry Lab.example_db 0.5 true "BTC/USDT" "15m" "BTC"
      ["eager"%string; "other"%string] 2
      Arbitration.three_advisors Strategies.calm_frame = Ok out
    /\ map Cycle.o_side (Cycle.orders out) = ["buy"%string]
    /\ np_sum (map Cycle.o_position_frac (Cycle.orders out)) == 0.05.
Proof.
  eexists. split; [vm_compute; reflexivity|]. split; reflexivity.
Qed.

Lemma cycle_orders_within_budget_witness :
  exists out,
    Cycle._run_cycle_for_context (fun x => x) ∅ Kelly.example_sizer
      Cycle.eager_registry Lab.example_db 0.5 true "BTC/USDT" "15m" "BTC"
      ["eager"%string; "other"%string] 2
      Arbitration.three_advisors Strategies.calm_frame = Ok out
    /\ Cycle.orders out <> []
    /\ Cycle.rejected out = 0%Z
    /\ Forall (fun o => 0 < Cycle.o_position_frac o
                        /\ Cycle.o_position_frac o <= 0.05) (Cycle.orders out)
    /\ NoDup (map Cycle.o_strategy_id (Cycle.orders out)).
Proof.
  eexists. split; [vm_compute; reflexivity|]. split; [discriminate|].
  apply (cycle_orders_within_budget (fun x => x) ∅ Kelly.example_sizer
           Cycle.eager_registry Lab.example_db 0.5 true "BTC/USDT" "15m" "BTC"
           ["eager"%string; "other"%string] 2
           Arbitration.three_advisors Strategies.calm_frame).
  vm_compute. reflexivity.
Defined.

(** ** From the selection to the planner *)

Lemma filter_sublist {A : Type} (p : A -> bool) (l : list A) :
  sublist (List.filter p l) l.
Proof.
  induction l as [|x l IH]; [constructor|].
  cbn [List.filter]. destruct (p x); [now apply sublist_skip|now apply sublist_cons].
Qed.

Lemma sublist_map {A B : Type} (f : A -> B) (l1 l2 : list A) :
  sublist l1 l2 -> sublist (map f l1) (map f l2).
Proof.
  induction 1 as [|x l1 l2 _ IH|x l1 l2 _ IH]; cbn [map].
  - constructor.
  - now apply sublist_skip.
  - now apply sublist_cons.
Qed.

Section SelectionToPlanner.

Import Lab Portfolio.

Lemma selection_NoDup (db : DB) (p tf : string) :
  NoDup (get_approved_strategies_for_pair db p tf).
Proof.
  unfold get_approved_strategies_for_pair.
  eapply sublist_NoDup; [|apply sublist_map, filter_sublist].
  unfold get_strategies_summary. rewrite map_map. cbn [summarise s_id].
  apply (NoDup_fst_map_to_list (strategies db)).
Qed.

(** X25.  The strategies the selection returns are pairwise distinct, so
    the planner gives every selected strategy a part: one allocation per
    selected strategy, in the order of the selection, every weight
    positive, for every database, sentiment and confidence. *)
Theorem selected_strategies_all_get_a_share (db : DB) (p tf : string)
    (sentiment confidence : Q) :
  get_approved_strategies_for_pair db p tf <> [] ->
  let approved := get_approved_strategies_for_pair db p tf in
  let allocs := plan_portfolio approved sentiment confidence in
  NoDup approved
  /\ map strategy_id allocs = approved
  /\ Forall (fun a => 0 < weight a) allocs.
Proof.
  intros Hne approved allocs.
  pose proof (selection_NoDup db p tf) as Hnd.
  split; [exact Hnd|].
  exact (plan_portfolio_positive approved sentiment confidence Hnd Hne).
Qed.

End SelectionToPlanner.

Lemma selected_strategies_all_get_a_share_witness :
  let approved :=
    Lab.get_approved_strategies_for_pair Lab.example_db "BTC/USDT" "15m" in
  let allocs := Portfolio.plan_portfolio approved 1 0.5 in
  NoDup approved
  /\ map Portfolio.strategy_id allocs = approved
  /\ Forall (fun a => 0 < Portfolio.weight a) allocs.
Proof.
  apply (selected_strategies_all_get_a_share Lab.example_db "BTC/USDT" "15m" 1 0.5).
  vm_compute. discriminate.
Defined.

(** ** The global state and the failsafe *)

Section StateFacts.

Import State.

Lemma after_snoc (cfg : gmap string Q) (cap : Q) (events : list Event)
    (ev : Event) (st : GlobalState) :
  after cfg cap (events ++ [ev]) st = step cfg cap (after cfg cap events st) ev.
Proof. unfold after. now rewrite fold_left_app. Qed.

Lemma check_books (cfg : gmap string Q) (cap ram : Q) (st : GlobalState) :
  trades_executed (_check_once cfg cap ram st) = trades_executed st
  /\ daily_pnl (_check_once cfg cap ram st) = daily_pnl st
  /\ equity_curve (_check_once cfg cap ram st) = equity_curve st
  /\ trades_history (_check_once cfg cap ram st) = trades_history st.
Proof.
  unfold _check_once.
  destruct (Qltb _ ram); [now repeat split|].
  destruct (Qltb _ _); now repeat split.
Qed.

Lemma check_paused (cfg : gmap string Q) (cap ram : Q) (st : GlobalState) :
  is_trading_paused (_check_once cfg cap ram st) = true
  <-> is_trading_paused st = true
      \/ py_get cfg "max_ram_usage_pct" 92 < ram
      \/ daily_pnl st < - py_get cfg "max_daily_loss_pct" 0.05 * cap.
Proof.
  unfold _check_once.
  destruct (Qltb_spec (py_get cfg "max_ram_usage_pct" 92) ram) as [Hram|Hram].
  - cbn. tauto.
  - destruct (Qltb_spec (daily_pnl st)
                (- py_get cfg "max_daily_loss_pct" 0.05 * cap)) as [Hloss|Hloss].
    + cbn. tauto.
    + tauto.
Qed.

(** One call of [record_trade], by whether [float] reads the [pnl]. *)
Lemma record_trade_cases (st : GlobalState) (t : gmap string value) :
  let st' := fst (record_trade st t) in
  is_trading_paused st' = is_trading_paused st
  /\ trades_executed st' = (trades_executed st + 1)%Z
  /\ trades_history st' = trades_history st ++ [t]
  /\ match pnl_of t with
     | Some pnl =>
         snd (record_trade st t) = None
         /\ daily_pnl st' = daily_pnl st + pnl
         /\ equity_curve st' = equity_curve st ++ [daily_pnl st + pnl]
     | None =>
         snd (record_trade st t) = Some TypeError
         /\ daily_pnl st' = daily_pnl st
         /\ equity_curve st' = equity_curve st
     end.
Proof.
  unfold record_trade, pnl_of.
  destruct (t !! "pnl"%string) as [[q|]|]; cbn; repeat split; reflexivity.
Qed.

(** X26.  The books of the global state after any sequence of calls of
    [record_trade] and failsafe checks, in any order: every trade is
    counted and appended to the history, also one whose [pnl] is [None],
    for which the call raises [TypeError] after these two updates; the
    daily profit and loss is the running sum of the results of the other
    trades (zero where the field is missing), and the equity curve has
    grown by one point for each of them, so that it falls behind the
    history by the number of trades that raised; the checks change none
    of these. *)
Theorem state_books (cfg : gmap string Q) (cap : Q) (events : list Event)
    (st : GlobalState) :
  let trades := trades_of events in
  let results := omap pnl_of trades in
  let st' := after cfg cap events st in
  trades_executed st' = (trades_executed st + py_len trades)%Z
  /\ trades_history st' = trades_history st ++ trades
  /\ daily_pnl st' = fold_left Qplus results (daily_pnl st)
  /\ length (equity_curve st') = (length (equity_curve st) + length results)%nat
  /\ (results <> [] -> last (equity_curve st') = Some (daily_pnl st'))
  /\ (forall s t, snd (record_trade s t)
                   = match pnl_of t with
                     | Some _ => None
                     | None => Some TypeError
                     end).
Proof.
  cbv zeta.
  assert (forall s t, snd (record_trade s t)
                      = match pnl_of t with
                        | Some _ => None
                        | None => Some TypeError
                        end) as Hexn.
  { intros s t. pose proof (record_trade_cases s t) as H. cbv zeta in H.
    destruct H as (_ & _ & _ & H). destruct (pnl_of t); apply H. }
  enough (trades_executed (after cfg cap events st)
          = (trades_executed st + py_len (trades_of events))%Z
          /\ trades_history (after cfg cap events st)
             = trades_history st ++ trades_of events
          /\ daily_pnl (after cfg cap events st)
             = fold_left Qplus (omap pnl_of (trades_of events)) (daily_pnl st)
          /\ length (equity_curve (after cfg cap events st))
             = (length (equity_curve st)
                + length (omap pnl_of (trades_of events)))%nat
          /\ (omap pnl_of (trades_of events) <> [] ->
              last (equity_curve (after cfg cap events st))
              = Some (daily_pnl (after cfg cap events st)))) as H
    by (destruct H as (H1 & H2 & H3 & H4 & H5); repeat split; assumption).
  clear Hexn.
  induction events as [|ev events IH] using rev_ind.
  - cbn. unfold py_len. cbn. rewrite app_nil_r.
    repeat split; try lia. congruence.
  - rewrite after_snoc. unfold trades_of in *. rewrite omap_app.
    destruct IH as (Hn & Hhist & Hpnl & Hlen & Hlast).
    destruct ev as [t|ram]; cbn [omap list_omap step].
    + pose proof (record_trade_cases (after cfg cap events st) t) as Hc.
      cbv zeta in Hc. destruct Hc as (_ & Hn' & Hh' & Hp').
      rewrite omap_app. cbn [omap list_omap].
      unfold py_len in *. rewrite length_app. cbn [length].
      split; [rewrite Hn', Hn; lia|].
      split; [rewrite Hh', Hhist; now rewrite app_assoc|].
      destruct (pnl_of t) as [pnl|]; destruct Hp' as (_ & Hd' & He').
      * rewrite Hd', He', fold_left_app, !length_app, Hpnl, Hlen.
        cbn [fold_left length].
        split; [reflexivity|]. split; [lia|].
        intros _. rewrite <- Hpnl. apply last_snoc.
      * rewrite Hd', He', !app_nil_r.
        split; [exact Hpnl|]. split; [exact Hlen|exact Hlast].
    + destruct (check_books cfg cap ram (after cfg cap events st))
        as (-> & -> & -> & ->).
      rewrite !app_nil_r. repeat split; assumption.
Qed.

Lemma step_keeps_pause (cfg : gmap string Q) (cap : Q) (ev : Event)
    (st : GlobalState) :
  is_trading_paused st = true -> is_trading_paused (step cfg cap st ev) = true.
Proof.
  intros Hp. destruct ev as [t|ram]; cbn [step].
  - pose proof (record_trade_cases st t) as H. cbv zeta in H.
    destruct H as (-> & _). exact Hp.
  - apply check_paused. now left.
Qed.

(** X27.  The failsafe is a latch with two triggers.  A check pauses
    trading exactly when it was paused already, or the memory in use is
    above the limit, or the daily profit and loss is below minus the
    daily-loss fraction times the initial capital; and once trading is
    paused it stays paused through every later trade and check, so that
    no later gain and no later reading of the memory resumes it. *)
Theorem failsafe_latches (cfg : gmap string Q) (cap ram : Q)
    (events : list Event) (st : GlobalState) :
  (is_trading_paused (_check_once cfg cap ram st) = true
   <-> is_trading_paused st = true
       \/ py_get cfg "max_ram_usage_pct" 92 < ram
       \/ daily_pnl st < - py_get cfg "max_daily_loss_pct" 0.05 * cap)
  /\ (is_trading_paused st = true ->
      is_trading_paused (after cfg cap events st) = true).
Proof.
  split; [apply check_paused|].
  revert st. induction events as [|ev events IH]; intros st Hp; [exact Hp|].
  cbn [after fold_left]. apply IH. now apply step_keeps_pause.
Qed.

(** On the example day the third trade raises: four trades are counted,
    three points are on the curve, and the loss of 550 has paused trading
    for good at the first check. *)
Example losing_day_books :
  let st := after ∅ 10000 losing_day fresh in
  trades_executed st = 4%Z
  /\ length (trades_history st) = 4%nat
  /\ equity_curve st = [-300; -300 + -250; -300 + -250 + 900]
  /\ is_trading_paused st = true.
Proof. vm_compute. repeat split; reflexivity. Qed.

End StateFacts.

(** ** The memory of an agent *)

Section MemoryFacts.

Import Memory.

Lemma next_id_above (rows : list Decision) :
  Forall (fun r => (dec_id r < next_id rows)%Z) rows.
Proof.
  unfold next_id. induction rows as [|r rows IH]; [constructor|].
  cbn [map fold_right]. constructor; [lia|].
  eapply Forall_impl; [exact IH|]. intros r' Hr'. cbn beta in *. lia.
Qed.

Lemma sql_limit_length {A : Type} (limit : Z) (rows : list A) :
  (0 <= limit)%Z -> (py_len (sql_limit limit rows) <= limit)%Z.
Proof.
  intros Hl. unfold sql_limit, py_len.
  destruct (Z.ltb_spec limit 0); [lia|].
  rewrite length_firstn. lia.
Qed.

Lemma pnls_length (examples : list MemoryExample) :
  (py_len (pnls examples) <= py_len examples)%Z.
Proof.
  unfold py_len, pnls. induction examples as [|e examples IH]; [cbn; lia|].
  cbn [omap list_omap]. destruct (pnl e); cbn [length]; lia.
Qed.

Lemma filter_length_le {A : Type} (p : A -> bool) (l : list A) :
  (py_len (List.filter p l) <= py_len l)%Z.
Proof.
  unfold py_len. induction l as [|x l IH]; [cbn; lia|].
  cbn [List.filter]. destruct (p x); cbn [length]; lia.
Qed.

Lemma ratio_in_unit (a b : Z) :
  (0 <= a <= b)%Z -> (0 < b)%Z -> 0 <= inject_Z a / inject_Z b <= 1.
Proof.
  intros [Ha Hab] Hb.
  assert (0 < inject_Z b) as Hb' by (change 0 with (inject_Z 0); now rewrite <- Zlt_Qlt).
  assert (0 <= inject_Z a) as Ha' by (change 0 with (inject_Z 0); now rewrite <- Zle_Qle).
  assert (inject_Z a <= inject_Z b) as Hab' by now rewrite <- Zle_Qle.
  split.
  - apply Qle_shift_div_l; [exact Hb'|]. now rewrite Qmult_0_l.
  - apply Qle_shift_div_r; [exact Hb'|]. now rewrite Qmult_1_l.
Qed.

(** X28.  The statistics of a memory are sane for every table and every
    lookback: no more examples with a result than examples, no more
    examples than a non-negative lookback; without any result the win rate
    and the average are absent; otherwise both are present and the win
    rate lies in [0, 1]. *)
Theorem memory_stats_are_sane (self : AgentMemory) (lookback : Z) :
  let examples := get_recent_examples self lookback in
  let stats := get_stats self lookback in
  (0 <= with_pnl stats <= count stats)%Z
  /\ count stats = py_len examples
  /\ with_pnl stats = py_len (pnls examples)
  /\ ((0 <= lookback)%Z -> (count stats <= lookback)%Z)
  /\ (with_pnl stats = 0%Z -> win_rate stats = None /\ avg_pnl stats = None)
  /\ ((0 < with_pnl stats)%Z ->
      exists w a, win_rate stats = Some w /\ avg_pnl stats = Some a
        /\ 0 <= w <= 1).
Proof.
  cbv zeta. unfold get_stats.
  set (examples := get_recent_examples self lookback).
  assert ((0 <= lookback)%Z -> (py_len examples <= lookback)%Z) as Hlimit.
  { intros Hl. unfold examples, get_recent_examples, py_len.
    rewrite length_map. now apply sql_limit_length. }
  pose proof (pnls_length examples) as Hle.
  destruct (pnls examples) as [|x xs] eqn:Hp;
    cbn [count with_pnl win_rate avg_pnl].
  - unfold py_len in *. cbn [length] in *.
    repeat split; try lia; try assumption; try reflexivity.
  - set (results := x :: xs) in *.
    assert (0 < py_len results)%Z as Hpos'
      by (unfold py_len, results; cbn [length]; lia).
    repeat split; try lia; try assumption.
    intros _. do 2 eexists. split; [reflexivity|]. split; [reflexivity|].
    apply ratio_in_unit; [|exact Hpos'].
    split; [unfold py_len; lia|apply filter_length_le].
Qed.

(** X29.  A decision that was just logged is the first recent example:
    its id is larger than every id of the table, and for every limit
    other than zero [get_recent_examples] returns it in front of the
    examples it returned before, cut to the limit. *)
Theorem logged_decision_is_most_recent (self : AgentMemory)
    (features_vec : list Q) (s c : Q) (risk : string) (p : option Q)
    (limit : Z) :
  limit <> 0%Z ->
  let self' := fst (log_decision self features_vec s c risk p) in
  let new_id := snd (log_decision self features_vec s c risk p) in
  Forall (fun r => (dec_id r < new_id)%Z) (decisions self)
  /\ get_recent_examples self' limit
     = {| sentiment := s; confidence := c; risk_level := risk; pnl := p;
          features := features_vec |}
       :: (if (limit <? 0)%Z then get_recent_examples self limit
           else get_recent_examples self (limit - 1)).
Proof.
  intros Hlimit. cbv zeta. cbn [log_decision fst snd].
  pose proof (next_id_above (decisions self)) as Habove.
  split; [exact Habove|].
  unfold get_recent_examples. cbn [agent_id decisions].
  rewrite List.filter_app. cbn [List.filter dec_agent_id].
  rewrite bool_decide_eq_true_2 by reflexivity.
  rewrite sorted_by_snoc_first.
  2:{ apply Forall_filter_stdlib. eapply Forall_impl; [exact Habove|].
      intros r Hr. cbn [dec_id]. cbn beta in Hr. lia. }
  unfold sql_limit.
  destruct (Z.ltb_spec limit 0) as [Hneg|Hnn].
  - reflexivity.
  - destruct (Z.ltb_spec (limit - 1) 0); [lia|].
    replace (Z.to_nat limit) with (S (Z.to_nat (limit - 1))) by lia.
    reflexivity.
Qed.

End MemoryFacts.

Lemma logged_decision_is_most_recent_witness :
  exists rest,
    Memory.get_recent_examples
      (fst (Memory.log_decision Memory.small_memory [1; 2] 0.3 0.8 "low" (Some 5))) 2
    = {| Memory.sentiment := 0.3; Memory.confidence := 0.8;
         Memory.risk_level := "low"; Memory.pnl := Some 5;
         Memory.features := [1; 2] |} :: rest.
Proof.
  eexists.
  refine (proj2 (logged_decision_is_most_recent Memory.small_memory [1; 2]
                   0.3 0.8 "low" (Some 5) 2 _)).
  discriminate.
Defined.
